(** * SafeSchool Edge network administration service

    A shallow embedding of [deploy/edge/image/network-admin.py]: the
    rate limiter, the session table, the validation, rendering and
    persisting of a netplan configuration ([apply_network_config]) and the
    routing skeleton of the HTTP handler, with the properties of the
    specification stated over them.

    Conventions of the embedding.
    - A Python [str] is a [string]; one [ascii] stands for one code point in
      0..255.
    - [time.time()] is an integer number of time units ([Z]); the handlers
      receive the clock reading as an argument.
    - The operating system (the netplan directory, [hostnamectl], [Popen],
      the log) is an explicit [world] value threaded through the functions;
      whether a system call fails is read from an [env] record.
    - The functions of Python's standard library that the service calls
      ([int], [str.split], [re.match], [ipaddress.ip_address],
      [ipaddress.ip_network]) are embedded from CPython's sources in the
      modules [Py], [re] and [ipaddress]. *)

From Stdlib Require Import ZArith String Ascii List Bool Lia.
From stdpp Require Import gmap strings list.

Local Open Scope Z_scope.

(* ===================================================================== *)
(** ** Python string primitives *)
(* ===================================================================== *)

Module Py.

Definition code (c : ascii) : Z := Z.of_N (N_of_ascii c).

Definition in_range (lo hi : ascii) (c : ascii) : bool :=
  (code lo <=? code c) && (code c <=? code hi).

(** [c.isascii() and c.isdigit()] for one character. *)
Definition is_digit (c : ascii) : bool := in_range "0" "9" c.

Definition digit_val (c : ascii) : Z := code c - 48.

(** [str.isascii() and str.isdigit()]: non-empty, ASCII digits only. *)
Fixpoint all_digits (s : string) : bool :=
  match s with
  | EmptyString => true
  | String c s' => is_digit c && all_digits s'
  end.

Definition isascii_isdigit (s : string) : bool :=
  match s with
  | EmptyString => false
  | _ => all_digits s
  end.

(** [bool(s)] for a string: non-empty. *)
Definition truthy (s : string) : bool :=
  match s with
  | EmptyString => false
  | _ => true
  end.

Definition len (s : string) : Z := Z.of_nat (String.length s).

(** [sep in s] for a one-character [sep]. *)
Fixpoint contains (sep : ascii) (s : string) : bool :=
  match s with
  | EmptyString => false
  | String c s' => if Ascii.eqb c sep then true else contains sep s'
  end.

(** [s.split(sep)] for a one-character separator: never the empty list. *)
Fixpoint split (sep : ascii) (s : string) : list string :=
  match s with
  | EmptyString => [EmptyString]
  | String c s' =>
      if Ascii.eqb c sep then EmptyString :: split sep s'
      else match split sep s' with
           | h :: t => String c h :: t
           | [] => [String c EmptyString]
           end
  end.

(** [s.partition(sep)]: the part before the first [sep], whether [sep] was
    found, and the part after it. *)
Fixpoint partition (sep : ascii) (s : string) : string * bool * string :=
  match s with
  | EmptyString => (EmptyString, false, EmptyString)
  | String c s' =>
      if Ascii.eqb c sep then (EmptyString, true, s')
      else let '(a, found, b) := partition sep s' in (String c a, found, b)
  end.

(** [s.endswith(suffix)]. *)
Definition endswith (suffix s : string) : bool :=
  let n := String.length s in
  let k := String.length suffix in
  (k <=? n)%nat && String.eqb (String.substring (n - k) k s) suffix.

(** [sep.join(l)]. *)
Fixpoint join (sep : string) (l : list string) : string :=
  match l with
  | [] => EmptyString
  | [x] => x
  | x :: t => x +:+ sep +:+ join sep t
  end.

(** White space as [int()] sees it on a [str] of code points below 256:
    the C locale's space characters, and U+0085 and U+00A0, which the
    conversion to ASCII turns into a blank. *)
Definition int_space (c : ascii) : bool :=
  in_range "009" "013" c || Ascii.eqb c " " ||
  (code c =? 133) || (code c =? 160).

(** White space as [str.strip()] sees it on code points below 256. *)
Definition is_space (c : ascii) : bool :=
  in_range "009" "013" c || in_range "028" "032" c ||
  (code c =? 133) || (code c =? 160).

Fixpoint lstrip (sp : ascii -> bool) (s : string) : string :=
  match s with
  | EmptyString => EmptyString
  | String c s' => if sp c then lstrip sp s' else s
  end.

Fixpoint rstrip (sp : ascii -> bool) (s : string) : string :=
  match s with
  | EmptyString => EmptyString
  | String c s' =>
      match rstrip sp s' with
      | EmptyString => if sp c then EmptyString else String c EmptyString
      | r => String c r
      end
  end.

Definition strip (s : string) : string := rstrip is_space (lstrip is_space s).

(** The exceptions of class [ValueError] that reach the service. *)
Inductive ValueError : Type :=
| InvalidLiteral (s : string)
    (* invalid literal for int() with base 10: ... *)
| ExceedsDigitLimit (digits : Z)
    (* Exceeds the limit (4300 digits) for integer string conversion *)
| NotAnAddress (s : string)
    (* ... does not appear to be an IPv4 or IPv6 address *)
| NotANetwork (s : string)
    (* ... does not appear to be an IPv4 or IPv6 network *).

Inductive result (A : Type) : Type :=
| Ok (a : A)
| Raise (e : ValueError).
Arguments Ok {A} a.
Arguments Raise {A} e.

Definition bind {A B : Type} (r : result A) (k : A -> result B) : result B :=
  match r with
  | Ok a => k a
  | Raise e => Raise e
  end.

(** The digit loop of [long_from_string_base]: digits and single
    underscores between them; [prev_us] says the previous character was an
    underscore.  Returns the value, the number of digits and the rest. *)
Fixpoint scan_digits (s : string) (prev_us : bool) (acc n : Z)
  : option (Z * Z * string) :=
  match s with
  | EmptyString => if prev_us then None else Some (acc, n, EmptyString)
  | String c s' =>
      if is_digit c then scan_digits s' false (acc * 10 + digit_val c) (n + 1)
      else if Ascii.eqb c "_" then
             if prev_us then None else scan_digits s' true acc n
      else if prev_us then None else Some (acc, n, s)
  end.

Definition int_max_str_digits : Z := 4300.

(** [int(s)] for a [str] argument, base 10. *)
Definition int (s : string) : result Z :=
  let s1 := lstrip int_space s in
  let '(sign, s2) :=
    match s1 with
    | String "+" r => (1, r)
    | String "-" r => (-1, r)
    | _ => (1, s1)
    end in
  match s2 with
  | String "_" _ => Raise (InvalidLiteral s)
  | _ =>
      match scan_digits s2 false 0 0 with
      | None => Raise (InvalidLiteral s)
      | Some (v, n, rest) =>
          if n =? 0 then Raise (InvalidLiteral s)
          else if int_max_str_digits <? n then Raise (ExceedsDigitLimit n)
          else match lstrip int_space rest with
               | EmptyString => Ok (sign * v)
               | _ => Raise (InvalidLiteral s)
               end
      end
  end.

(** [int(s, 10)] on a short string of ASCII digits. *)
Fixpoint decimal_acc (s : string) (acc : Z) : Z :=
  match s with
  | EmptyString => acc
  | String c s' => decimal_acc s' (acc * 10 + digit_val c)
  end.

Definition hex_val (c : ascii) : option Z :=
  if in_range "0" "9" c then Some (code c - 48)
  else if in_range "a" "f" c then Some (code c - 87)
  else if in_range "A" "F" c then Some (code c - 55)
  else None.

Definition hex_digit (d : Z) : ascii :=
  if d <? 10 then ascii_of_N (Z.to_N (d + 48)) else ascii_of_N (Z.to_N (d + 87)).

Fixpoint hex_acc (fuel : nat) (n : Z) (acc : string) : string :=
  match fuel with
  | O => acc
  | S f => if n =? 0 then acc
           else hex_acc f (n / 16) (String (hex_digit (n mod 16)) acc)
  end.

(** ['%x' % n] for [0 <= n < 65536]. *)
Definition hex16 (n : Z) : string :=
  if n =? 0 then "0" else hex_acc 4 n EmptyString.

(** [n.bit_length()]. *)
Definition bit_length (n : Z) : Z :=
  if n =? 0 then 0 else Z.log2 (Z.abs n) + 1.

End Py.

(* ===================================================================== *)
(** ** The [ipaddress] module of the standard library *)
(* ===================================================================== *)

(** [AddressValueError] and [NetmaskValueError] never leave the module:
    [ip_address] and [ip_network] catch them and raise a plain
    [ValueError].  The functions that raise them return [option]. *)

Module ipaddress.

Import Py.

Definition IPV4LENGTH : Z := 32.
Definition IPV6LENGTH : Z := 128.

Definition ALL_ONES (bits : Z) : Z := 2 ^ bits - 1.

Inductive address : Type :=
| IPv4Address (ip : Z)
| IPv6Address (ip : Z) (scope_id : option string).

Inductive network : Type :=
| IPv4Network (network_address : Z) (prefixlen : Z)
| IPv6Network (network_address : Z) (scope_id : option string) (prefixlen : Z).

(** [_BaseV4._parse_octet]. *)
Definition parse_octet (octet_str : string) : option Z :=
  if negb (truthy octet_str) then None
  else if negb (isascii_isdigit octet_str) then None
  else if 3 <? len octet_str then None
  else if negb (String.eqb octet_str "0") &&
          match octet_str with String "0" _ => true | _ => false end
       then None
  else let octet_int := decimal_acc octet_str 0 in
       if 255 <? octet_int then None else Some octet_int.

(** [int.from_bytes(map(f, l), 'big')], failing when [f] fails. *)
Fixpoint from_bytes_map (f : string -> option Z) (l : list string) (acc : Z)
  : option Z :=
  match l with
  | [] => Some acc
  | x :: t => match f x with
              | Some b => from_bytes_map f t (acc * 256 + b)
              | None => None
              end
  end.

(** [_BaseV4._ip_int_from_string]. *)
Definition v4_ip_int_from_string (ip_str : string) : option Z :=
  if negb (truthy ip_str) then None
  else let octets := split "." ip_str in
       if negb (length octets =? 4)%nat then None
       else from_bytes_map parse_octet octets 0.

(** [IPv4Address.__init__] on a [str]. *)
Definition IPv4Address_init (address : string) : option Z :=
  if contains "/" address then None
  else v4_ip_int_from_string address.

(** [_BaseV6._parse_hextet]. *)
Fixpoint hex_acc_val (s : string) (acc : Z) : option Z :=
  match s with
  | EmptyString => Some acc
  | String c s' => match hex_val c with
                   | Some d => hex_acc_val s' (acc * 16 + d)
                   | None => None
                   end
  end.

Definition parse_hextet (hextet_str : string) : option Z :=
  match hex_acc_val hextet_str 0 with
  | None => None                      (* not a subset of _HEX_DIGITS *)
  | Some v =>
      if 4 <? len hextet_str then None
      else if truthy hextet_str then Some v
      else None                       (* int('', 16) raises ValueError *)
  end.

(** [_BaseV6._split_scope_id]. *)
Definition split_scope_id (ip_str : string) : option (string * option string) :=
  let '(addr, sep, scope_id) := partition "%" ip_str in
  if negb sep then Some (addr, None)
  else if negb (truthy scope_id) || contains "%" scope_id then None
  else Some (addr, Some scope_id).

(** The search for the ['::'] of [_ip_int_from_string]: the index of the
    only empty part strictly between the end points; [Some None] when there
    is none; [None] when there are two. *)
Fixpoint find_skip (parts : list string) (i last : nat) (skip : option nat)
  : option (option nat) :=
  match parts with
  | [] => Some skip
  | p :: t =>
      if (0 <? i)%nat && (i <? last)%nat && negb (truthy p) then
        match skip with
        | Some _ => None
        | None => find_skip t (S i) last (Some i)
        end
      else find_skip t (S i) last skip
  end.

(** The two loops that fold the hextets into the address. *)
Fixpoint fold_hextets (l : list string) (ip_int : Z) : option Z :=
  match l with
  | [] => Some ip_int
  | h :: t => match parse_hextet h with
              | Some v => fold_hextets t (Z.lor (Z.shiftl ip_int 16) v)
              | None => None
              end
  end.

Definition HEXTET_COUNT : nat := 8.

(** [_BaseV6._ip_int_from_string]. *)
Definition v6_ip_int_from_string (ip_str : string) : option Z :=
  if negb (truthy ip_str) then None
  else
    let parts := split ":" ip_str in
    if (length parts <? 3)%nat then None
    else
      (* an IPv4-style suffix becomes two hextets *)
      let parts' :=
        let lst := List.last parts EmptyString in
        if contains "." lst then
          match IPv4Address_init lst with
          | None => None
          | Some ipv4_int =>
              Some (removelast parts ++
                    [hex16 (Z.land (Z.shiftr ipv4_int 16) 65535);
                     hex16 (Z.land ipv4_int 65535)])
          end
        else Some parts in
      match parts' with
      | None => None
      | Some parts =>
          let n := length parts in
          if (HEXTET_COUNT + 1 <? n)%nat then None
          else
            match find_skip parts 0 (n - 1) None with
            | None => None
            | Some (Some skip_index) =>
                let first_empty := negb (truthy (List.hd EmptyString parts)) in
                let last_empty := negb (truthy (List.last parts EmptyString)) in
                let parts_hi := if first_empty then (skip_index - 1)%nat else skip_index in
                let parts_lo0 := (n - skip_index - 1)%nat in
                let parts_lo := if last_empty then (parts_lo0 - 1)%nat else parts_lo0 in
                if first_empty && negb (parts_hi =? 0)%nat then None
                else if last_empty && negb (parts_lo =? 0)%nat then None
                else if (HEXTET_COUNT <? parts_hi + parts_lo + 1)%nat then None
                else
                  let parts_skipped := (HEXTET_COUNT - (parts_hi + parts_lo))%nat in
                  match fold_hextets (firstn parts_hi parts) 0 with
                  | None => None
                  | Some hi =>
                      fold_hextets (skipn (n - parts_lo) parts)
                        (Z.shiftl hi (16 * Z.of_nat parts_skipped))
                  end
            | Some None =>
                if negb (n =? HEXTET_COUNT)%nat then None
                else if negb (truthy (List.hd EmptyString parts)) then None
                else if negb (truthy (List.last parts EmptyString)) then None
                else fold_hextets parts 0
            end
      end.

(** [IPv6Address.__init__] on a [str]. *)
Definition IPv6Address_init (address : string) : option (Z * option string) :=
  if contains "/" address then None
  else match split_scope_id address with
       | None => None
       | Some (addr_str, scope_id) =>
           match v6_ip_int_from_string addr_str with
           | None => None
           | Some ip => Some (ip, scope_id)
           end
       end.

(** [ipaddress.ip_address] on a [str]. *)
Definition ip_address (addr : string) : result address :=
  match IPv4Address_init addr with
  | Some ip => Ok (IPv4Address ip)
  | None =>
      match IPv6Address_init addr with
      | Some (ip, scope) => Ok (IPv6Address ip scope)
      | None => Raise (NotAnAddress addr)
      end
  end.

(** [_count_righthand_zero_bits]. *)
Definition count_righthand_zero_bits (number bits : Z) : Z :=
  if number =? 0 then bits
  else Z.min bits (bit_length (Z.land (Z.lnot number) (number - 1))).

(** [_ip_int_from_prefix]. *)
Definition ip_int_from_prefix (max_prefixlen prefixlen : Z) : Z :=
  Z.lxor (ALL_ONES max_prefixlen) (Z.shiftr (ALL_ONES max_prefixlen) prefixlen).

(** [_prefix_from_ip_int]; [None] stands for its [ValueError]. *)
Definition prefix_from_ip_int (max_prefixlen ip_int : Z) : option Z :=
  let trailing_zeroes := count_righthand_zero_bits ip_int max_prefixlen in
  let prefixlen := max_prefixlen - trailing_zeroes in
  let leading_ones := Z.shiftr ip_int trailing_zeroes in
  let all_ones := Z.shiftl 1 prefixlen - 1 in
  if negb (leading_ones =? all_ones) then None else Some prefixlen.

(** [_prefix_from_prefix_string]. *)
Definition prefix_from_prefix_string (max_prefixlen : Z) (prefixlen_str : string)
  : option Z :=
  if negb (isascii_isdigit prefixlen_str) then None
  else match int prefixlen_str with
       | Raise _ => None
       | Ok prefixlen =>
           if negb ((0 <=? prefixlen) && (prefixlen <=? max_prefixlen)) then None
           else Some prefixlen
       end.

(** [_prefix_from_ip_string], used for IPv4 masks only. *)
Definition prefix_from_ip_string (ip_str : string) : option Z :=
  match v4_ip_int_from_string ip_str with
  | None => None
  | Some ip_int =>
      match prefix_from_ip_int IPV4LENGTH ip_int with
      | Some p => Some p
      | None => prefix_from_ip_int IPV4LENGTH (Z.lxor ip_int (ALL_ONES IPV4LENGTH))
      end
  end.

(** [_BaseV4._make_netmask] on a [str]; the prefix length. *)
Definition v4_make_netmask (arg : string) : option Z :=
  match prefix_from_prefix_string IPV4LENGTH arg with
  | Some p => Some p
  | None => prefix_from_ip_string arg
  end.

(** [_BaseV6._make_netmask] on a [str]. *)
Definition v6_make_netmask (arg : string) : option Z :=
  prefix_from_prefix_string IPV6LENGTH arg.

(** [_split_addr_prefix] on a [str]: the address and the mask, the mask
    being absent when there is no ['/']. *)
Definition split_addr_prefix (address : string) : option (string * option string) :=
  match split "/" address with
  | [a] => Some (a, None)
  | [a; m] => Some (a, Some m)
  | _ => None
  end.

(** [IPv4Network.__init__] with [strict=False]. *)
Definition IPv4Network_init (address : string) : option network :=
  match split_addr_prefix address with
  | None => None
  | Some (addr, mask) =>
      match IPv4Address_init addr with
      | None => None
      | Some packed =>
          match match mask with
                | Some m => v4_make_netmask m
                | None => Some IPV4LENGTH
                end with
          | None => None
          | Some prefixlen =>
              let netmask := ip_int_from_prefix IPV4LENGTH prefixlen in
              Some (IPv4Network (Z.land packed netmask) prefixlen)
          end
      end
  end.

(** [IPv6Network.__init__] with [strict=False]. *)
Definition IPv6Network_init (address : string) : option network :=
  match split_addr_prefix address with
  | None => None
  | Some (addr, mask) =>
      match IPv6Address_init addr with
      | None => None
      | Some (packed, scope) =>
          match match mask with
                | Some m => v6_make_netmask m
                | None => Some IPV6LENGTH
                end with
          | None => None
          | Some prefixlen =>
              let netmask := ip_int_from_prefix IPV6LENGTH prefixlen in
              Some (IPv6Network (Z.land packed netmask) scope prefixlen)
          end
      end
  end.

(** [ipaddress.ip_network(address, strict=False)] on a [str]. *)
Definition ip_network (addr : string) : result network :=
  match IPv4Network_init addr with
  | Some n => Ok n
  | None =>
      match IPv6Network_init addr with
      | Some n => Ok n
      | None => Raise (NotANetwork addr)
      end
  end.

End ipaddress.

(* ===================================================================== *)
(** ** The fragment of [re] used by the service *)
(* ===================================================================== *)

Module re.

Import Py.

(** Patterns: anchors, character classes given by ranges, sequence,
    [r?] and [r{lo,hi}].  Groups only bracket and are not represented. *)
Inductive regex : Type :=
| Bol                                  (* ^ *)
| Eol                                  (* $ *)
| Class (ranges : list (ascii * ascii))
| Seq (r1 r2 : regex)
| Opt (r : regex)
| Repeat (lo hi : nat) (r : regex).

Definition in_class (ranges : list (ascii * ascii)) (c : ascii) : bool :=
  existsb (fun '(lo, hi) => in_range lo hi c) ranges.

(** Without [re.MULTILINE], [$] matches at the end of the string and just
    before a newline that ends the string. *)
Definition at_eol (s : string) : bool :=
  match s with
  | EmptyString => true
  | String c EmptyString => Ascii.eqb c "010"
  | _ => false
  end.

(** The backtracking matcher, in continuation-passing style: [m r pos s k]
    holds when [r] matches a prefix of [s], the rest of the subject from
    position [pos], and [k] accepts what follows. *)
Fixpoint m (r : regex) (pos : nat) (s : string) (k : nat -> string -> bool)
  {struct r} : bool :=
  match r with
  | Bol => (pos =? 0)%nat && k pos s
  | Eol => at_eol s && k pos s
  | Class ranges =>
      match s with
      | String c s' => in_class ranges c && k (S pos) s'
      | EmptyString => false
      end
  | Seq r1 r2 => m r1 pos s (fun p s' => m r2 p s' k)
  | Opt r1 => m r1 pos s k || k pos s
  | Repeat lo hi r1 =>
      (fix rep (lo hi : nat) (pos : nat) (s : string) {struct hi} : bool :=
         match hi with
         | O => k pos s
         | S hi' =>
             match lo with
             | O => m r1 pos s (fun p s' => rep O hi' p s') || k pos s
             | S lo' => m r1 pos s (fun p s' => rep lo' hi' p s')
             end
         end) lo hi pos s
  end.

(** [bool(re.match(pattern, string))]: a match anchored at position 0. *)
Definition match_ (pattern : regex) (s : string) : bool :=
  m pattern 0 s (fun _ _ => true).

End re.

(* ===================================================================== *)
(** ** Configuration *)
(* ===================================================================== *)

Definition NETPLAN_NAME : string := "99-safeschool-static.yaml".
Definition NETPLAN_DIR : string := "/etc/netplan".
Definition NETPLAN_FILE : string := NETPLAN_DIR +:+ "/" +:+ NETPLAN_NAME.
Definition SESSION_TIMEOUT : Z := 3600.
Definition RATE_LIMIT : Z := 5.
Definition RATE_WINDOW : Z := 60.

(* ===================================================================== *)
(** ** Rate limiting *)
(* ===================================================================== *)

(** [_rate_map]: for each client address, the time stamps of its accepted
    requests, oldest first. *)
Abbreviation rate_table := (gmap string (list Z)).

(** [check_rate_limit(ip)], [now] being the reading of [time.time()]. *)
Definition check_rate_limit (now : Z) (ip : string) (rate_map : rate_table)
  : bool * rate_table :=
  let hits := default [] (rate_map !! ip) in
  let hits := List.filter (fun t => now - t <? RATE_WINDOW) hits in
  if RATE_LIMIT <=? Z.of_nat (length hits) then (false, <[ip := hits]> rate_map)
  else (true, <[ip := hits ++ [now]]> rate_map).

(** A sequence of calls, each with its clock reading and client. *)
Fixpoint check_rate_limit_run (calls : list (Z * string)) (rate_map : rate_table)
  : list bool * rate_table :=
  match calls with
  | [] => ([], rate_map)
  | (now, ip) :: rest =>
      let '(b, rate_map1) := check_rate_limit now ip rate_map in
      let '(bs, rate_map2) := check_rate_limit_run rest rate_map1 in
      (b :: bs, rate_map2)
  end.

(* ===================================================================== *)
(** ** Sessions *)
(* ===================================================================== *)

(** [_sessions]: session identifier to the time it was last seen. *)
Abbreviation session_table := (gmap string Z).

(** [create_session()]; [sid] is the value of [secrets.token_hex(24)]. *)
Definition create_session (sid : string) (now : Z) (sessions : session_table)
  : string * session_table :=
  (sid, <[sid := now]> sessions).

(** [valid_session(sid)]; [now] is the clock reading of the expiry test and
    [now'] the one stored by the refresh. *)
Definition valid_session (now now' : Z) (sid : string) (sessions : session_table)
  : bool * session_table :=
  match sessions !! sid with
  | None => (false, sessions)
  | Some ts =>
      if SESSION_TIMEOUT <? now - ts then (false, delete sid sessions)
      else (true, <[sid := now']> sessions)
  end.

(* ===================================================================== *)
(** ** The operating system as the service sees it *)
(* ===================================================================== *)

Record file : Type := { content : string; mode : Z }.

(** The entries of [/etc/netplan], in the order [os.listdir] reports them. *)
Abbreviation directory := (list (string * file)).

Inductive syscall : Type :=
| Listdir | Remove (fname : string) | Makedirs | Open | Write | Chmod
| Hostnamectl.

(** [OSError] and the like: the call that failed. *)
Inductive OSError : Type := Failed (call : syscall).

Inductive log_record : Type :=
| Removed_old_config (fname : string)      (* info *)
| Could_not_clean (e : OSError)            (* warning *)
| Wrote_config                             (* info *)
| Hostname_set (hostname : string)         (* info *)
| Hostname_failed (e : OSError)            (* warning *)
| Scheduled_apply (dhcp : bool) (ip : string)  (* info *)
| Rate_limit_exceeded (client : string)    (* warning *)
| Failed_auth (client : string)            (* warning *)
| Successful_auth (client : string)        (* info *)
| Hostname_changed (hostname client : string)  (* info *)
| Access (client : string) (status : Z)    (* info, from log_message *).

(** What the service can change outside its own memory. *)
Record world : Type := {
  netplan_dir : option directory;   (* None: the directory does not exist *)
  hostname : string;                (* as set through hostnamectl *)
  scheduled : list string;          (* commands started with Popen *)
  log : list log_record             (* oldest first *)
}.

(** What the service reads from its surroundings, and which system calls
    fail. *)
Record env : Type := {
  default_interface : string;       (* result of get_default_interface() *)
  utc_stamp : string;               (* datetime.now(timezone.utc).strftime(...) *)
  create_mode : Z;                  (* 0o666 & ~umask *)
  listdir_fails : bool;
  remove_fails : string -> bool;
  makedirs_fails : bool;
  open_fails : bool;
  write_fails : bool;
  chmod_fails : bool;
  hostnamectl_fails : bool
}.

Definition set_dir (d : option directory) (w : world) : world :=
  {| netplan_dir := d; hostname := hostname w;
     scheduled := scheduled w; log := log w |}.

Definition set_hostname (h : string) (w : world) : world :=
  {| netplan_dir := netplan_dir w; hostname := h;
     scheduled := scheduled w; log := log w |}.

Definition add_scheduled (cmd : string) (w : world) : world :=
  {| netplan_dir := netplan_dir w; hostname := hostname w;
     scheduled := scheduled w ++ [cmd]; log := log w |}.

Definition add_log (r : log_record) (w : world) : world :=
  {| netplan_dir := netplan_dir w; hostname := hostname w;
     scheduled := scheduled w; log := log w ++ [r] |}.

(** *** A state monad that records every state it passes through

    [m w] returns the value, the final world and the worlds reached after
    each system call of [m], oldest first: the states that another process
    can observe while [m] runs. *)
Definition M (A : Type) : Type := world -> A * world * list world.

Definition ret {A : Type} (a : A) : M A := fun w => (a, w, []).

Definition bindM {A B : Type} (c : M A) (k : A -> M B) : M B :=
  fun w =>
    let '(a, w1, t1) := c w in
    let '(b, w2, t2) := k a w1 in
    (b, w2, t1 ++ t2).

(** One system call that changes the world. *)
Definition effect (f : world -> world) : M unit :=
  fun w => (tt, f w, [f w]).

Declare Scope M_scope.
Delimit Scope M_scope with M.
Notation "x <- c ;; k" := (bindM c (fun x => k))
  (at level 100, c at next level, right associativity) : M_scope.
Notation "c ;;; k" := (bindM c (fun _ => k))
  (at level 100, right associativity) : M_scope.

Definition value_of {A : Type} (r : A * world * list world) : A := fst (fst r).
Definition world_of {A : Type} (r : A * world * list world) : world := snd (fst r).
Definition trace_of {A : Type} (r : A * world * list world) : list world := snd r.

Definition info (r : log_record) : M unit := effect (add_log r).
Definition warning (r : log_record) : M unit := effect (add_log r).

(** *** System calls on the netplan directory *)

Definition lookup_file (fname : string) (d : directory) : option file :=
  snd <$> List.find (fun p => String.eqb (fst p) fname) d.

Definition remove_entry (fname : string) (d : directory) : directory :=
  List.filter (fun p => negb (String.eqb (fst p) fname)) d.

Definition update_file (fname : string) (f : file -> file) (d : directory)
  : directory :=
  List.map (fun p => if String.eqb (fst p) fname then (fst p, f (snd p)) else p) d.

(** [os.listdir(NETPLAN_DIR)]. *)
Definition os_listdir (e : env) : M (OSError + list string) :=
  fun w =>
    match netplan_dir w with
    | Some d => if listdir_fails e then (inl (Failed Listdir), w, [])
                else (inr (List.map fst d), w, [])
    | None => (inl (Failed Listdir), w, [])
    end.

(** [os.remove(os.path.join(NETPLAN_DIR, fname))]. *)
Definition os_remove (e : env) (fname : string) : M (option OSError) :=
  fun w =>
    match netplan_dir w with
    | Some d =>
        if remove_fails e fname || negb (bool_decide (is_Some (lookup_file fname d)))
        then (Some (Failed (Remove fname)), w, [])
        else let w' := set_dir (Some (remove_entry fname d)) w in
             (None, w', [w'])
    | None => (Some (Failed (Remove fname)), w, [])
    end.

(** [os.makedirs(NETPLAN_DIR, exist_ok=True)]. *)
Definition os_makedirs (e : env) : M (option OSError) :=
  fun w =>
    match netplan_dir w with
    | Some _ => (None, w, [])
    | None => if makedirs_fails e then (Some (Failed Makedirs), w, [])
              else let w' := set_dir (Some []) w in (None, w', [w'])
    end.

(** [open(NETPLAN_FILE, "w")]: the file is created empty, or truncated when
    it exists; an existing file keeps its mode. *)
Definition open_w (e : env) : M (option OSError) :=
  fun w =>
    match netplan_dir w with
    | Some d =>
        if open_fails e then (Some (Failed Open), w, [])
        else
          let d' :=
            match lookup_file NETPLAN_NAME d with
            | Some _ =>
                update_file NETPLAN_NAME
                  (fun f => {| content := EmptyString; mode := mode f |}) d
            | None =>
                d ++ [(NETPLAN_NAME,
                       {| content := EmptyString; mode := create_mode e |})]
            end in
          let w' := set_dir (Some d') w in (None, w', [w'])
    | None => (Some (Failed Open), w, [])
    end.

(** [f.write(netplan)] and the flush when the [with] block closes [f]. *)
Definition write_close (e : env) (text : string) : M (option OSError) :=
  fun w =>
    match netplan_dir w with
    | Some d =>
        if write_fails e then (Some (Failed Write), w, [])
        else
          let w' := set_dir (Some (update_file NETPLAN_NAME
                      (fun f => {| content := text; mode := mode f |}) d)) w in
          (None, w', [w'])
    | None => (Some (Failed Write), w, [])
    end.

(** [os.chmod(NETPLAN_FILE, m)]. *)
Definition os_chmod (e : env) (m : Z) : M (option OSError) :=
  fun w =>
    match netplan_dir w with
    | Some d =>
        if chmod_fails e then (Some (Failed Chmod), w, [])
        else
          let w' := set_dir (Some (update_file NETPLAN_NAME
                      (fun f => {| content := content f; mode := m |}) d)) w in
          (None, w', [w'])
    | None => (Some (Failed Chmod), w, [])
    end.

(** [subprocess.run(["hostnamectl", "set-hostname", h], check=True)]. *)
Definition hostnamectl (e : env) (h : string) : M (option OSError) :=
  fun w =>
    if hostnamectl_fails e then (Some (Failed Hostnamectl), w, [])
    else let w' := set_hostname h w in (None, w', [w']).

(** [subprocess.Popen(["bash", "-c", cmd], ...)]. *)
Definition popen (cmd : string) : M unit := effect (add_scheduled cmd).

(** [get_default_interface()]. *)
Definition get_default_interface (e : env) : string := default_interface e.

(* ===================================================================== *)
(** ** [apply_network_config] *)
(* ===================================================================== *)

(** The second component of the pair [apply_network_config] returns. *)
Inductive reply : Type :=
| CidrOutOfRange                     (* "CIDR must be between 1 and 32" *)
| InvalidIPAddress (e : Py.ValueError) (* f"Invalid IP address: {e}" *)
| InvalidHostname                    (* "Invalid hostname" *)
| NoInterface                        (* "No network interface found" *)
| FailedToWrite (e : OSError)        (* f"Failed to write netplan: {e}" *)
| NewAddress (s : string)            (* new_ip or "dhcp" *).

(** The fixed text of each reply; for the two formatted messages, the text
    before the exception. *)
Definition reply_text (r : reply) : string :=
  match r with
  | CidrOutOfRange => "CIDR must be between 1 and 32"
  | InvalidIPAddress _ => "Invalid IP address: "
  | InvalidHostname => "Invalid hostname"
  | NoInterface => "No network interface found"
  | FailedToWrite _ => "Failed to write netplan: "
  | NewAddress s => s
  end.

(** The [try] block that validates the addresses.  [Ok None]: the block
    ran to its end; [Ok (Some r)]: it returned [False, r]; [Raise e]: a
    [ValueError] reached the [except] clause. *)
Definition validate_addresses (ip cidr gateway dns1 dns2 : string) (dhcp : bool)
  : Py.result (option reply) :=
  Py.bind
    (if negb dhcp then
       Py.bind (ipaddress.ip_address ip) (fun _ =>
       Py.bind (ipaddress.ip_address gateway) (fun _ =>
       Py.bind (Py.int cidr) (fun cidr_int =>
         if (cidr_int <? 1) || (32 <? cidr_int) then Py.Ok (Some CidrOutOfRange)
         else Py.bind (ipaddress.ip_network (ip +:+ "/" +:+ cidr))
                (fun _ => Py.Ok None))))
     else Py.Ok None)
    (fun returned =>
       match returned with
       | Some r => Py.Ok (Some r)
       | None =>
           Py.bind (if Py.truthy dns1
                    then Py.bind (ipaddress.ip_address dns1) (fun _ => Py.Ok tt)
                    else Py.Ok tt) (fun _ =>
           Py.bind (if Py.truthy dns2
                    then Py.bind (ipaddress.ip_address dns2) (fun _ => Py.Ok tt)
                    else Py.Ok tt) (fun _ =>
           Py.Ok None))
       end).

Definition alnum : list (ascii * ascii) :=
  [("a", "z"); ("A", "Z"); ("0", "9")]%char.

Definition alnum_hyphen : list (ascii * ascii) :=
  [("a", "z"); ("A", "Z"); ("0", "9"); ("-", "-")]%char.

(** [^[a-zA-Z0-9]([a-zA-Z0-9\-]{0,61}[a-zA-Z0-9])?$] *)
Definition hostname_re : re.regex :=
  re.Seq re.Bol
    (re.Seq (re.Class alnum)
       (re.Seq (re.Opt (re.Seq (re.Repeat 0 61 (re.Class alnum_hyphen))
                               (re.Class alnum)))
               re.Eol)).

Definition nl : string := String "010" EmptyString.

(** Each line followed by a newline. *)
Fixpoint unlines (l : list string) : string :=
  match l with
  | [] => EmptyString
  | x :: t => x +:+ nl +:+ unlines t
  end.

Definition netplan_header (e : env) (iface : string) : list string :=
  [ "# SafeSchool Edge -- Network Configuration (managed by network-admin)";
    "# Last modified: " +:+ utc_stamp e;
    "network:";
    "  version: 2";
    "  ethernets:";
    "    " +:+ iface +:+ ":" ].

(** [dns_list] and [dns_str]. *)
Definition dns_list (dns1 dns2 : string) : list string :=
  List.filter Py.truthy [dns1; dns2].

Definition dns_str (dns1 dns2 : string) : string :=
  match dns_list dns1 dns2 with
  | [] => "8.8.8.8, 1.1.1.1"
  | l => Py.join ", " l
  end.

(** The two f-strings that build the netplan document. *)
Definition render_netplan (e : env) (ip cidr gateway dns1 dns2 : string)
  (dhcp : bool) (iface : string) : string :=
  if dhcp then
    unlines (netplan_header e iface ++
             [ "      dhcp4: true";
               "      dhcp6: false" ])
  else
    unlines (netplan_header e iface ++
             [ "      dhcp4: false";
               "      dhcp6: false";
               "      addresses:";
               "        - " +:+ ip +:+ "/" +:+ cidr;
               "      routes:";
               "        - to: default";
               "          via: " +:+ gateway;
               "      nameservers:";
               "        addresses: [" +:+ dns_str dns1 dns2 +:+ "]" ]).

Local Open Scope M_scope.

(** The loop over [os.listdir(NETPLAN_DIR)]; the first [os.remove] that
    raises ends it. *)
Fixpoint remove_old_configs (e : env) (names : list string) : M (option OSError) :=
  match names with
  | [] => ret None
  | fname :: rest =>
      if negb (String.eqb fname "99-safeschool-static.yaml") &&
         (Py.endswith ".yaml" fname || Py.endswith ".yml" fname)
      then r <- os_remove e fname ;;
           match r with
           | Some err => ret (Some err)
           | None => info (Removed_old_config fname) ;;; remove_old_configs e rest
           end
      else remove_old_configs e rest
  end.

(** "Remove any installer-generated DHCP configs": the first [try] block
    of the effectful part. *)
Definition clean_old_configs (e : env) : M unit :=
  l <- os_listdir e ;;
  match l with
  | inl err => warning (Could_not_clean err)
  | inr names =>
      r <- remove_old_configs e names ;;
      match r with
      | Some err => warning (Could_not_clean err)
      | None => ret tt
      end
  end.

(** "Write new config": the second [try] block. *)
Definition write_config (e : env) (netplan : string) : M (option OSError) :=
  r <- os_makedirs e ;;
  match r with
  | Some err => ret (Some err)
  | None =>
      r <- open_w e ;;
      match r with
      | Some err => ret (Some err)
      | None =>
          r <- write_close e netplan ;;
          match r with
          | Some err => ret (Some err)
          | None =>
              r <- os_chmod e 384 ;;       (* 0o600 *)
              match r with
              | Some err => ret (Some err)
              | None => info Wrote_config ;;; ret None
              end
          end
      end
  end.

(** "Set hostname if provided". *)
Definition set_hostname_if_provided (e : env) (hostname : string) : M unit :=
  if Py.truthy hostname then
    r <- hostnamectl e hostname ;;
    match r with
    | None => info (Hostname_set hostname)
    | Some err => warning (Hostname_failed err)
    end
  else ret tt.

(** [apply_network_config(ip, cidr, gateway, dns1, dns2, hostname, dhcp,
    iface)]: validation first, without any system call; then the four
    effectful blocks. *)
Definition apply_network_config (e : env)
  (ip cidr gateway dns1 dns2 hostname : string) (dhcp : bool) (iface : string)
  : M (bool * reply) :=
  match validate_addresses ip cidr gateway dns1 dns2 dhcp with
  | Py.Raise err => ret (false, InvalidIPAddress err)
  | Py.Ok (Some r) => ret (false, r)
  | Py.Ok None =>
      if Py.truthy hostname && negb (re.match_ hostname_re hostname)
      then ret (false, InvalidHostname)
      else
        let iface := if Py.truthy iface then iface else get_default_interface e in
        if negb (Py.truthy iface) then ret (false, NoInterface)
        else
          let netplan := render_netplan e ip cidr gateway dns1 dns2 dhcp iface in
          clean_old_configs e ;;;
          r <- write_config e netplan ;;
          match r with
          | Some err => ret (false, FailedToWrite err)
          | None =>
              set_hostname_if_provided e hostname ;;;
              popen "sleep 2 && netplan apply" ;;;
              info (Scheduled_apply dhcp ip) ;;;
              ret (true, NewAddress (if dhcp then "dhcp"
                                     else if Py.truthy ip then ip else "dhcp"))
          end
  end.

Local Close Scope M_scope.

(* ===================================================================== *)
(** ** The HTTP handler *)
(* ===================================================================== *)

(** The JSON object of a request body through the [data.get(key, default)]
    calls of the handler, for a body whose members have the types of the
    interface ([str(cidr)] already applied). *)
Record form : Type := {
  f_token : string;
  f_dhcp : bool;
  f_ip : string;
  f_cidr : string;
  f_gateway : string;
  f_dns1 : string;
  f_dns2 : string;
  f_hostname : string
}.

Record request : Type := {
  req_path : string;             (* self.path *)
  req_session : string;          (* self._get_session() *)
  req_client : string;           (* self.client_address[0] *)
  req_body : option form         (* json.loads(self._read_body()); None
                                    when it raises *)
}.

Inductive payload : Type :=
| Html_page
| Error_message (msg : string)
| Network_info | System_info | Services_info
| Auth_ok
| Network_ok (new_ip : reply)
| Network_failed (error : reply)
| Hostname_ok (hostname : string)
| Exception_text (e : OSError).

Record response : Type := {
  status : Z;
  body : payload;
  set_cookie : option string       (* the session of a Set-Cookie header *)
}.

(** The memory of the process and its surroundings. *)
Record server : Type := {
  rate_map : rate_table;
  sessions : session_table;
  token_file : option string;      (* the content of TOKEN_FILE, if any *)
  sys : world
}.

Definition with_rate (r : rate_table) (s : server) : server :=
  {| rate_map := r; sessions := sessions s; token_file := token_file s; sys := sys s |}.

Definition with_sessions (t : session_table) (s : server) : server :=
  {| rate_map := rate_map s; sessions := t; token_file := token_file s; sys := sys s |}.

Definition with_sys (w : world) (s : server) : server :=
  {| rate_map := rate_map s; sessions := sessions s; token_file := token_file s; sys := w |}.

(** [get_admin_token()]. *)
Definition get_admin_token (s : server) : string :=
  match token_file s with
  | Some text => Py.strip text
  | None => EmptyString
  end.

(** [send_response] logs the request through [log_message]; the response
    is then written. *)
Definition send (client : string) (st : Z) (b : payload) (c : option string)
  (s : server) : response * server :=
  ({| status := st; body := b; set_cookie := c |},
   with_sys (add_log (Access client st) (sys s)) s).

Definition send_json (client : string) (b : payload) (st : Z) (s : server)
  : response * server :=
  send client st b None s.

(** [self.path.split("?")[0]]. *)
Definition path_of (raw : string) : string :=
  List.hd EmptyString (Py.split "?" raw).

(** [self._is_authed()]. *)
Definition is_authed (now : Z) (req : request) (s : server) : bool * server :=
  let '(b, t) := valid_session now now (req_session req) (sessions s) in
  (b, with_sessions t s).

Definition do_GET (e : env) (now : Z) (req : request) (s : server)
  : response * server :=
  let path := path_of (req_path req) in
  let client := req_client req in
  if String.eqb path "/" then send client 200 Html_page None s
  else
    let '(authed, s) := is_authed now req s in
    if negb authed then send_json client (Error_message "Unauthorized") 401 s
    else if String.eqb path "/api/network" then send_json client Network_info 200 s
    else if String.eqb path "/api/system" then send_json client System_info 200 s
    else if String.eqb path "/api/services" then send_json client Services_info 200 s
    else send_json client (Error_message "Not found") 404 s.

(** [secrets.compare_digest] on two [str] values. *)
Module secrets.

Definition is_ascii_char (c : ascii) : bool :=
  match c with
  | Ascii _ _ _ _ _ _ _ b7 => negb b7
  end.

(** [str.isascii]: every code point is below 128. *)
Definition isascii (s : string) : bool :=
  forallb is_ascii_char (list_ascii_of_string s).

(** [compare_digest(a, b)]: whether the two strings are equal; [None]
    when it raises [TypeError] (comparing strings with non-ASCII characters
    is not supported), which it does unless both are ASCII. *)
Definition compare_digest (a b : string) : option bool :=
  if isascii a && isascii b then Some (String.eqb a b) else None.

End secrets.

(** The handler returns after it has sent a response. *)
Definition sent (p : response * server) : option response * server :=
  (Some (fst p), snd p).

(** [do_POST]; [sid] is the value [secrets.token_hex(24)] would return.
    The first component is the response the client receives; it is [None]
    when the handler raises before it sends one, which leaves the
    connection to be closed without an answer. *)
Definition do_POST (e : env) (now : Z) (sid : string) (req : request) (s : server)
  : option response * server :=
  let client_ip := req_client req in
  let '(allowed, rm) := check_rate_limit now client_ip (rate_map s) in
  let s := with_rate rm s in
  if negb allowed then
    sent (send_json client_ip (Error_message "Too many requests. Try again later.") 429
            (with_sys (add_log (Rate_limit_exceeded client_ip) (sys s)) s))
  else
    let path := path_of (req_path req) in
    if String.eqb path "/api/auth" then
      match req_body req with
      | None => sent (send_json client_ip (Error_message "Invalid request") 400 s)
      | Some data =>
          let token := Py.strip (f_token data) in
          let expected := get_admin_token s in
          if negb (Py.truthy expected) then
            sent (send_json client_ip
                    (Error_message "Admin token not configured on this device") 500 s)
          else
            match secrets.compare_digest token expected with
            | None => (None, s)          (* TypeError, not caught *)
            | Some false =>
                sent (send_json client_ip (Error_message "Invalid admin token") 401
                        (with_sys (add_log (Failed_auth client_ip) (sys s)) s))
            | Some true =>
                let '(sid, t) := create_session sid now (sessions s) in
                let s := with_sessions t s in
                let s := with_sys (add_log (Successful_auth client_ip) (sys s)) s in
                sent (send client_ip 200 Auth_ok (Some sid) s)
            end
      end
    else
      let '(authed, s) := is_authed now req s in
      if negb authed then sent (send_json client_ip (Error_message "Unauthorized") 401 s)
      else if String.eqb path "/api/network" then
        match req_body req with
        | None => sent (send_json client_ip (Error_message "Invalid request") 400 s)
        | Some data =>
            let '(success, result, w, _) :=
              apply_network_config e (f_ip data) (f_cidr data) (f_gateway data)
                (f_dns1 data) (f_dns2 data) (f_hostname data) (f_dhcp data)
                (get_default_interface e) (sys s) in
            let s := with_sys w s in
            if success then sent (send_json client_ip (Network_ok result) 200 s)
            else sent (send_json client_ip (Network_failed result) 400 s)
        end
      else if String.eqb path "/api/hostname" then
        match req_body req with
        | None => sent (send_json client_ip (Error_message "Invalid request") 400 s)
        | Some data =>
            let hostname := Py.strip (f_hostname data) in
            if negb (Py.truthy hostname) || negb (re.match_ hostname_re hostname)
            then sent (send_json client_ip (Error_message "Invalid hostname") 400 s)
            else
              let '(r, w, _) := hostnamectl e hostname (sys s) in
              let s := with_sys w s in
              match r with
              | None =>
                  sent (send_json client_ip (Hostname_ok hostname) 200
                          (with_sys (add_log (Hostname_changed hostname client_ip)
                                       (sys s)) s))
              | Some err => sent (send_json client_ip (Exception_text err) 500 s)
              end
        end
      else sent (send_json client_ip (Error_message "Not found") 404 s).

(* ===================================================================== *)
(** ** Vocabulary of the properties *)
(* ===================================================================== *)

(** [s] parses as an IP address: [ipaddress.ip_address(s)] returns. *)
Definition valid_ip (s : string) : bool :=
  match ipaddress.ip_address s with
  | Py.Ok _ => true
  | Py.Raise _ => false
  end.

(** [s] parses as an IPv4 address. *)
Definition valid_ipv4 (s : string) : bool :=
  match ipaddress.ip_address s with
  | Py.Ok (ipaddress.IPv4Address _) => true
  | _ => false
  end.

(** [s] parses as a network for [ipaddress.ip_network(s, strict=False)]. *)
Definition network_ok (s : string) : bool :=
  match ipaddress.ip_network s with
  | Py.Ok _ => true
  | Py.Raise _ => false
  end.

(** [cidr] is an integer in [1,32] for [int()]. *)
Definition cidr_in_range (cidr : string) : bool :=
  match Py.int cidr with
  | Py.Ok n => (1 <=? n) && (n <=? 32)
  | Py.Raise _ => false
  end.

Definition hostname_ok (hostname : string) : bool :=
  re.match_ hostname_re hostname.

(** The replies of a failed validation. *)
Definition validation_error (r : reply) : bool :=
  match r with
  | CidrOutOfRange | InvalidIPAddress _ | InvalidHostname => true
  | _ => false
  end.

(** The file at [NETPLAN_FILE], if any. *)
Definition managed_file (w : world) : option file :=
  match netplan_dir w with
  | Some d => lookup_file NETPLAN_NAME d
  | None => None
  end.

(** [w'] differs from [w] at most in files other than [NETPLAN_FILE] and
    in the log. *)
Definition config_untouched (w w' : world) : Prop :=
  managed_file w' = managed_file w /\ hostname w' = hostname w /\
  scheduled w' = scheduled w /\
  (netplan_dir w = None <-> netplan_dir w' = None).

(** [w'] has the netplan directory of [w]. *)
Definition same_dir (w w' : world) : Prop := netplan_dir w' = netplan_dir w.

(** The interface [apply_network_config] configures. *)
Definition resolve_iface (e : env) (iface : string) : string :=
  if Py.truthy iface then iface else get_default_interface e.


(** Modelled after the specification's words for a host name: 1 to 63
    characters, the first and the last alphanumeric, the ones in between
    alphanumeric or hyphens. *)
Definition is_alnum (c : ascii) : bool := re.in_class alnum c.
Definition is_alnum_hyphen (c : ascii) : bool := re.in_class alnum_hyphen c.

Definition rfc1123_label (s : string) : bool :=
  let l := list_ascii_of_string s in
  match l with
  | [] => false
  | first :: _ =>
      (length l <=? 63)%nat && is_alnum first && is_alnum (List.last l first) &&
      forallb is_alnum_hyphen (removelast (List.tl l))
  end.

(** The time stamps recorded for [ip]. *)
Definition hits_of (ip : string) (rate_map : rate_table) : list Z :=
  default [] (rate_map !! ip).

(** The time stamps of the calls of [ip] that [check_rate_limit] accepted. *)
Fixpoint accepted_times (ip : string) (calls : list (Z * string)) (results : list bool)
  : list Z :=
  match calls, results with
  | (now, ip') :: calls', b :: results' =>
      if b && String.eqb ip' ip then now :: accepted_times ip calls' results'
      else accepted_times ip calls' results'
  | _, _ => []
  end.

(** The clock never runs backwards over a sequence of calls. *)
Fixpoint clock_monotone (from : Z) (calls : list (Z * string)) : Prop :=
  match calls with
  | [] => True
  | (now, _) :: rest => from <= now /\ clock_monotone now rest
  end.

(** How many of the [times] fall in the window [[a, a + RATE_WINDOW)]. *)
Definition in_window (a : Z) (times : list Z) : nat :=
  length (List.filter (fun t => (a <=? t) && (t <? a + RATE_WINDOW)) times).

(** The limiter as the specification words it, for comparison with
    [check_rate_limit]: it discards the time stamps older than
    [now - window], that is those with [t < now - RATE_WINDOW], and keeps a
    time stamp that is exactly one window old. *)
Definition check_rate_limit_as_specified (now : Z) (ip : string)
  (rate_map : rate_table) : bool * rate_table :=
  let hits := default [] (rate_map !! ip) in
  let hits := List.filter (fun t => negb (t <? now - RATE_WINDOW)) hits in
  if RATE_LIMIT <=? Z.of_nat (length hits) then (false, <[ip := hits]> rate_map)
  else (true, <[ip := hits ++ [now]]> rate_map).

(** The paths the two handlers recognise. *)
Definition GET_endpoints : list string :=
  ["/"; "/api/network"; "/api/system"; "/api/services"].

Definition POST_endpoints : list string :=
  ["/api/auth"; "/api/network"; "/api/hostname"].

(** An environment in which no system call fails, and a netplan directory
    as an installer leaves it, for the concrete runs below. *)
Definition sample_env : env :=
  {| default_interface := "eth0";
     utc_stamp := "2024-01-01T00:00:00Z";
     create_mode := 420;
     listdir_fails := false;
     remove_fails := fun _ => false;
     makedirs_fails := false;
     open_fails := false;
     write_fails := false;
     chmod_fails := false;
     hostnamectl_fails := false |}.

Definition sample_world : world :=
  {| netplan_dir :=
       Some [("50-cloud-init.yaml", {| content := "network: {}"; mode := 420 |});
             ("99-safeschool-static.yaml", {| content := "old"; mode := 384 |})];
     hostname := "edge";
     scheduled := [];
     log := [] |}.

Definition fresh_world : world :=
  {| netplan_dir := Some [("50-cloud-init.yaml", {| content := "network: {}"; mode := 420 |})];
     hostname := "edge";
     scheduled := [];
     log := [] |}.

Definition sample_server : server :=
  {| rate_map := ∅;
     sessions := {[ "5e55" := 1000 ]};
     token_file := Some "secret";
     sys := sample_world |}.

(* ===================================================================== *)
(** ** The rest of the handler and the read-only inspectors *)
(* ===================================================================== *)

Module Str.

(** [s.split()] without a separator: the maximal runs of characters that
    are not white space. *)
Fixpoint split_ws (s : string) : list string :=
  match s with
  | EmptyString => []
  | String c s' =>
      if Py.is_space c then split_ws s'
      else match s' with
           | EmptyString => [String c EmptyString]
           | String c' _ =>
               if Py.is_space c' then String c EmptyString :: split_ws s'
               else match split_ws s' with
                    | h :: t => String c h :: t
                    | [] => [String c EmptyString]
                    end
           end
  end.

(** [s.startswith(prefix)]. *)
Fixpoint startswith (prefix s : string) : bool :=
  match prefix, s with
  | EmptyString, _ => true
  | String a p, String b s' => Ascii.eqb a b && startswith p s'
  | String _ _, EmptyString => false
  end.

(** [needle in hay] for two strings. *)
Fixpoint is_in (needle hay : string) : bool :=
  startswith needle hay ||
  match hay with
  | EmptyString => false
  | String _ hay' => is_in needle hay'
  end.

(** [sorted(l)] for a list of strings: by code points, stable. *)
Fixpoint insert_sorted (x : string) (l : list string) : list string :=
  match l with
  | [] => [x]
  | y :: t => if String.leb x y then x :: l else y :: insert_sorted x t
  end.

Fixpoint sorted (l : list string) : list string :=
  match l with
  | [] => []
  | x :: t => insert_sorted x (sorted t)
  end.

(** [rfile.read(n)] of the buffered reader of the connection, on a stream
    that holds [data] before its end: at most [n] bytes; all of them for
    [n = -1]; and [None] for a smaller [n], where it raises [ValueError]
    (read length must be non-negative or -1). *)
Definition read (n : Z) (data : string) : option string :=
  if n <? -1 then None
  else if n =? -1 then Some data
  else Some (String.substring 0 (Z.to_nat n) data).

End Str.

(** What [_read_body] raises, a [ValueError] both times. *)
Inductive body_error : Type :=
| BadContentLength (err : Py.ValueError)   (* [int] refuses the header *)
| NegativeRead (n : Z)                     (* [rfile.read] refuses the length *).

(** [NetworkAdminHandler._read_body]; [content_length] is the header, if
    the request has one, and [rfile] what the client sends. *)
Definition read_body (content_length : option string) (rfile : string)
  : body_error + string :=
  match (match content_length with
         | Some v => Py.int v
         | None => Py.Ok 0
         end) with
  | Py.Raise err => inl (BadContentLength err)
  | Py.Ok length =>
      if 65536 <? length then inr EmptyString
      else match Str.read length rfile with
           | Some b => inr b
           | None => inl (NegativeRead length)
           end
  end.

(** The name servers [get_network_info] reports, from the lines of
    [/etc/resolv.conf]. *)
Definition resolv_nameservers (lines : list string) : list string :=
  List.flat_map
    (fun l =>
       if Str.startswith "nameserver" (Py.strip l) &&
          (1 <? length (Str.split_ws l))%nat
       then [List.nth 1 (Str.split_ws l) EmptyString]
       else [])
    lines.

Definition yaml_name (fname : string) : bool :=
  Py.endswith ".yaml" fname || Py.endswith ".yml" fname.

(** The loop of the DHCP detection of [get_network_info]; [None] when
    reading a file raises. *)
Fixpoint dhcp_loop (read_fails : string -> bool) (d : directory)
  (names : list string) : option bool :=
  match names with
  | [] => Some false
  | fname :: rest =>
      if yaml_name fname then
        if read_fails fname then None
        else match lookup_file fname d with
             | None => None
             | Some f =>
                 if Str.is_in "dhcp4: true" (content f) ||
                    Str.is_in "dhcp4: yes" (content f)
                 then Some true
                 else dhcp_loop read_fails d rest
             end
      else dhcp_loop read_fails d rest
  end.

(** The [dhcp] member of [get_network_info()].  It stays [False] when no
    default interface is found, where the function returns early; otherwise
    it says whether a netplan file, taken in sorted order, enables DHCP for
    IPv4, and any exception on the way leaves it [False]. *)
Definition detect_dhcp (e : env) (read_fails : string -> bool) (w : world) : bool :=
  if negb (Py.truthy (get_default_interface e)) then false
  else
    match netplan_dir w with
    | None => false
    | Some d =>
        if listdir_fails e then false
        else match dhcp_loop read_fails d (Str.sorted (List.map fst d)) with
             | Some b => b
             | None => false
             end
    end.

(** A sequence of POST requests, each with its clock reading and the
    session identifier a successful login would receive. *)
Fixpoint do_POST_run (e : env) (reqs : list (Z * string * request)) (s : server)
  : list (option response) * server :=
  match reqs with
  | [] => ([], s)
  | (now, sid, req) :: rest =>
      let '(r, s1) := do_POST e now sid req s in
      let '(rs, s2) := do_POST_run e rest s1 in
      (r :: rs, s2)
  end.

(** *** Vocabulary *)

(** The client received a response with status [st]. *)
Definition answered (st : Z) (r : option response) : bool :=
  match r with
  | Some r => status r =? st
  | None => false
  end.

(** The file called [fname] in the netplan directory, if any. *)
Definition file_at (fname : string) (w : world) : option file :=
  match netplan_dir w with
  | Some d => lookup_file fname d
  | None => None
  end.

(** [w'] has the netplan directory, the host name and the scheduled
    commands of [w]; the log may have grown. *)
Definition system_untouched (w w' : world) : Prop :=
  netplan_dir w' = netplan_dir w /\ hostname w' = hostname w /\
  scheduled w' = scheduled w.

(** No character of [s] is white space. *)
Definition no_space (s : string) : bool :=
  forallb (fun c => negb (Py.is_space c)) (list_ascii_of_string s).

(** The session entry that answers [sid] at time [now] is alive. *)
Definition session_alive (now : Z) (sid : string) (t : session_table) : bool :=
  fst (valid_session now now sid t).

(** [c] keeps the relation [P] between the world it starts from and every
    world it passes through, the final one included. *)
Definition preserves {A : Type} (P : world -> world -> Prop) (c : M A) : Prop :=
  forall w, P w (world_of (c w)) /\ Forall (P w) (trace_of (c w)).

(** Between [w] and [w'] no file other than [NETPLAN_FILE] was created or
    changed; such a file can only have been removed, and only when its name
    ends in [.yaml] or [.yml]. *)
Definition others_kept (w w' : world) : Prop :=
  forall fname,
    fname <> NETPLAN_NAME ->
    file_at fname w' = file_at fname w \/
    (yaml_name fname = true /\ file_at fname w' = None).

(** Between [w] and [w'] the host name and the scheduled commands are the
    same. *)
Definition quiet (w w' : world) : Prop :=
  hostname w' = hostname w /\ scheduled w' = scheduled w.

(* ===================================================================== *)
(** ** The library models on the documented behaviour of CPython *)
(* ===================================================================== *)

Example int_examples :
  List.map Py.int
    ["24"; " 24 "; "+24"; "-0"; "2_4"; "024"; "_24"; "24_"; "2__4"; "+ 24";
     ""; "abc"; "24" +:+ nl] =
  [Py.Ok 24; Py.Ok 24; Py.Ok 24; Py.Ok 0; Py.Ok 24; Py.Ok 24;
   Py.Raise (Py.InvalidLiteral "_24"); Py.Raise (Py.InvalidLiteral "24_");
   Py.Raise (Py.InvalidLiteral "2__4"); Py.Raise (Py.InvalidLiteral "+ 24");
   Py.Raise (Py.InvalidLiteral ""); Py.Raise (Py.InvalidLiteral "abc");
   Py.Ok 24].
Proof. vm_compute. reflexivity. Qed.

Example ip_address_examples :
  List.map ipaddress.ip_address
    ["192.168.1.50"; "1.2.3.4"; "::1"; "::ffff:1.2.3.4"; "fe80::1%eth0";
     "1:2:3:4:5:6:7::"] =
  [Py.Ok (ipaddress.IPv4Address 3232235826);
   Py.Ok (ipaddress.IPv4Address 16909060);
   Py.Ok (ipaddress.IPv6Address 1 None);
   Py.Ok (ipaddress.IPv6Address 281470698652420 None);
   Py.Ok (ipaddress.IPv6Address 338288524927261089654018896841347694593 (Some "eth0"));
   Py.Ok (ipaddress.IPv6Address 5192455318486707404433266433261568 None)].
Proof. vm_compute. reflexivity. Qed.

Example ip_address_rejects :
  List.map valid_ip
    [""; "01.2.3.4"; "1.2.3.4 "; "1.2.3.256"; "1.2.3"; "1..2.3"; "1.2.3.4/24";
     "fe80::1%"; "1::2::3"; ":::"; "::1:2:3:4:5:6:7:8"; "1:2:3:4:5:6:7:8:9";
     ":1:2:3:4:5:6:7"; "00001::"; "g::"; "1:2:3:4:5:6:7:1.2.3.4"] =
  List.map (fun _ => false)
    [""; "01.2.3.4"; "1.2.3.4 "; "1.2.3.256"; "1.2.3"; "1..2.3"; "1.2.3.4/24";
     "fe80::1%"; "1::2::3"; ":::"; "::1:2:3:4:5:6:7:8"; "1:2:3:4:5:6:7:8:9";
     ":1:2:3:4:5:6:7"; "00001::"; "g::"; "1:2:3:4:5:6:7:1.2.3.4"].
Proof. vm_compute. reflexivity. Qed.

Example ip_network_examples :
  List.map ipaddress.ip_network
    ["1.2.3.4/24"; "1.2.3.4/255.255.255.0"; "1.2.3.4/0.0.0.255"; "1.2.3.4/024";
     "::1/24"; "::1/128"; "1.2.3.4/33"; "1.2.3.4/ 24"; "1.2.3.4/+24";
     "1.2.3.4/24/1"; "::1/129"] =
  [Py.Ok (ipaddress.IPv4Network 16909056 24);
   Py.Ok (ipaddress.IPv4Network 16909056 24);
   Py.Ok (ipaddress.IPv4Network 16909056 24);
   Py.Ok (ipaddress.IPv4Network 16909056 24);
   Py.Ok (ipaddress.IPv6Network 0 None 24);
   Py.Ok (ipaddress.IPv6Network 1 None 128);
   Py.Raise (Py.NotANetwork "1.2.3.4/33");
   Py.Raise (Py.NotANetwork "1.2.3.4/ 24");
   Py.Raise (Py.NotANetwork "1.2.3.4/+24");
   Py.Raise (Py.NotANetwork "1.2.3.4/24/1");
   Py.Raise (Py.NotANetwork "::1/129")].
Proof. vm_compute. reflexivity. Qed.

Example hostname_examples :
  List.map hostname_ok
    ["a"; "edge-01"; "a-b"; "-a"; "a-"; "a b"; ""; nl; "a" +:+ nl +:+ nl;
     "aaaaaaaaaaaaaaaaaaaaaaaaaaaaaaaaaaaaaaaaaaaaaaaaaaaaaaaaaaaaaaa";
     "aaaaaaaaaaaaaaaaaaaaaaaaaaaaaaaaaaaaaaaaaaaaaaaaaaaaaaaaaaaaaaaa"] =
  [true; true; true; false; false; false; false; false; false; true; false].
Proof. vm_compute. reflexivity. Qed.

(* ===================================================================== *)
(** ** Validation *)
(* ===================================================================== *)

Section Validation.

Variables (ip cidr gateway dns1 dns2 : string).

Lemma valid_ip_Ok s : valid_ip s = true -> exists a, ipaddress.ip_address s = Py.Ok a.
Proof. unfold valid_ip. destruct (ipaddress.ip_address s); [eauto | discriminate]. Qed.

Lemma valid_ip_Raise s :
  valid_ip s = false -> ipaddress.ip_address s = Py.Raise (Py.NotAnAddress s).
Proof.
  unfold valid_ip, ipaddress.ip_address.
  destruct (ipaddress.IPv4Address_init s); [discriminate |].
  destruct (ipaddress.IPv6Address_init s) as [[? ?] |]; [discriminate | reflexivity].
Qed.

(** The checks on the two name servers, shared by both modes. *)
Lemma validate_addresses_dhcp :
  validate_addresses ip cidr gateway dns1 dns2 true =
  if Py.truthy dns1 && negb (valid_ip dns1) then Py.Raise (Py.NotAnAddress dns1)
  else if Py.truthy dns2 && negb (valid_ip dns2) then Py.Raise (Py.NotAnAddress dns2)
  else Py.Ok None.
Proof.
  unfold validate_addresses. simpl.
  destruct (Py.truthy dns1) eqn:T1; simpl.
  - destruct (valid_ip dns1) eqn:V1; simpl.
    + apply valid_ip_Ok in V1 as [a ->]. simpl.
      destruct (Py.truthy dns2) eqn:T2; simpl; [| reflexivity].
      destruct (valid_ip dns2) eqn:V2; simpl.
      * apply valid_ip_Ok in V2 as [b ->]. reflexivity.
      * rewrite (valid_ip_Raise _ V2). reflexivity.
    + rewrite (valid_ip_Raise _ V1). reflexivity.
  - destruct (Py.truthy dns2) eqn:T2; simpl; [| reflexivity].
    destruct (valid_ip dns2) eqn:V2; simpl.
    + apply valid_ip_Ok in V2 as [b ->]. reflexivity.
    + rewrite (valid_ip_Raise _ V2). reflexivity.
Qed.

(** The static mode runs the checks in the order of the source: [ip],
    [gateway], [int(cidr)], the range, the network, then the name servers. *)
Lemma validate_addresses_static :
  validate_addresses ip cidr gateway dns1 dns2 false =
  if negb (valid_ip ip) then Py.Raise (Py.NotAnAddress ip)
  else if negb (valid_ip gateway) then Py.Raise (Py.NotAnAddress gateway)
  else match Py.int cidr with
       | Py.Raise err => Py.Raise err
       | Py.Ok n =>
           if (n <? 1) || (32 <? n) then Py.Ok (Some CidrOutOfRange)
           else if negb (network_ok (ip +:+ "/" +:+ cidr))
                then Py.Raise (Py.NotANetwork (ip +:+ "/" +:+ cidr))
                else validate_addresses ip cidr gateway dns1 dns2 true
       end.
Proof.
  unfold validate_addresses at 1. cbn [negb].
  destruct (valid_ip ip) eqn:V; cbn [negb].
  2:{ rewrite (valid_ip_Raise _ V). reflexivity. }
  apply valid_ip_Ok in V as [a ->]. cbn [Py.bind].
  destruct (valid_ip gateway) eqn:G; cbn [negb].
  2:{ rewrite (valid_ip_Raise _ G). reflexivity. }
  apply valid_ip_Ok in G as [g ->]. cbn [Py.bind].
  destruct (Py.int cidr) as [n | err]; cbn [Py.bind]; [| reflexivity].
  destruct ((n <? 1) || (32 <? n)); cbn [Py.bind]; [reflexivity |].
  unfold network_ok.
  destruct (ipaddress.ip_network (ip +:+ "/" +:+ cidr)) eqn:N; cbn [Py.bind negb].
  - reflexivity.
  - unfold ipaddress.ip_network in N.
    destruct (ipaddress.IPv4Network_init _); [discriminate |].
    destruct (ipaddress.IPv6Network_init _); [discriminate |].
    injection N as <-. reflexivity.
Qed.

End Validation.

Lemma truthy_true s : Py.truthy s = true <-> s <> EmptyString.
Proof. destruct s; simpl; split; congruence. Qed.

Lemma truthy_false s : Py.truthy s = false <-> s = EmptyString.
Proof. destruct s; simpl; split; congruence. Qed.

(** What the validation returns, for both modes. *)
Lemma validate_addresses_Ok_None ip cidr gateway dns1 dns2 dhcp :
  validate_addresses ip cidr gateway dns1 dns2 dhcp = Py.Ok None <->
  (dhcp = false ->
     valid_ip ip = true /\ valid_ip gateway = true /\ cidr_in_range cidr = true /\
     network_ok (ip +:+ "/" +:+ cidr) = true) /\
  (dns1 <> EmptyString -> valid_ip dns1 = true) /\
  (dns2 <> EmptyString -> valid_ip dns2 = true).
Proof.
  assert (D : validate_addresses ip cidr gateway dns1 dns2 true = Py.Ok None <->
              (dns1 <> EmptyString -> valid_ip dns1 = true) /\
              (dns2 <> EmptyString -> valid_ip dns2 = true)).
  { rewrite validate_addresses_dhcp.
    destruct (Py.truthy dns1) eqn:T1, (valid_ip dns1) eqn:V1,
             (Py.truthy dns2) eqn:T2, (valid_ip dns2) eqn:V2; cbn [andb negb];
      try apply truthy_true in T1; try apply truthy_true in T2;
      try apply truthy_false in T1; try apply truthy_false in T2;
      (split; [try discriminate; intros _; split; intros; congruence
              | intros [H1 H2]; try reflexivity;
                try (specialize (H1 T1); discriminate);
                try (specialize (H2 T2); discriminate)]). }
  destruct dhcp.
  - rewrite D. intuition discriminate.
  - rewrite validate_addresses_static. unfold cidr_in_range.
    destruct (valid_ip ip); cbn [negb].
    2:{ split; [discriminate | intros [H _]; destruct (H eq_refl); discriminate]. }
    destruct (valid_ip gateway); cbn [negb].
    2:{ split; [discriminate | intros [H _]; destruct (H eq_refl) as (_ & ? & _); discriminate]. }
    destruct (Py.int cidr) as [n | err].
    2:{ split; [discriminate | intros [H _]; destruct (H eq_refl) as (_ & _ & ? & _); discriminate]. }
    destruct (Z.ltb_spec n 1) as [L1 | L1]; cbn [orb].
    { split; [discriminate | intros [H _]; destruct (H eq_refl) as (_ & _ & R & _)].
      apply andb_true_iff in R as [R _]. apply Z.leb_le in R. lia. }
    destruct (Z.ltb_spec 32 n) as [L2 | L2]; cbn [orb].
    { split; [discriminate | intros [H _]; destruct (H eq_refl) as (_ & _ & R & _)].
      apply andb_true_iff in R as [_ R]. apply Z.leb_le in R. lia. }
    destruct (network_ok _); cbn [negb].
    2:{ split; [discriminate | intros [H _]; destruct (H eq_refl) as (_ & _ & _ & ?); discriminate]. }
    rewrite D. split; [intros [? ?] | intros (_ & ? & ?)]; repeat split; auto.
    apply andb_true_iff; split; apply Z.leb_le; lia.
Qed.

(** The only reply the [try] block returns by itself is the CIDR one. *)
Lemma validate_addresses_Ok_Some ip cidr gateway dns1 dns2 dhcp r :
  validate_addresses ip cidr gateway dns1 dns2 dhcp = Py.Ok (Some r) ->
  r = CidrOutOfRange /\ dhcp = false /\ valid_ip ip = true /\ valid_ip gateway = true /\
  exists n, Py.int cidr = Py.Ok n /\ (n < 1 \/ 32 < n).
Proof.
  destruct dhcp.
  - rewrite validate_addresses_dhcp.
    repeat match goal with |- context [if ?b then _ else _] => destruct b end;
      discriminate.
  - rewrite validate_addresses_static.
    destruct (valid_ip ip); cbn [negb]; [| discriminate].
    destruct (valid_ip gateway); cbn [negb]; [| discriminate].
    destruct (Py.int cidr) as [n | err]; [| discriminate].
    destruct ((n <? 1) || (32 <? n)) eqn:R.
    + intros [= <-]. repeat split; auto. exists n. split; [reflexivity |].
      apply orb_true_iff in R as [R | R]; apply Z.ltb_lt in R; lia.
    + destruct (network_ok _); cbn [negb]; [| discriminate].
      rewrite validate_addresses_dhcp.
      repeat match goal with |- context [if ?b then _ else _] => destruct b end;
        discriminate.
Qed.

(** C4.  When validation fails (a malformed [ip] or [gateway] or a [cidr]
    that is not an integer in [1,32] in static mode, a malformed non-empty
    [dns1] or [dns2], or an invalid non-empty [hostname]),
    [apply_network_config] returns [False] with a validation message and
    performs no system call at all: the world it returns is the one it
    received and no intermediate state exists, so nothing is written or
    deleted, no hostname is set and no activation is scheduled. *)
Theorem failed_validation_changes_nothing
  (e : env) (ip cidr gateway dns1 dns2 hostname : string) (dhcp : bool)
  (iface : string) (w : world) :
  (dhcp = false /\
     (valid_ip ip = false \/ valid_ip gateway = false \/ cidr_in_range cidr = false)) \/
  (dns1 <> EmptyString /\ valid_ip dns1 = false) \/
  (dns2 <> EmptyString /\ valid_ip dns2 = false) \/
  (hostname <> EmptyString /\ hostname_ok hostname = false) ->
  exists r,
    apply_network_config e ip cidr gateway dns1 dns2 hostname dhcp iface w
      = ((false, r), w, []) /\
    validation_error r = true.
Proof.
  intros H. unfold apply_network_config.
  destruct (validate_addresses ip cidr gateway dns1 dns2 dhcp) as [[r |] | err] eqn:V.
  - apply validate_addresses_Ok_Some in V as [-> _]. eexists; split; reflexivity.
  - apply validate_addresses_Ok_None in V as (S & D1 & D2).
    destruct H as [[-> H] | [[N H] | [[N H] | [N H]]]].
    + destruct (S eq_refl) as (? & ? & ? & _). intuition congruence.
    + specialize (D1 N). congruence.
    + specialize (D2 N). congruence.
    + apply truthy_true in N. unfold hostname_ok in H. rewrite N, H. cbn.
      eexists; split; reflexivity.
  - eexists; split; reflexivity.
Qed.

Lemma failed_validation_changes_nothing_witness :
  exists r,
    apply_network_config sample_env "192.168.1.50" "33" "192.168.1.1" "" "" ""
      false "" sample_world = ((false, r), sample_world, []) /\
    validation_error r = true.
Proof.
  apply (failed_validation_changes_nothing sample_env "192.168.1.50" "33"
           "192.168.1.1" "" "" "" false "" sample_world).
  left. split; [reflexivity |]. right. right. vm_compute. reflexivity.
Defined.

(* ===================================================================== *)
(** ** The netplan directory *)
(* ===================================================================== *)

Lemma lookup_file_update n f d :
  lookup_file n (update_file n f d) = f <$> lookup_file n d.
Proof.
  unfold lookup_file, update_file.
  induction d as [| [k v] d IH]; [reflexivity |]. cbn.
  destruct (String.eqb k n) eqn:E; cbn; rewrite E; [reflexivity | exact IH].
Qed.

Lemma lookup_file_app_new n x d :
  lookup_file n d = None -> lookup_file n (d ++ [(n, x)]) = Some x.
Proof.
  unfold lookup_file.
  induction d as [| [k v] d IH]; cbn.
  - rewrite String.eqb_refl. reflexivity.
  - destruct (String.eqb k n); [discriminate | exact IH].
Qed.

Lemma lookup_file_remove_other n n' d :
  n' <> n -> lookup_file n (remove_entry n' d) = lookup_file n d.
Proof.
  intros Hne. unfold lookup_file, remove_entry.
  induction d as [| [k v] d IH]; [reflexivity |]. cbn.
  destruct (String.eqb k n') eqn:E; cbn.
  - apply String.eqb_eq in E. subst k.
    apply String.eqb_neq in Hne. rewrite Hne. exact IH.
  - destruct (String.eqb k n); [reflexivity | exact IH].
Qed.

Lemma config_untouched_refl w : config_untouched w w.
Proof. repeat split; auto. Qed.

Lemma config_untouched_trans w1 w2 w3 :
  config_untouched w1 w2 -> config_untouched w2 w3 -> config_untouched w1 w3.
Proof.
  intros (A1 & B1 & C1 & D1) (A2 & B2 & C2 & D2).
  repeat split; try congruence; tauto.
Qed.

Lemma config_untouched_add_log r w : config_untouched w (add_log r w).
Proof. repeat split; auto. Qed.

(** Removing old configurations never touches [NETPLAN_FILE]: neither the
    final world nor any state in between. *)
Lemma remove_old_configs_untouched e names w :
  let '(_, w', t) := remove_old_configs e names w in
  config_untouched w w' /\ Forall (config_untouched w) t.
Proof.
  revert w. induction names as [| fname rest IH]; intros w; cbn.
  - split; [apply config_untouched_refl | constructor].
  - destruct (negb (String.eqb fname "99-safeschool-static.yaml")) eqn:Hn; cbn [andb].
    2:{ apply IH. }
    destruct (Py.endswith ".yaml" fname || Py.endswith ".yml" fname).
    2:{ apply IH. }
    unfold bindM at 1. unfold os_remove.
    destruct (netplan_dir w) as [d |] eqn:Hd.
    2:{ cbn. split; [apply config_untouched_refl | constructor]. }
    destruct (remove_fails e fname || _).
    { cbn. split; [apply config_untouched_refl | constructor]. }
    set (w1 := set_dir (Some (remove_entry fname d)) w).
    assert (U1 : config_untouched w w1).
    { unfold config_untouched, managed_file. subst w1. cbn. rewrite Hd.
      repeat split; try congruence.
      apply lookup_file_remove_other.
      apply negb_true_iff, String.eqb_neq in Hn. exact Hn. }
    unfold bindM, info, effect.
    set (w2 := add_log (Removed_old_config fname) w1).
    assert (U2 : config_untouched w w2).
    { eapply config_untouched_trans; [exact U1 | apply config_untouched_add_log]. }
    specialize (IH w2). destruct (remove_old_configs e rest w2) as [[r w3] t3].
    destruct IH as [U3 F3]. split.
    + eapply config_untouched_trans; eassumption.
    + constructor; [exact U1 |]. cbn. constructor; [exact U2 |].
      eapply Forall_impl; [exact F3 |]. intros x Hx.
      eapply config_untouched_trans; eassumption.
Qed.

Lemma clean_old_configs_untouched e w :
  let '(_, w', t) := clean_old_configs e w in
  config_untouched w w' /\ Forall (config_untouched w) t.
Proof.
  unfold clean_old_configs, bindM, os_listdir, warning, effect, ret.
  destruct (netplan_dir w) as [d |] eqn:Hd.
  - destruct (listdir_fails e).
    + cbn. split; [apply config_untouched_add_log |].
      constructor; [apply config_untouched_add_log | constructor].
    + pose proof (remove_old_configs_untouched e (List.map fst d) w) as R.
      destruct (remove_old_configs e (List.map fst d) w) as [[r w1] t1].
      destruct R as [U F]. destruct r as [err |]; cbn.
      * split.
        -- eapply config_untouched_trans; [exact U | apply config_untouched_add_log].
        -- apply Forall_app. split; [exact F |]. constructor; [| constructor].
           eapply config_untouched_trans; [exact U | apply config_untouched_add_log].
      * split; [exact U |]. rewrite app_nil_r. exact F.
  - cbn. split; [apply config_untouched_add_log |].
    constructor; [apply config_untouched_add_log | constructor].
Qed.

(** The states of the file at [NETPLAN_FILE] while the "write new config"
    block runs to its end: empty (truncated, or created with the creation
    mode), then the new text under the mode it had, then the new text under
    0o600.  [m0] is the mode during the write. *)
Lemma write_config_states e text w w2 t2 :
  write_config e text w = (None, w2, t2) ->
  let m0 := match managed_file w with
            | Some f => mode f
            | None => create_mode e
            end in
  List.map managed_file t2 =
    match netplan_dir w with None => [None] | Some _ => [] end ++
    [ Some {| content := EmptyString; mode := m0 |};
      Some {| content := text; mode := m0 |};
      Some {| content := text; mode := 384 |};
      Some {| content := text; mode := 384 |} ] /\
  managed_file w2 = Some {| content := text; mode := 384 |} /\
  hostname w2 = hostname w /\ scheduled w2 = scheduled w.
Proof.
  unfold write_config, bindM, os_makedirs, open_w, write_close, os_chmod,
    info, effect, ret.
  destruct (netplan_dir w) as [d |] eqn:Hd.
  - rewrite Hd. destruct (open_fails e); [discriminate |]. cbn [netplan_dir set_dir].
    destruct (write_fails e); [discriminate |]. cbn [netplan_dir set_dir].
    destruct (chmod_fails e); [discriminate |]. cbn [netplan_dir set_dir].
    intros [= <- <-]. cbn [List.map app].
    unfold managed_file; cbn [netplan_dir add_log set_dir hostname scheduled].
    rewrite Hd.
    destruct (lookup_file NETPLAN_NAME d) as [f |] eqn:L.
    + rewrite !lookup_file_update, L. cbn. auto.
    + rewrite !lookup_file_update, (lookup_file_app_new _ _ _ L). cbn. auto.
  - destruct (makedirs_fails e); [discriminate |]. cbn [netplan_dir set_dir].
    destruct (open_fails e); [discriminate |]. cbn [netplan_dir set_dir].
    destruct (write_fails e); [discriminate |]. cbn [netplan_dir set_dir].
    destruct (chmod_fails e); [discriminate |]. cbn [netplan_dir set_dir].
    intros [= <- <-]. cbn [List.map app].
    unfold managed_file; cbn [netplan_dir add_log set_dir hostname scheduled].
    rewrite Hd. cbn. auto.
Qed.


(** After the write, only the host name, the scheduled commands and the
    log change. *)
Lemma set_hostname_if_provided_same_dir e h w :
  let '(_, w', t) := set_hostname_if_provided e h w in
  same_dir w w' /\ Forall (same_dir w) t /\ scheduled w' = scheduled w.
Proof.
  unfold set_hostname_if_provided, bindM, hostnamectl, info, warning, effect, ret.
  destruct (Py.truthy h); [| cbn; repeat split; constructor].
  destruct (hostnamectl_fails e); cbn; repeat split; repeat constructor.
Qed.

(* ===================================================================== *)
(** ** The run of [apply_network_config] *)
(* ===================================================================== *)

Section Apply.

Variables (e : env) (ip cidr gateway dns1 dns2 hostname : string)
          (dhcp : bool) (iface : string).

Let netplan : string :=
  render_netplan e ip cidr gateway dns1 dns2 dhcp (resolve_iface e iface).

Let new_ip : reply :=
  NewAddress (if dhcp then "dhcp" else if Py.truthy ip then ip else "dhcp").

(** Once the inputs are validated, the function is the sequence of its
    four effectful blocks. *)
Lemma apply_network_config_validated w :
  validate_addresses ip cidr gateway dns1 dns2 dhcp = Py.Ok None ->
  Py.truthy hostname && negb (hostname_ok hostname) = false ->
  Py.truthy (resolve_iface e iface) = true ->
  apply_network_config e ip cidr gateway dns1 dns2 hostname dhcp iface w =
    let '(_, w1, t1) := clean_old_configs e w in
    let '(r, w2, t2) := write_config e netplan w1 in
    match r with
    | Some err => ((false, FailedToWrite err), w2, t1 ++ t2)
    | None =>
        let '(_, w3, t3) := set_hostname_if_provided e hostname w2 in
        let w4 := add_scheduled "sleep 2 && netplan apply" w3 in
        let w5 := add_log (Scheduled_apply dhcp ip) w4 in
        ((true, new_ip), w5, t1 ++ t2 ++ t3 ++ [w4; w5])
    end.
Proof.
  intros V H I. unfold apply_network_config. rewrite V.
  unfold hostname_ok in H. rewrite H.
  unfold resolve_iface in I. fold (resolve_iface e iface).
  unfold resolve_iface at 1. rewrite I. cbn [negb].
  unfold bindM, popen, info, effect, ret. fold netplan.
  destruct (clean_old_configs e w) as [[[] w1] t1].
  destruct (write_config e netplan w1) as [[[err |] w2] t2].
  - cbv beta iota. rewrite app_nil_r. reflexivity.
  - destruct (set_hostname_if_provided e hostname w2) as [[[] w3] t3].
    cbv beta iota zeta. rewrite app_nil_r. reflexivity.
Qed.

(** A run that returns [True] went through every block. *)
Lemma apply_network_config_true w r w' t :
  apply_network_config e ip cidr gateway dns1 dns2 hostname dhcp iface w
    = ((true, r), w', t) ->
  validate_addresses ip cidr gateway dns1 dns2 dhcp = Py.Ok None /\
  Py.truthy hostname && negb (hostname_ok hostname) = false /\
  Py.truthy (resolve_iface e iface) = true.
Proof.
  unfold apply_network_config, hostname_ok, resolve_iface.
  destruct (validate_addresses ip cidr gateway dns1 dns2 dhcp) as [[r0 |] | err];
    try (unfold ret; discriminate).
  destruct (Py.truthy hostname && negb (re.match_ hostname_re hostname));
    [unfold ret; discriminate |].
  destruct (Py.truthy (if Py.truthy iface then iface else get_default_interface e));
    cbn [negb]; [auto | unfold ret; discriminate].
Qed.

End Apply.

(* ===================================================================== *)
(** ** Properties of the validation *)
(* ===================================================================== *)

(** Supporting fact for C2: what a successful run tells about the address
    fields.  They parse as IP addresses of either family. *)
Lemma accepted_addresses_are_ip_addresses
  (e : env) (ip cidr gateway dns1 dns2 hostname : string) (dhcp : bool)
  (iface : string) (w : world) (r : reply) :
  value_of (apply_network_config e ip cidr gateway dns1 dns2 hostname dhcp iface w)
    = (true, r) ->
  (dhcp = false -> valid_ip ip = true /\ valid_ip gateway = true) /\
  (dns1 <> EmptyString -> valid_ip dns1 = true) /\
  (dns2 <> EmptyString -> valid_ip dns2 = true).
Proof.
  destruct (apply_network_config e ip cidr gateway dns1 dns2 hostname dhcp iface w)
    as [[[b r'] w'] t] eqn:R.
  unfold value_of. cbn. intros [= -> ->].
  apply apply_network_config_true in R as (V & _ & _).
  apply validate_addresses_Ok_None in V as (S & D1 & D2).
  split; [| split]; auto. intros Hd. destruct (S Hd) as (? & ? & _). auto.
Qed.

(** C2.  The code at an input the specification wants rejected: a static
    configuration whose [ip], [gateway], [dns1] and [dns2] are IPv6 address
    strings, none of which parses as an IPv4 address.  Validation lets it
    through and the run returns [True] with the IPv6 address. *)
Theorem ipv6_addresses_pass_validation :
  valid_ipv4 "2001:db8::50" = false /\
  valid_ipv4 "fe80::1" = false /\
  valid_ipv4 "2001:4860:4860::8888" = false /\
  valid_ipv4 "::1" = false /\
  validate_addresses "2001:db8::50" "32" "fe80::1" "2001:4860:4860::8888" "::1" false
    = Py.Ok None /\
  validate_addresses "" "" "" "::1" "" true = Py.Ok None /\
  value_of (apply_network_config sample_env "2001:db8::50" "32" "fe80::1"
              "2001:4860:4860::8888" "::1" "" false "" sample_world)
    = (true, NewAddress "2001:db8::50").
Proof. repeat split; vm_compute; reflexivity. Qed.

(** C3, counterexamples.  With a malformed [ip], a [cidr]
    of 33 is answered with the IP message, because [ip] and [gateway] are
    checked first; and a [cidr] that is not an integer is answered with the
    IP message as well, because [int(cidr)] raises inside the same [try]. *)
Lemma cidr_error_not_always_reported :
  cidr_in_range "33" = false /\
  value_of (apply_network_config sample_env "192.168.1" "33" "192.168.1.1"
              "" "" "" false "" sample_world)
    = (false, InvalidIPAddress (Py.NotAnAddress "192.168.1")) /\
  cidr_in_range "abc" = false /\
  value_of (apply_network_config sample_env "192.168.1.50" "abc" "192.168.1.1"
              "" "" "" false "" sample_world)
    = (false, InvalidIPAddress (Py.InvalidLiteral "abc")) /\
  reply_text (InvalidIPAddress (Py.InvalidLiteral "abc")) <> reply_text CidrOutOfRange.
Proof. repeat split; try (vm_compute; reflexivity). vm_compute. discriminate. Qed.

(** C3 as amended.  In static mode, when [ip] and [gateway] parse as IP
    addresses and [cidr] is an integer outside [1,32], the run returns
    [False] with "CIDR must be between 1 and 32" and changes nothing; and
    whenever [cidr] is an integer in [1,32], in either mode, the CIDR
    message is not what the run returns. *)
Theorem cidr_range_check
  (e : env) (ip cidr gateway dns1 dns2 hostname : string)
  (iface : string) (w : world) (n : Z) :
  Py.int cidr = Py.Ok n ->
  ((n < 1 \/ 32 < n) -> valid_ip ip = true -> valid_ip gateway = true ->
     apply_network_config e ip cidr gateway dns1 dns2 hostname false iface w
       = ((false, CidrOutOfRange), w, [])) /\
  (1 <= n <= 32 ->
     forall dhcp,
       snd (value_of (apply_network_config e ip cidr gateway dns1 dns2 hostname
                        dhcp iface w)) <> CidrOutOfRange).
Proof.
  intros Hn. split.
  - intros R Vi Vg. unfold apply_network_config.
    rewrite validate_addresses_static, Vi, Vg, Hn. cbn [negb].
    replace ((n <? 1) || (32 <? n)) with true; [reflexivity |].
    symmetry. apply orb_true_iff. rewrite !Z.ltb_lt. exact R.
  - intros R dhcp.
    destruct (apply_network_config e ip cidr gateway dns1 dns2 hostname dhcp iface w)
      as [[[b r] w'] t] eqn:A.
    unfold value_of. cbn. intros Hr. subst r.
    unfold apply_network_config in A.
    destruct (validate_addresses ip cidr gateway dns1 dns2 dhcp) as [[r0 |] | err] eqn:V.
    + apply validate_addresses_Ok_Some in V as (_ & _ & _ & _ & k & Hk & Rk).
      rewrite Hn in Hk. injection Hk as <-. lia.
    + unfold bindM, ret in A.
      repeat match type of A with
             | (if ?c then _ else _) _ = _ => destruct c
             | (if ?c then _ else _) = _ => destruct c
             end; try discriminate.
      destruct (clean_old_configs e w) as [[[] w1] t1].
      destruct (write_config _ _ w1) as [[[err |] w2] t2]; [discriminate |].
      destruct (set_hostname_if_provided e hostname w2) as [[[] w3] t3].
      discriminate.
    + discriminate.
Qed.

Lemma cidr_range_check_witness :
  (apply_network_config sample_env "192.168.1.50" "33" "192.168.1.1" "" "" ""
     false "" sample_world = ((false, CidrOutOfRange), sample_world, [])) /\
  snd (value_of (apply_network_config sample_env "192.168.1.50" "24" "192.168.1.1"
                   "" "" "" false "" sample_world)) <> CidrOutOfRange.
Proof.
  split.
  - apply (cidr_range_check sample_env "192.168.1.50" "33" "192.168.1.1" "" "" ""
             "" sample_world 33); [reflexivity | lia | reflexivity | reflexivity].
  - apply (cidr_range_check sample_env "192.168.1.50" "24" "192.168.1.1" "" "" ""
             "" sample_world 24); [reflexivity | lia].
Defined.

(* ===================================================================== *)
(** ** Properties of the written artifact *)
(* ===================================================================== *)

Section Artifact.

Variables (e : env) (ip cidr gateway dns1 dns2 hostname : string)
          (dhcp : bool) (iface : string).

Let text : string :=
  render_netplan e ip cidr gateway dns1 dns2 dhcp (resolve_iface e iface).

(** The states of the file at [NETPLAN_FILE] over a run that returns
    [True]: unchanged while old configurations are removed, then the three
    states of the write, then the final state until the end. *)
Lemma apply_network_config_states w r w' t :
  apply_network_config e ip cidr gateway dns1 dns2 hostname dhcp iface w
    = ((true, r), w', t) ->
  let m0 := match managed_file w with
            | Some f => mode f
            | None => create_mode e
            end in
  exists before after,
    List.map managed_file t =
      before ++
      [ Some {| content := EmptyString; mode := m0 |};
        Some {| content := text; mode := m0 |};
        Some {| content := text; mode := 384 |} ] ++ after /\
    Forall (eq (managed_file w)) before /\
    Forall (eq (Some {| content := text; mode := 384 |})) after /\
    managed_file w' = Some {| content := text; mode := 384 |} /\
    scheduled w' = scheduled w ++ ["sleep 2 && netplan apply"] /\
    r = NewAddress (if dhcp then "dhcp" else if Py.truthy ip then ip else "dhcp").
Proof.
  intros A m0.
  pose proof (apply_network_config_true _ _ _ _ _ _ _ _ _ _ _ _ _ A) as (V & H & I).
  rewrite (apply_network_config_validated _ _ _ _ _ _ _ _ _ _ V H I) in A.
  pose proof (clean_old_configs_untouched e w) as C.
  destruct (clean_old_configs e w) as [[[] w1] t1]. destruct C as [U1 F1].
  fold text in A.
  destruct (write_config e text w1) as [[[err |] w2] t2] eqn:W; [discriminate |].
  pose proof (set_hostname_if_provided_same_dir e hostname w2) as S.
  destruct (set_hostname_if_provided e hostname w2) as [[[] w3] t3].
  destruct S as (S3 & F3 & Sc3).
  injection A as <- <- <-.
  apply write_config_states in W. cbv zeta in W.
  destruct U1 as (Um & Uh & Us & Ud).
  rewrite Um in W. fold m0 in W. destruct W as (Wt & Wm & Wh & Ws).
  assert (M3 : forall x, same_dir w2 x ->
                         Some {| content := text; mode := 384 |} = managed_file x).
  { intros x Hx. unfold managed_file, same_dir in *. rewrite Hx. symmetry. exact Wm. }
  exists (List.map managed_file t1 ++
          match netplan_dir w1 with None => [None] | Some _ => [] end),
         (Some {| content := text; mode := 384 |} ::
          List.map managed_file (t3 ++
            [add_scheduled "sleep 2 && netplan apply" w3;
             add_log (Scheduled_apply dhcp ip)
               (add_scheduled "sleep 2 && netplan apply" w3)])).
  repeat split.
  - rewrite !List.map_app, Wt, <- !app_assoc. reflexivity.
  - apply Forall_app. split.
    + apply Forall_map. eapply Forall_impl; [exact F1 |].
      intros x (Hx & _). symmetry. exact Hx.
    + destruct (netplan_dir w1) eqn:D1; [constructor |].
      constructor; [| constructor].
      unfold managed_file. destruct (netplan_dir w) eqn:D; [| reflexivity].
      destruct Ud as [_ Ud]. specialize (Ud eq_refl). discriminate.
  - constructor; [reflexivity |]. apply Forall_map, Forall_app. split.
    + eapply Forall_impl; [exact F3 |]. intros x Hx. apply M3, Hx.
    + repeat constructor; apply M3; exact S3.
  - symmetry. apply M3. exact S3.
  - cbn. rewrite Sc3, Ws, Us. reflexivity.
Qed.

End Artifact.


(** C1, counterexample.  Over a run that replaces an existing
    artifact, another process can see the file at [NETPLAN_FILE] empty,
    which is neither its old content nor the new one; and over a run that
    creates the artifact, it can see the complete new content under the
    creation mode 0o644 before [os.chmod] restricts it to 0o600. *)
Lemma partial_artifact_observable :
  let new := render_netplan sample_env "192.168.1.50" "24" "192.168.1.1"
               "8.8.8.8" "" false "eth0" in
  let run w := apply_network_config sample_env "192.168.1.50" "24" "192.168.1.1"
                 "8.8.8.8" "" "" false "" w in
  managed_file sample_world = Some {| content := "old"; mode := 384 |} /\
  value_of (run sample_world) = (true, NewAddress "192.168.1.50") /\
  managed_file (world_of (run sample_world)) = Some {| content := new; mode := 384 |} /\
  managed_file <$> trace_of (run sample_world) !! 2%nat
    = Some (Some {| content := EmptyString; mode := 384 |}) /\
  EmptyString <> "old" /\ EmptyString <> new /\
  managed_file fresh_world = None /\
  managed_file <$> trace_of (run fresh_world) !! 3%nat
    = Some (Some {| content := new; mode := 420 |}).
Proof.
  cbv zeta. repeat split; try (vm_compute; reflexivity); vm_compute; discriminate.
Qed.

(** C1 as amended.  [apply_network_config] writes the artifact in place.
    Over a run that returns [True], the file at [NETPLAN_FILE] passes
    through these states, in this order: its previous state (or absence)
    while old configurations are removed; empty, under its previous mode or
    the creation mode; the complete new content under that same mode; the
    complete new content under mode 0o600, which is how the run leaves it. *)
Theorem artifact_written_in_place
  (e : env) (ip cidr gateway dns1 dns2 hostname : string) (dhcp : bool)
  (iface : string) (w : world) (r : reply) :
  let run := apply_network_config e ip cidr gateway dns1 dns2 hostname dhcp iface w in
  let new := render_netplan e ip cidr gateway dns1 dns2 dhcp (resolve_iface e iface) in
  let m0 := match managed_file w with
            | Some f => mode f
            | None => create_mode e
            end in
  value_of run = (true, r) ->
  managed_file (world_of run) = Some {| content := new; mode := 384 |} /\
  exists before after,
    List.map managed_file (trace_of run) =
      before ++
      [ Some {| content := EmptyString; mode := m0 |};
        Some {| content := new; mode := m0 |};
        Some {| content := new; mode := 384 |} ] ++ after /\
    Forall (eq (managed_file w)) before /\
    Forall (eq (Some {| content := new; mode := 384 |})) after.
Proof.
  intros run new m0 Hv. subst run.
  destruct (apply_network_config e ip cidr gateway dns1 dns2 hostname dhcp iface w)
    as [[[b r'] w'] t] eqn:A.
  unfold value_of in Hv. cbn in Hv. injection Hv as -> ->.
  apply apply_network_config_states in A.
  destruct A as (before & after & Ht & Fb & Fa & Hm & _).
  split; [exact Hm |]. exists before, after. auto.
Qed.

Lemma artifact_written_in_place_witness :
  let run := apply_network_config sample_env "192.168.1.50" "24" "192.168.1.1"
               "8.8.8.8" "" "edge-01" false "" sample_world in
  let new := render_netplan sample_env "192.168.1.50" "24" "192.168.1.1"
               "8.8.8.8" "" false (resolve_iface sample_env "") in
  value_of run = (true, NewAddress "192.168.1.50") /\
  managed_file (world_of run) = Some {| content := new; mode := 384 |}.
Proof.
  cbv zeta. split; [vm_compute; reflexivity |].
  apply (artifact_written_in_place sample_env "192.168.1.50" "24" "192.168.1.1"
           "8.8.8.8" "" "edge-01" false "" sample_world
           (NewAddress "192.168.1.50")).
  vm_compute. reflexivity.
Defined.

(** C7.  The code at an input the validation lets through and that breaks
    the rendering: a static configuration whose [gateway] is an IPv6
    address string with a scope identifier that holds a newline.  The run
    returns [True], and the lines of the artifact, which is static, hold a
    line [dhcp4: true] after the route. *)
Theorem static_artifact_with_a_dhcp_line :
  let gateway := "fe80::1%x" +:+ nl +:+ "      dhcp4: true" in
  let run := apply_network_config sample_env "192.168.1.50" "24" gateway
               "" "" "" false "" sample_world in
  valid_ip gateway = true /\
  valid_ipv4 gateway = false /\
  value_of run = (true, NewAddress "192.168.1.50") /\
  (fun f => Py.split "010" (content f)) <$> managed_file (world_of run) =
    Some [ "# SafeSchool Edge -- Network Configuration (managed by network-admin)";
           "# Last modified: 2024-01-01T00:00:00Z";
           "network:";
           "  version: 2";
           "  ethernets:";
           "    eth0:";
           "      dhcp4: false";
           "      dhcp6: false";
           "      addresses:";
           "        - 192.168.1.50/24";
           "      routes:";
           "        - to: default";
           "          via: fe80::1%x";
           "      dhcp4: true";
           "      nameservers:";
           "        addresses: [8.8.8.8, 1.1.1.1]";
           "" ].
Proof. cbv zeta. repeat split; vm_compute; reflexivity. Qed.



(* ===================================================================== *)
(** ** Routing *)
(* ===================================================================== *)

Lemma eqb_not_in (x y : string) (l : list string) :
  ~ In x l -> In y l -> String.eqb x y = false.
Proof. intros N I. apply String.eqb_neq. intros ->. exact (N I). Qed.

(** C9, counterexample: a request for an unrecognised path that
    carries no valid session is answered 401, by [do_GET] and by [do_POST]
    alike; the same request with a valid session is answered 404. *)
Lemma unknown_path_without_session_is_401 :
  let req sid := {| req_path := "/api/nope"; req_session := sid;
                    req_client := "10.0.0.7"; req_body := None |} in
  ~ In (path_of "/api/nope") GET_endpoints /\
  ~ In (path_of "/api/nope") POST_endpoints /\
  status (fst (do_GET sample_env 1000 (req "") sample_server)) = 401 /\
  status <$> fst (do_POST sample_env 1000 "c0ffee" (req "") sample_server) = Some 401 /\
  status (fst (do_GET sample_env 1000 (req "5e55") sample_server)) = 404.
Proof.
  cbv zeta. split; [| split].
  - vm_compute. intuition discriminate.
  - vm_compute. intuition discriminate.
  - repeat split; vm_compute; reflexivity.
Qed.

(** C9 as amended.  A request whose path is not a recognised endpoint is
    answered 404 when it carries a valid session; without one it is
    answered 401; and [do_POST] answers 429 before either when the client
    is over the rate limit. *)
Theorem unknown_path_status
  (e : env) (now : Z) (sid : string) (req : request) (s : server) :
  let path := path_of (req_path req) in
  let authed := fst (valid_session now now (req_session req) (sessions s)) in
  let allowed := fst (check_rate_limit now (req_client req) (rate_map s)) in
  (~ In path GET_endpoints ->
     status (fst (do_GET e now req s)) = if authed then 404 else 401) /\
  (~ In path POST_endpoints ->
     status <$> fst (do_POST e now sid req s) =
       Some (if negb allowed then 429 else if authed then 404 else 401)).
Proof.
  cbv zeta. split; intros N.
  - unfold do_GET, is_authed.
    rewrite !(eqb_not_in _ _ _ N) by (cbn; tauto).
    destruct (valid_session now now (req_session req) (sessions s)) as [[] t];
      reflexivity.
  - unfold do_POST, is_authed.
    destruct (check_rate_limit now (req_client req) (rate_map s)) as [[] rm];
      cbn [fst negb]; [| reflexivity].
    rewrite !(eqb_not_in _ _ _ N) by (cbn; tauto). cbn [sessions with_rate].
    destruct (valid_session now now (req_session req) (sessions s)) as [[] t];
      reflexivity.
Qed.

Lemma unknown_path_status_witness :
  status (fst (do_GET sample_env 1000
                 {| req_path := "/api/nope?x=1"; req_session := "5e55";
                    req_client := "10.0.0.7"; req_body := None |}
                 sample_server)) = 404.
Proof.
  apply (proj1 (unknown_path_status sample_env 1000 ""
                  {| req_path := "/api/nope?x=1"; req_session := "5e55";
                     req_client := "10.0.0.7"; req_body := None |}
                  sample_server)).
  vm_compute. intuition discriminate.
Defined.

(* ===================================================================== *)
(** ** Sessions *)
(* ===================================================================== *)

(** C6.  A session validates right after [create_session] (and as long as
    its idle time does not exceed 3600); an absent identifier fails; an
    identifier idle for more than 3600 fails and its entry is deleted; every
    successful validation stores the current time as last seen, so that a
    validation in between restarts the idle period. *)
Theorem session_sliding_expiry (sessions : session_table) (sid : string) :
  (* right after create *)
  (forall t now now',
     now - t <= SESSION_TIMEOUT ->
     let '(sid', created) := create_session sid t sessions in
     sid' = sid /\
     valid_session now now' sid created = (true, <[sid := now']> created)) /\
  (* absent *)
  (forall now now',
     sessions !! sid = None ->
     valid_session now now' sid sessions = (false, sessions)) /\
  (* idle for too long: evicted *)
  (forall ts now now',
     sessions !! sid = Some ts -> SESSION_TIMEOUT < now - ts ->
     valid_session now now' sid sessions = (false, delete sid sessions) /\
     delete sid sessions !! sid = None) /\
  (* success refreshes lastSeen *)
  (forall ts now now',
     sessions !! sid = Some ts -> now - ts <= SESSION_TIMEOUT ->
     valid_session now now' sid sessions = (true, <[sid := now']> sessions) /\
     <[sid := now']> sessions !! sid = Some now') /\
  (* a validation in between restarts the idle period *)
  (forall ts t1 t2,
     sessions !! sid = Some ts ->
     t1 - ts <= SESSION_TIMEOUT -> t2 - t1 <= SESSION_TIMEOUT ->
     fst (valid_session t2 t2 sid (snd (valid_session t1 t1 sid sessions))) = true) /\
  (* without it the session expires *)
  (forall ts t2,
     sessions !! sid = Some ts -> SESSION_TIMEOUT < t2 - ts ->
     fst (valid_session t2 t2 sid sessions) = false).
Proof.
  assert (Hle : forall a, a <= SESSION_TIMEOUT -> (SESSION_TIMEOUT <? a) = false)
    by (intros; apply Z.ltb_ge; assumption).
  assert (Hlt : forall a, SESSION_TIMEOUT < a -> (SESSION_TIMEOUT <? a) = true)
    by (intros; apply Z.ltb_lt; assumption).
  repeat split.
  - unfold valid_session. rewrite lookup_insert_eq, Hle by assumption. reflexivity.
  - intros now now' N. unfold valid_session. rewrite N. reflexivity.
  - unfold valid_session. rewrite H, Hlt by assumption. reflexivity.
  - apply lookup_delete_eq.
  - unfold valid_session. rewrite H, Hle by assumption. reflexivity.
  - apply lookup_insert_eq.
  - intros ts t1 t2 L A B. unfold valid_session at 2. rewrite L, Hle by assumption.
    cbn [snd]. unfold valid_session. rewrite lookup_insert_eq, Hle by assumption.
    reflexivity.
  - intros ts t2 L A. unfold valid_session. rewrite L, Hlt by assumption. reflexivity.
Qed.

Lemma session_sliding_expiry_witness :
  fst (valid_session 4000 4000 "5e55"
         (snd (valid_session 3000 3000 "5e55" {[ "5e55" := 0 ]}))) = true /\
  fst (valid_session 4000 4000 "5e55" {[ "5e55" := 0 ]}) = false.
Proof.
  pose proof (session_sliding_expiry {[ "5e55" := 0 ]} "5e55")
    as (_ & _ & _ & _ & Hslide & Hexp).
  split.
  - apply (Hslide 0 3000 4000); [reflexivity | vm_compute; discriminate
                                 | vm_compute; discriminate].
  - apply (Hexp 0 4000); [reflexivity | reflexivity].
Defined.

(* ===================================================================== *)
(** ** Rate limiting *)
(* ===================================================================== *)

Section RateLimit.

Variable ip : string.

Let fresh (now : Z) := fun t => now - t <? RATE_WINDOW.

Lemma filter_keeps_all now (l : list Z) :
  (forall t, In t l -> now - t < RATE_WINDOW) -> List.filter (fresh now) l = l.
Proof.
  induction l as [| x l IH]; intros H; [reflexivity |]. cbn.
  unfold fresh at 1. replace (now - x <? RATE_WINDOW) with true.
  - f_equal. apply IH. intros t Ht. apply H. right. exact Ht.
  - symmetry. apply Z.ltb_lt. apply H. left. reflexivity.
Qed.

Lemma filter_drops_all now (l : list Z) :
  (forall t, In t l -> RATE_WINDOW <= now - t) -> List.filter (fresh now) l = [].
Proof.
  induction l as [| x l IH]; intros H; [reflexivity |]. cbn.
  unfold fresh at 1. replace (now - x <? RATE_WINDOW) with false.
  - apply IH. intros t Ht. apply H. right. exact Ht.
  - symmetry. apply Z.ltb_ge. apply H. left. reflexivity.
Qed.

Lemma check_rate_limit_accepts now m :
  (forall t, In t (hits_of ip m) -> now - t < RATE_WINDOW) ->
  (length (hits_of ip m) < 5)%nat ->
  check_rate_limit now ip m = (true, <[ip := hits_of ip m ++ [now]]> m).
Proof.
  intros K L. unfold check_rate_limit. fold (hits_of ip m). fold (fresh now).
  rewrite (filter_keeps_all _ _ K).
  replace (RATE_LIMIT <=? Z.of_nat (length (hits_of ip m))) with false; [reflexivity |].
  symmetry. apply Z.leb_gt. unfold RATE_LIMIT. lia.
Qed.

Lemma check_rate_limit_rejects now m :
  (forall t, In t (hits_of ip m) -> now - t < RATE_WINDOW) ->
  (5 <= length (hits_of ip m))%nat ->
  check_rate_limit now ip m = (false, <[ip := hits_of ip m]> m).
Proof.
  intros K L. unfold check_rate_limit. fold (hits_of ip m). fold (fresh now).
  rewrite (filter_keeps_all _ _ K).
  replace (RATE_LIMIT <=? Z.of_nat (length (hits_of ip m))) with true; [reflexivity |].
  symmetry. apply Z.leb_le. unfold RATE_LIMIT. lia.
Qed.

Lemma check_rate_limit_recovers now m :
  (forall t, In t (hits_of ip m) -> RATE_WINDOW <= now - t) ->
  check_rate_limit now ip m = (true, <[ip := [now]]> m).
Proof.
  intros K. unfold check_rate_limit. fold (hits_of ip m). fold (fresh now).
  rewrite (filter_drops_all _ _ K). reflexivity.
Qed.

Lemma hits_of_insert l m : hits_of ip (<[ip := l]> m) = l.
Proof. unfold hits_of. rewrite lookup_insert_eq. reflexivity. Qed.

Lemma hits_of_insert_ne ip' l (m : rate_table) :
  ip' <> ip -> hits_of ip (<[ip' := l]> m) = hits_of ip m.
Proof. intros N. unfold hits_of. rewrite lookup_insert_ne by exact N. reflexivity. Qed.

(** *** Counting in a window *)

Lemma in_window_app a l1 l2 :
  in_window a (l1 ++ l2) = (in_window a l1 + in_window a l2)%nat.
Proof. unfold in_window. rewrite List.filter_app, length_app. reflexivity. Qed.

Lemma in_window_le_length a l : (in_window a l <= length l)%nat.
Proof. unfold in_window. apply List.filter_length_le. Qed.

Lemma in_window_filter_le a f l :
  (in_window a (List.filter f l) <= in_window a l)%nat.
Proof.
  unfold in_window. induction l as [| x l IH]; [reflexivity |]. cbn.
  destruct (f x); cbn; destruct ((a <=? x) && (x <? a + RATE_WINDOW)); cbn; lia.
Qed.

(** Pruning at [now] keeps every time stamp of a window that is still open
    at [now]. *)
Lemma in_window_pruned a now l :
  now < a + RATE_WINDOW ->
  in_window a (List.filter (fresh now) l) = in_window a l.
Proof.
  intros O. unfold in_window. induction l as [| x l IH]; [reflexivity |]. cbn.
  unfold fresh at 1.
  destruct (Z.ltb_spec (now - x) RATE_WINDOW) as [K | K]; cbn.
  - destruct ((a <=? x) && (x <? a + RATE_WINDOW)); cbn; rewrite IH; reflexivity.
  - replace ((a <=? x) && (x <? a + RATE_WINDOW)) with false; [exact IH |].
    symmetry. apply andb_false_iff. left. apply Z.leb_gt. lia.
Qed.

Lemma in_window_closed a l :
  (forall t, In t l -> a + RATE_WINDOW <= t) -> in_window a l = 0%nat.
Proof.
  intros H. unfold in_window. induction l as [| x l IH]; [reflexivity |]. cbn.
  replace ((a <=? x) && (x <? a + RATE_WINDOW)) with false.
  - apply IH. intros t Ht. apply H. right. exact Ht.
  - symmetry. apply andb_false_iff. right. apply Z.ltb_ge. apply H. left. reflexivity.
Qed.

Lemma accepted_times_ge from calls results :
  clock_monotone from calls ->
  forall t, In t (accepted_times ip calls results) -> from <= t.
Proof.
  revert from results. induction calls as [| [now ip'] calls IH];
    intros from results M t Ht; [destruct Ht |].
  destruct results as [| b results]; [destruct Ht |]. cbn in M, Ht.
  destruct M as [L M].
  destruct (b && String.eqb ip' ip).
  - destruct Ht as [<- | Ht]; [exact L |].
    specialize (IH _ _ M _ Ht). lia.
  - specialize (IH _ _ M _ Ht). lia.
Qed.

(** The recorded time stamps stand for the calls accepted before: together
    with the calls accepted from now on they never exceed the limit in any
    window. *)
Lemma window_bound_from calls :
  forall (m : rate_table) (from : Z),
    (forall t, In t (hits_of ip m) -> t <= from) ->
    (forall a, (in_window a (hits_of ip m) <= 5)%nat) ->
    clock_monotone from calls ->
    forall a,
      (in_window a (hits_of ip m) +
       in_window a (accepted_times ip calls (fst (check_rate_limit_run calls m)))
       <= 5)%nat.
Proof.
  induction calls as [| [now ip'] calls IH]; intros m from Hle Hpre M a.
  - specialize (Hpre a). cbn [check_rate_limit_run fst accepted_times].
    change (in_window a []) with 0%nat. lia.
  - cbn in M. destruct M as [L M].
    cbn [check_rate_limit_run].
    destruct (check_rate_limit now ip' m) as [b m1] eqn:C.
    destruct (check_rate_limit_run calls m1) as [bs m2] eqn:R.
    cbn [fst accepted_times].
    assert (Hbs : bs = fst (check_rate_limit_run calls m1)) by (rewrite R; reflexivity).
    destruct (String.eqb_spec ip' ip) as [-> | N].
    + (* a call of [ip] *)
      unfold check_rate_limit in C. fold (hits_of ip m) in C. fold (fresh now) in C.
      set (kept := List.filter (fresh now) (hits_of ip m)) in *.
      assert (Kle : forall t, In t kept -> t <= now).
      { intros t Ht. apply List.filter_In in Ht as [Ht _]. specialize (Hle _ Ht). lia. }
      destruct (Z.leb_spec RATE_LIMIT (Z.of_nat (length kept))) as [Full | Room];
        injection C as <- <-; cbn [andb].
      * (* rejected *)
        specialize (IH (<[ip := kept]> m) now). rewrite hits_of_insert in IH.
        specialize (IH Kle).
        assert (P : forall a0, (in_window a0 kept <= 5)%nat).
        { intros a0. pose proof (in_window_filter_le a0 (fresh now) (hits_of ip m)).
          specialize (Hpre a0). fold kept in H. lia. }
        specialize (IH P M a). rewrite <- Hbs in IH.
        destruct (Z.lt_ge_cases now (a + RATE_WINDOW)) as [O | Cl].
        -- pose proof (in_window_pruned a now (hits_of ip m) O) as E.
           fold kept in E. lia.
        -- rewrite (in_window_closed a (accepted_times ip calls bs)).
           ++ specialize (Hpre a). lia.
           ++ intros t Ht. pose proof (accepted_times_ge _ _ _ M _ Ht). lia.
      * (* accepted *)
        specialize (IH (<[ip := kept ++ [now]]> m) now). rewrite hits_of_insert in IH.
        assert (Kle' : forall t, In t (kept ++ [now]) -> t <= now).
        { intros t Ht. apply in_app_or in Ht as [Ht | [<- | []]]; [auto | lia]. }
        assert (P : forall a0, (in_window a0 (kept ++ [now]) <= 5)%nat).
        { intros a0. pose proof (in_window_le_length a0 (kept ++ [now])) as Q.
          rewrite length_app in Q. cbn in Q. unfold RATE_LIMIT in Room. lia. }
        specialize (IH Kle' P M a). rewrite <- Hbs in IH.
        rewrite in_window_app in IH.
        change (now :: accepted_times ip calls bs)
          with ([now] ++ accepted_times ip calls bs).
        rewrite in_window_app.
        destruct (Z.lt_ge_cases now (a + RATE_WINDOW)) as [O | Cl].
        -- pose proof (in_window_pruned a now (hits_of ip m) O) as E.
           fold kept in E. lia.
        -- rewrite (in_window_closed a (accepted_times ip calls bs)).
           ++ rewrite (in_window_closed a [now]).
              ** specialize (Hpre a). lia.
              ** intros t [<- | []]. lia.
           ++ intros t Ht. pose proof (accepted_times_ge _ _ _ M _ Ht). lia.
    + (* a call of another client *)
      assert (E : hits_of ip m1 = hits_of ip m).
      { unfold check_rate_limit in C.
        destruct (RATE_LIMIT <=? _) in C; injection C as <- <-;
          apply hits_of_insert_ne; exact N. }
      rewrite andb_false_r.
      specialize (IH m1 now). rewrite E in IH. rewrite Hbs.
      apply IH; [| exact Hpre | exact M].
      intros t Ht. specialize (Hle _ Ht). lia.
Qed.

End RateLimit.

Ltac in_cases :=
  let t := fresh "t" in
  let H := fresh "H" in
  intros t H; cbn in H;
  repeat (destruct H as [<- | H]); [unfold RATE_WINDOW in *; lia .. | destruct H].

(** Five calls in a row are accepted and the sixth is rejected, when all
    six fall in one window and nothing recorded before is still in it. *)
Lemma burst_of_six ip (m : rate_table) t1 t2 t3 t4 t5 t6 :
  (forall t, In t (hits_of ip m) -> RATE_WINDOW <= t1 - t) ->
  t1 <= t2 -> t2 <= t3 -> t3 <= t4 -> t4 <= t5 -> t5 <= t6 ->
  t6 - t1 < RATE_WINDOW ->
  fst (check_rate_limit_run
         [(t1, ip); (t2, ip); (t3, ip); (t4, ip); (t5, ip); (t6, ip)] m)
    = [true; true; true; true; true; false].
Proof.
  intros Old L12 L23 L34 L45 L56 W.
  cbn [check_rate_limit_run].
  rewrite (check_rate_limit_recovers ip t1 m Old).
  rewrite check_rate_limit_accepts;
    rewrite ?hits_of_insert; [| in_cases | cbn; lia].
  rewrite check_rate_limit_accepts;
    rewrite ?hits_of_insert; [| in_cases | cbn; lia].
  rewrite check_rate_limit_accepts;
    rewrite ?hits_of_insert; [| in_cases | cbn; lia].
  rewrite check_rate_limit_accepts;
    rewrite ?hits_of_insert; [| in_cases | cbn; lia].
  rewrite check_rate_limit_rejects;
    rewrite ?hits_of_insert; [| in_cases | cbn; lia].
  reflexivity.
Qed.

(** C5, counterexample: a time stamp exactly one window old is not older
    than [now - window], so the limiter as specified keeps it; the code
    discards it.  With five time stamps of 100 recorded, the call at 160
    is rejected as specified and accepted by the code; and six calls at
    100, 100, 100, 100, 100 and 160, which lie in a window of 60 time
    units, are all accepted. *)
Lemma stamp_one_window_old_is_discarded :
  let m : rate_table := {[ "10.0.0.7" := [100; 100; 100; 100; 100] ]} in
  Forall (fun t => ~ t < 160 - RATE_WINDOW) (hits_of "10.0.0.7" m) /\
  fst (check_rate_limit_as_specified 160 "10.0.0.7" m) = false /\
  check_rate_limit 160 "10.0.0.7" m = (true, <[ "10.0.0.7" := [160] ]> m) /\
  check_rate_limit 160 "10.0.0.7" m <> check_rate_limit_as_specified 160 "10.0.0.7" m /\
  fst (check_rate_limit_run
         [(100, "10.0.0.7"); (100, "10.0.0.7"); (100, "10.0.0.7");
          (100, "10.0.0.7"); (100, "10.0.0.7"); (160, "10.0.0.7")] ∅)
    = [true; true; true; true; true; true].
Proof.
  cbv zeta. split; [| split; [| split; [| split]]].
  - repeat constructor; vm_compute; discriminate.
  - vm_compute. reflexivity.
  - vm_compute. reflexivity.
  - intros E. apply (f_equal fst) in E. vm_compute in E. discriminate.
  - vm_compute. reflexivity.
Qed.

(** C5 as amended.  On each call the limiter keeps of the recorded time stamps of the
    client those younger than the window ([now - t < 60]), rejects without
    recording when at least 5 remain and otherwise records [now] and
    accepts; the other clients are untouched.  Hence a burst of five calls
    in one window is accepted and the sixth rejected; a call is accepted
    again once the window has elapsed since every recorded time stamp; and,
    when the clock does not run backwards, at most 5 calls of a client are
    accepted in any window [[a, a + 60)]. *)
Theorem rate_limit_sliding_window (rate_map : rate_table) (ip : string) :
  (forall now,
     let kept := List.filter (fun t => now - t <? RATE_WINDOW) (hits_of ip rate_map) in
     (forall t, In t kept <-> In t (hits_of ip rate_map) /\ now - RATE_WINDOW < t) /\
     check_rate_limit now ip rate_map =
       if RATE_LIMIT <=? Z.of_nat (length kept)
       then (false, <[ip := kept]> rate_map)
       else (true, <[ip := kept ++ [now]]> rate_map)) /\
  (forall now ip',
     ip' <> ip ->
     hits_of ip' (snd (check_rate_limit now ip rate_map)) = hits_of ip' rate_map) /\
  (forall t1 t2 t3 t4 t5 t6,
     (forall t, In t (hits_of ip rate_map) -> RATE_WINDOW <= t1 - t) ->
     t1 <= t2 -> t2 <= t3 -> t3 <= t4 -> t4 <= t5 -> t5 <= t6 ->
     t6 - t1 < RATE_WINDOW ->
     fst (check_rate_limit_run
            [(t1, ip); (t2, ip); (t3, ip); (t4, ip); (t5, ip); (t6, ip)] rate_map)
       = [true; true; true; true; true; false]) /\
  (forall now,
     (forall t, In t (hits_of ip rate_map) -> RATE_WINDOW <= now - t) ->
     check_rate_limit now ip rate_map = (true, <[ip := [now]]> rate_map)) /\
  (forall calls from a,
     rate_map !! ip = None ->
     clock_monotone from calls ->
     (in_window a (accepted_times ip calls (fst (check_rate_limit_run calls rate_map)))
      <= 5)%nat).
Proof.
  split; [| split; [| split; [| split]]].
  - intros now kept. split; [| reflexivity].
    intros t. subst kept. rewrite List.filter_In, Z.ltb_lt. intuition lia.
  - intros now ip' N. unfold check_rate_limit.
    destruct (RATE_LIMIT <=? _); cbn [snd]; apply hits_of_insert_ne; congruence.
  - intros. apply burst_of_six; assumption.
  - intros now Old. apply check_rate_limit_recovers. exact Old.
  - intros calls from a E M.
    pose proof (window_bound_from ip calls rate_map from) as B.
    assert (H0 : hits_of ip rate_map = []) by (unfold hits_of; rewrite E; reflexivity).
    rewrite H0 in B. specialize (B ltac:(intros t []) ltac:(intros; cbn; lia) M a).
    change (in_window a []) with 0%nat in B. lia.
Qed.

Lemma rate_limit_sliding_window_witness :
  fst (check_rate_limit_run
         [(100, "10.0.0.7"); (101, "10.0.0.7"); (110, "10.0.0.7");
          (120, "10.0.0.7"); (130, "10.0.0.7"); (159, "10.0.0.7")] ∅)
    = [true; true; true; true; true; false] /\
  check_rate_limit 160 "10.0.0.7" {[ "10.0.0.7" := [96; 97; 98; 99; 100] ]}
    = (true, <[ "10.0.0.7" := [160] ]> {[ "10.0.0.7" := [96; 97; 98; 99; 100] ]}).
Proof.
  split.
  - pose proof (rate_limit_sliding_window ∅ "10.0.0.7") as (_ & _ & B & _).
    apply (B 100 101 110 120 130 159);
      [intros t H; vm_compute in H; destruct H | lia .. | reflexivity].
  - pose proof (rate_limit_sliding_window {[ "10.0.0.7" := [96; 97; 98; 99; 100] ]}
                  "10.0.0.7") as (_ & _ & _ & R & _).
    apply (R 160). intros t H. vm_compute in H.
    repeat (destruct H as [<- | H]); [vm_compute; discriminate .. | destruct H].
Defined.

(* ===================================================================== *)
(** ** The host-name pattern *)
(* ===================================================================== *)

Lemma append_nil_l s : EmptyString +:+ s = s.
Proof. reflexivity. Qed.

Lemma append_cons c a b : String c a +:+ b = String c (a +:+ b).
Proof. reflexivity. Qed.

Lemma append_nil_r s : s +:+ EmptyString = s.
Proof. induction s as [| c s IH]; [reflexivity |]. rewrite append_cons, IH. reflexivity. Qed.

Lemma append_assoc a b c : (a +:+ b) +:+ c = a +:+ (b +:+ c).
Proof.
  induction a as [| x a IH]; [reflexivity |]. rewrite !append_cons, IH. reflexivity.
Qed.

Lemma list_ascii_of_append a b :
  list_ascii_of_string (a +:+ b) = list_ascii_of_string a ++ list_ascii_of_string b.
Proof.
  induction a as [| x a IH]; [reflexivity |]. rewrite append_cons. cbn. rewrite IH.
  reflexivity.
Qed.

Lemma length_list_ascii s : length (list_ascii_of_string s) = String.length s.
Proof. induction s as [| c s IH]; [reflexivity |]. cbn. rewrite IH. reflexivity. Qed.

Lemma m_class cls pos s k :
  re.m (re.Class cls) pos s k =
  match s with
  | String c s' => re.in_class cls c && k (S pos) s'
  | EmptyString => false
  end.
Proof. reflexivity. Qed.

(** What [r{0,hi}] matches when [r] is a character class: up to [hi]
    characters of the class, followed by what the continuation accepts. *)
Lemma repeat_class_spec (cls : list (ascii * ascii)) (k : string -> bool) :
  forall (hi pos : nat) (s : string),
    re.m (re.Repeat 0 hi (re.Class cls)) pos s (fun _ s' => k s') = true <->
    exists pre suf,
      s = pre +:+ suf /\ (String.length pre <= hi)%nat /\
      forallb (re.in_class cls) (list_ascii_of_string pre) = true /\
      k suf = true.
Proof.
  induction hi as [| hi IH]; intros pos s.
  - change (re.m (re.Repeat 0 0 (re.Class cls)) pos s (fun _ s' => k s'))
      with (k s).
    split.
    + intros K. exists EmptyString, s. repeat split; auto.
    + intros (pre & suf & -> & L & _ & K).
      destruct pre; [exact K | cbn in L; lia].
  - change (re.m (re.Repeat 0 (S hi) (re.Class cls)) pos s (fun _ s' => k s'))
      with (re.m (re.Class cls) pos s
              (fun p s' => re.m (re.Repeat 0 hi (re.Class cls)) p s' (fun _ s' => k s'))
            || k s).
    rewrite orb_true_iff, m_class. destruct s as [| c s1].
    + split.
      * intros [F | K]; [discriminate |].
        exists EmptyString, EmptyString. repeat split; auto. cbn. lia.
      * intros (pre & suf & E & _ & _ & K). right.
        destruct pre; [rewrite append_nil_l in E; subst suf; exact K | discriminate].
    + rewrite andb_true_iff, IH. split.
      * intros [(C & pre & suf & -> & L & A & K) | K].
        -- exists (String c pre), suf. rewrite append_cons. cbn. rewrite C, A.
           repeat split; auto. lia.
        -- exists EmptyString, (String c s1). repeat split; auto. cbn. lia.
      * intros (pre & suf & E & L & A & K).
        destruct pre as [| c0 pre].
        -- right. rewrite append_nil_l in E. subst suf. exact K.
        -- left. rewrite append_cons in E. cbn in L, A. injection E as <- ->.
           apply andb_true_iff in A as [C A]. split; [exact C |].
           exists pre, suf. repeat split; auto. lia.
Qed.

Lemma at_eol_spec s : re.at_eol s = true <-> s = EmptyString \/ s = nl.
Proof.
  destruct s as [| c [| c' s]]; cbn.
  - intuition discriminate.
  - rewrite Ascii.eqb_eq. unfold nl. split.
    + intros ->. right. reflexivity.
    + intros [F | [= ->]]; [discriminate | reflexivity].
  - unfold nl. intuition discriminate.
Qed.

(** The matcher on [hostname_re], unfolded down to the repetition. *)
Lemma hostname_re_unfold s :
  hostname_ok s =
  match s with
  | EmptyString => false
  | String c s0 =>
      is_alnum c &&
      (re.m (re.Repeat 0 61 (re.Class alnum_hyphen)) 1 s0
         (fun _ s' => match s' with
                      | String c' s2 => is_alnum c' && (re.at_eol s2 && true)
                      | EmptyString => false
                      end)
       || re.at_eol s0 && true)
  end.
Proof. destruct s; reflexivity. Qed.

(** The subject strings the pattern of [hostname_re] accepts. *)
Lemma hostname_re_spec s :
  hostname_ok s = true <->
  exists c s1 e,
    s = String c (s1 +:+ e) /\ (e = EmptyString \/ e = nl) /\
    is_alnum c = true /\
    (s1 = EmptyString \/
     exists mid c',
       s1 = mid +:+ String c' EmptyString /\ (String.length mid <= 61)%nat /\
       forallb is_alnum_hyphen (list_ascii_of_string mid) = true /\
       is_alnum c' = true).
Proof.
  rewrite hostname_re_unfold.
  destruct s as [| c s0].
  { split; [discriminate | intros (? & ? & ? & ? & _); discriminate]. }
  rewrite andb_true_iff, orb_true_iff.
  rewrite repeat_class_spec, andb_true_r, at_eol_spec.
  split.
  - intros (C & [(pre & suf & -> & L & A & K) | E]).
    + destruct suf as [| c' s2]; [discriminate |].
      rewrite !andb_true_iff, at_eol_spec in K. destruct K as (C' & E & _).
      exists c, (pre +:+ String c' EmptyString), s2.
      repeat split; auto.
      * f_equal. rewrite append_assoc. reflexivity.
      * right. exists pre, c'. repeat split; auto.
    + exists c, EmptyString, s0. repeat split; auto.
  - intros (c0 & s1 & e & [= <- ->] & E & C & S). split; [exact C |].
    destruct S as [-> | (mid & c' & -> & L & A & C')].
    + right. exact E.
    + left. exists mid, (String c' e). repeat split; auto.
      * rewrite append_assoc. reflexivity.
      * rewrite !andb_true_iff, at_eol_spec. auto.
Qed.

(** The specification's host-name syntax, spelled out. *)
Lemma rfc1123_label_spec s :
  rfc1123_label s = true <->
  exists c s1,
    s = String c s1 /\ is_alnum c = true /\
    (s1 = EmptyString \/
     exists mid c',
       s1 = mid +:+ String c' EmptyString /\ (String.length mid <= 61)%nat /\
       forallb is_alnum_hyphen (list_ascii_of_string mid) = true /\
       is_alnum c' = true).
Proof.
  unfold rfc1123_label. destruct s as [| c s1].
  { split; [discriminate | intros (? & ? & ? & _); discriminate]. }
  cbn [list_ascii_of_string List.tl].
  rewrite !andb_true_iff, Nat.leb_le.
  destruct (list_ascii_of_string s1) as [| x l] eqn:E.
  - assert (s1 = EmptyString) as ->.
    { destruct s1; [reflexivity | discriminate]. }
    cbn. split.
    + intros [[[_ C] _] _]. exists c, EmptyString. auto.
    + intros (c0 & s0 & [= <- <-] & C & _). repeat split; auto. lia.
  - destruct (exists_last (l := x :: l) ltac:(discriminate)) as (mid & c' & El).
    rewrite El in *.
    assert (Es : s1 = string_of_list_ascii mid +:+ String c' EmptyString).
    { rewrite <- (string_of_list_ascii_of_string s1), E.
      clear. induction mid as [| y mid IH]; [reflexivity |].
      cbn. rewrite append_cons, <- IH. reflexivity. }
    change (c :: mid ++ [c']) with ((c :: mid) ++ [c']).
    rewrite List.last_last, removelast_last, length_app. cbn [length].
    split.
    + intros [[[L C] C'] A]. exists c, s1. repeat split; auto. right.
      exists (string_of_list_ascii mid), c'.
      rewrite list_ascii_of_string_of_list_ascii.
      repeat split; auto.
      rewrite <- length_list_ascii, list_ascii_of_string_of_list_ascii. lia.
    + intros (c0 & s0 & Heq & C & S). injection Heq as Hc Hs. subst c0 s0.
      destruct S as [F | (mid' & c'' & Em & L & A & C')].
      { rewrite F in E. cbn in E. destruct mid; discriminate. }
      assert (mid = list_ascii_of_string mid' /\ c' = c'') as [-> ->].
      { rewrite Em in E. rewrite list_ascii_of_append in E. cbn in E.
        apply app_inj_tail in E. destruct E; auto. }
      rewrite length_list_ascii. repeat split; auto. lia.
Qed.

(** Supporting fact for C8: the pattern accepts a label, and a label
    followed by one newline, and nothing else. *)
Lemma hostname_ok_iff s :
  hostname_ok s = true <->
  rfc1123_label s = true \/ exists s', s = s' +:+ nl /\ rfc1123_label s' = true.
Proof.
  rewrite hostname_re_spec. split.
  - intros (c & s1 & e & -> & [-> | ->] & C & S).
    + left. rewrite append_nil_r. apply rfc1123_label_spec. exists c, s1. auto.
    + right. exists (String c s1). split; [reflexivity |].
      apply rfc1123_label_spec. exists c, s1. auto.
  - intros [L | (s' & -> & L)]; apply rfc1123_label_spec in L as (c & s1 & -> & C & S).
    + exists c, s1, EmptyString. rewrite append_nil_r. auto.
    + exists c, s1, nl. auto.
Qed.

(** C8.  The code at an input the specification wants rejected: a host name
    that ends in a newline is not a label (its last character is not
    alphanumeric), yet the pattern accepts it, because [$] also matches
    just before a final newline; [apply_network_config] then hands it to
    [hostnamectl] as it is.  The handler of [/api/hostname] strips the name
    first and is not affected. *)
Theorem hostname_with_trailing_newline_accepted :
  let name := "edge-01" +:+ nl in
  let run := apply_network_config sample_env "" "" "" "" "" name true ""
               sample_world in
  rfc1123_label name = false /\
  hostname_ok name = true /\
  value_of run = (true, NewAddress "dhcp") /\
  hostname (world_of run) = name /\
  Py.strip name = "edge-01" /\
  rfc1123_label "edge-01" = true.
Proof. cbv zeta. repeat split; vm_compute; reflexivity. Qed.

(* ===================================================================== *)
(** ** The handler: throttling, authentication, sessions *)
(* ===================================================================== *)

Ltac handler_cases :=
  repeat match goal with
         | |- context [valid_session ?a ?b ?c ?d] =>
             destruct (valid_session a b c d) as [[] ?]
         | |- context [apply_network_config ?e ?a ?b ?c ?d ?f ?g ?h ?i ?w] =>
             destruct (apply_network_config e a b c d f g h i w) as [[[[] ?] ?] ?]
         | |- context [hostnamectl ?e ?h ?w] =>
             destruct (hostnamectl e h w) as [[[?|] ?] ?]
         | |- context [if ?b then _ else _] => destruct b
         | |- context [match ?x with _ => _ end] => destruct x
         end.

Section Handler.

Variables (e : env) (now : Z) (sid : string) (req : request) (s : server).

(** The rate table after a POST is the one [check_rate_limit] returns. *)
Lemma do_POST_rate_map :
  rate_map (snd (do_POST e now sid req s)) =
  snd (check_rate_limit now (req_client req) (rate_map s)).
Proof.
  unfold do_POST, is_authed, sent, send_json, send.
  destruct (check_rate_limit now (req_client req) (rate_map s)) as [[] rm];
    cbn [negb snd]; [| reflexivity].
  handler_cases; reflexivity.
Qed.

(** 429 is the answer of the limiter and of nothing else. *)
Lemma do_POST_429 :
  answered 429 (fst (do_POST e now sid req s)) = true <->
  fst (check_rate_limit now (req_client req) (rate_map s)) = false.
Proof.
  unfold do_POST, is_authed, sent, send_json, send.
  destruct (check_rate_limit now (req_client req) (rate_map s)) as [[] rm];
    cbn [negb fst]; [| tauto].
  handler_cases; cbn; split; discriminate.
Qed.

End Handler.

(** Over a sequence of POST requests the answers 429 are the rejections of
    the limiter on the same sequence of clients and times. *)
Lemma do_POST_run_throttle e reqs :
  forall s,
    List.map (answered 429) (fst (do_POST_run e reqs s)) =
    List.map negb
      (fst (check_rate_limit_run
              (List.map (fun q => (fst (fst q), req_client (snd q))) reqs)
              (rate_map s))).
Proof.
  induction reqs as [| [[now sid] req] reqs IH]; intros s; [reflexivity |].
  cbn [do_POST_run List.map check_rate_limit_run fst snd].
  pose proof (do_POST_rate_map e now sid req s) as R.
  pose proof (do_POST_429 e now sid req s) as T.
  destruct (do_POST e now sid req s) as [r s1].
  destruct (check_rate_limit now (req_client req) (rate_map s)) as [b rm].
  cbn [fst snd] in R, T. subst rm.
  specialize (IH s1).
  destruct (do_POST_run e reqs s1) as [rs s2].
  destruct (check_rate_limit_run _ (rate_map s1)) as [bs rm2].
  cbn [fst List.map] in *. f_equal; [| exact IH].
  destruct b.
  - cbn. apply not_true_is_false. intros E. apply T in E. discriminate.
  - cbn. apply T. reflexivity.
Qed.

(** X1.  Every POST counts against the limit of its client, whatever its
    path, session or body: of six POST requests of one client within one
    window, when nothing recorded before is still in the window, the first
    five are not answered 429 and the sixth is. *)
Theorem sixth_post_is_throttled
  (e : env) (s : server) (client : string)
  (t1 t2 t3 t4 t5 t6 : Z) (i1 i2 i3 i4 i5 i6 : string)
  (q1 q2 q3 q4 q5 q6 : request) :
  Forall (fun q => req_client q = client) [q1; q2; q3; q4; q5; q6] ->
  (forall t, In t (hits_of client (rate_map s)) -> RATE_WINDOW <= t1 - t) ->
  t1 <= t2 -> t2 <= t3 -> t3 <= t4 -> t4 <= t5 -> t5 <= t6 ->
  t6 - t1 < RATE_WINDOW ->
  List.map (answered 429)
    (fst (do_POST_run e [(t1, i1, q1); (t2, i2, q2); (t3, i3, q3);
                         (t4, i4, q4); (t5, i5, q5); (t6, i6, q6)] s))
    = [false; false; false; false; false; true].
Proof.
  intros C Old L12 L23 L34 L45 L56 W.
  rewrite do_POST_run_throttle. cbn [List.map fst snd].
  repeat match goal with
         | H : Forall _ (_ :: _) |- _ => apply Forall_cons in H as [-> H]
         end.
  rewrite (burst_of_six client (rate_map s) t1 t2 t3 t4 t5 t6) by assumption.
  reflexivity.
Qed.

Lemma sixth_post_is_throttled_witness :
  let q p := {| req_path := p; req_session := ""; req_client := "10.0.0.7";
                req_body := None |} in
  List.map (answered 429)
    (fst (do_POST_run sample_env
            [(100, "a", q "/api/auth"); (101, "b", q "/api/network");
             (102, "c", q "/api/hostname"); (103, "d", q "/nope");
             (104, "e", q "/api/auth"); (105, "f", q "/api/auth")]
            sample_server))
    = [false; false; false; false; false; true].
Proof.
  cbv zeta.
  apply (sixth_post_is_throttled sample_env sample_server "10.0.0.7");
    try lia; try reflexivity.
  - repeat constructor.
  - intros t Ht. vm_compute in Ht. destruct Ht.
Defined.

Lemma system_untouched_add_log r w w' :
  system_untouched w w' -> system_untouched w (add_log r w').
Proof. intros (A & B & C). repeat split; assumption. Qed.

Lemma system_untouched_refl w : system_untouched w w.
Proof. repeat split. Qed.

(** X2.  Without a live session nothing but the page itself and the login
    is served: a GET of any other path is answered 401, a POST of any other
    path 401 (or 429 when throttled), no cookie is set, and the netplan
    directory, the host name and the scheduled commands stay as they are. *)
Theorem without_session_nothing_is_served
  (e : env) (now : Z) (sid : string) (req : request) (s : server) :
  session_alive now (req_session req) (sessions s) = false ->
  (path_of (req_path req) <> "/" ->
     let '(r, s') := do_GET e now req s in
     status r = 401 /\ system_untouched (sys s) (sys s')) /\
  (path_of (req_path req) <> "/api/auth" ->
     let '(r, s') := do_POST e now sid req s in
     (status <$> r = Some 401 \/ status <$> r = Some 429) /\
     set_cookie <$> r = Some None /\
     system_untouched (sys s) (sys s')).
Proof.
  unfold session_alive. intros A. split; intros P.
  - unfold do_GET, is_authed, send_json, send.
    apply String.eqb_neq in P. rewrite P.
    destruct (valid_session now now (req_session req) (sessions s)) as [b t].
    cbn [fst] in A. subst b. cbn.
    repeat split.
  - unfold do_POST, is_authed, sent, send_json, send.
    apply String.eqb_neq in P. rewrite P.
    destruct (check_rate_limit now (req_client req) (rate_map s)) as [[] rm];
      cbn [negb].
    + cbn [sessions with_rate].
      destruct (valid_session now now (req_session req) (sessions s)) as [b t].
      cbn [fst] in A. subst b. cbn. repeat split. left. reflexivity.
    + cbn. repeat split. right. reflexivity.
Qed.

Lemma without_session_nothing_is_served_witness :
  let req := {| req_path := "/api/network"; req_session := "stale";
                req_client := "10.0.0.7";
                req_body := Some {| f_token := ""; f_dhcp := true; f_ip := "";
                                    f_cidr := "24"; f_gateway := ""; f_dns1 := "";
                                    f_dns2 := ""; f_hostname := "" |} |} in
  let '(r, s') := do_POST sample_env 1000 "c0ffee" req sample_server in
  (status <$> r = Some 401 \/ status <$> r = Some 429) /\
  set_cookie <$> r = Some None /\
  system_untouched (sys sample_server) (sys s').
Proof.
  cbv zeta.
  refine (proj2 (without_session_nothing_is_served sample_env 1000 "c0ffee"
                   {| req_path := "/api/network"; req_session := "stale";
                      req_client := "10.0.0.7";
                      req_body := Some {| f_token := ""; f_dhcp := true;
                                          f_ip := ""; f_cidr := "24";
                                          f_gateway := ""; f_dns1 := "";
                                          f_dns2 := ""; f_hostname := "" |} |}
                   sample_server _) _).
  - vm_compute. reflexivity.
  - vm_compute. discriminate.
Defined.

(** X3.  A throttled POST is refused before anything else is looked at:
    429, no cookie, the session table is not even refreshed, and nothing
    outside the process changes. *)
Theorem throttled_post_touches_nothing
  (e : env) (now : Z) (sid : string) (req : request) (s : server) :
  fst (check_rate_limit now (req_client req) (rate_map s)) = false ->
  let '(r, s') := do_POST e now sid req s in
  status <$> r = Some 429 /\ set_cookie <$> r = Some None /\
  sessions s' = sessions s /\ token_file s' = token_file s /\
  system_untouched (sys s) (sys s').
Proof.
  intros L. unfold do_POST, sent, send_json, send.
  destruct (check_rate_limit now (req_client req) (rate_map s)) as [b rm].
  cbn [fst] in L. subst b. cbn. repeat split.
Qed.

Lemma throttled_post_touches_nothing_witness :
  let srv := {| rate_map := {[ "10.0.0.7" := [996; 997; 998; 999; 1000] ]};
                sessions := {[ "5e55" := 1000 ]};
                token_file := Some "secret";
                sys := sample_world |} in
  let req := {| req_path := "/api/auth"; req_session := "5e55";
                req_client := "10.0.0.7";
                req_body := Some {| f_token := "secret"; f_dhcp := true; f_ip := "";
                                    f_cidr := "24"; f_gateway := ""; f_dns1 := "";
                                    f_dns2 := ""; f_hostname := "" |} |} in
  let '(r, s') := do_POST sample_env 1001 "c0ffee" req srv in
  status <$> r = Some 429 /\ set_cookie <$> r = Some None /\
  sessions s' = sessions srv /\ token_file s' = token_file srv /\
  system_untouched (sys srv) (sys s').
Proof.
  cbv zeta.
  apply (throttled_post_touches_nothing sample_env 1001 "c0ffee").
  vm_compute. reflexivity.
Defined.

(** [valid_session] touches the entry of [sid] only and never creates one. *)
Lemma valid_session_frame now now' sid (t : session_table) :
  (forall k, k <> sid -> snd (valid_session now now' sid t) !! k = t !! k) /\
  (forall k, is_Some (snd (valid_session now now' sid t) !! k) -> is_Some (t !! k)).
Proof.
  unfold valid_session. destruct (t !! sid) as [ts |] eqn:L.
  - destruct (SESSION_TIMEOUT <? now - ts); cbn [snd]; split; intros k.
    + intros N. rewrite lookup_delete_ne; congruence.
    + destruct (decide (k = sid)) as [-> | N].
      * rewrite lookup_delete_eq. intros [? ?]. discriminate.
      * rewrite lookup_delete_ne; congruence.
    + intros N. rewrite lookup_insert_ne; congruence.
    + destruct (decide (k = sid)) as [-> | N].
      * rewrite L. eauto.
      * rewrite lookup_insert_ne; congruence.
  - cbn [snd]. split; auto.
Qed.

(** X4.  Logging in and using the session: a POST of [/api/auth] that is
    not throttled and carries the configured token, non-empty and made of
    ASCII characters (the only tokens [secrets.compare_digest] compares),
    is answered 200 with the new session identifier as cookie; any GET of
    an API endpoint that presents this cookie within the idle timeout is
    then answered 200. *)
Theorem login_then_read
  (e : env) (now : Z) (sid : string) (req : request) (s : server) (data : form) :
  fst (check_rate_limit now (req_client req) (rate_map s)) = true ->
  path_of (req_path req) = "/api/auth" ->
  req_body req = Some data ->
  get_admin_token s <> EmptyString ->
  secrets.isascii (get_admin_token s) = true ->
  Py.strip (f_token data) = get_admin_token s ->
  let '(r, s') := do_POST e now sid req s in
  status <$> r = Some 200 /\ set_cookie <$> r = Some (Some sid) /\
  forall now' req',
    req_session req' = sid ->
    now' - now <= SESSION_TIMEOUT ->
    In (path_of (req_path req')) ["/api/network"; "/api/system"; "/api/services"] ->
    status (fst (do_GET e now' req' s')) = 200.
Proof.
  intros A P B T I K.
  unfold do_POST, sent, send_json, send, create_session, secrets.compare_digest.
  destruct (check_rate_limit now (req_client req) (rate_map s)) as [b rm].
  cbn [fst] in A. subst b. cbn [negb].
  rewrite P, B. cbn [String.eqb Ascii.eqb Bool.eqb].
  change (get_admin_token (with_rate rm s)) with (get_admin_token s).
  apply truthy_true in T. rewrite T, K, I, String.eqb_refl. cbn [negb andb].
  repeat split.
  intros now' req' S L J. cbn [fst snd].
  unfold do_GET, is_authed, send_json, send, valid_session.
  cbn [sessions with_sys with_sessions with_rate].
  rewrite S, lookup_insert_eq.
  replace (SESSION_TIMEOUT <? now' - now) with false
    by (symmetry; apply Z.ltb_ge; exact L).
  cbn [negb].
  cbn in J. destruct J as [<- | [<- | [<- | []]]]; reflexivity.
Qed.

Lemma login_then_read_witness :
  let login := {| req_path := "/api/auth"; req_session := "";
                  req_client := "10.0.0.7";
                  req_body := Some {| f_token := " secret "; f_dhcp := false;
                                      f_ip := ""; f_cidr := "24"; f_gateway := "";
                                      f_dns1 := ""; f_dns2 := ""; f_hostname := "" |} |} in
  let '(r, s') := do_POST sample_env 2000 "c0ffee" login sample_server in
  status <$> r = Some 200 /\ set_cookie <$> r = Some (Some "c0ffee") /\
  forall now' req',
    req_session req' = "c0ffee" ->
    now' - 2000 <= SESSION_TIMEOUT ->
    In (path_of (req_path req')) ["/api/network"; "/api/system"; "/api/services"] ->
    status (fst (do_GET sample_env now' req' s')) = 200.
Proof.
  cbv zeta.
  apply (login_then_read sample_env 2000 "c0ffee" _ sample_server
           {| f_token := " secret "; f_dhcp := false;
              f_ip := ""; f_cidr := "24"; f_gateway := "";
              f_dns1 := ""; f_dns2 := ""; f_hostname := "" |}).
  - vm_compute. reflexivity.
  - vm_compute. reflexivity.
  - reflexivity.
  - vm_compute. discriminate.
  - vm_compute. reflexivity.
  - vm_compute. reflexivity.
Defined.

(** X5.  A session cookie is issued for the configured token only: when
    the answer to a POST sets a cookie, the path is [/api/auth], the
    answer is 200, the cookie is the fresh identifier, a non-empty token is
    configured, and the token sent equals it once both are stripped. *)
Theorem cookie_only_for_the_token
  (e : env) (now : Z) (sid : string) (req : request) (s : server) (c : string) :
  set_cookie <$> fst (do_POST e now sid req s) = Some (Some c) ->
  c = sid /\
  status <$> fst (do_POST e now sid req s) = Some 200 /\
  path_of (req_path req) = "/api/auth" /\
  get_admin_token s <> EmptyString /\
  exists data,
    req_body req = Some data /\ Py.strip (f_token data) = get_admin_token s.
Proof.
  unfold do_POST, is_authed, sent, send_json, send, create_session,
    secrets.compare_digest.
  destruct (check_rate_limit now (req_client req) (rate_map s)) as [[] rm];
    cbn [negb]; [| cbn; discriminate].
  change (get_admin_token (with_rate rm s)) with (get_admin_token s).
  destruct (String.eqb_spec (path_of (req_path req)) "/api/auth") as [P | P].
  - destruct (req_body req) as [data |]; [| cbn; discriminate].
    destruct (Py.truthy (get_admin_token s)) eqn:T; cbn [negb]; [| cbn; discriminate].
    destruct (secrets.isascii (Py.strip (f_token data)) &&
              secrets.isascii (get_admin_token s)); [| cbn; discriminate].
    destruct (String.eqb_spec (Py.strip (f_token data)) (get_admin_token s)) as [K | K];
      [| cbn; discriminate].
    cbn. intros [= <-]. apply truthy_true in T. eauto 10.
  - handler_cases; cbn; discriminate.
Qed.

Lemma cookie_only_for_the_token_witness :
  let login := {| req_path := "/api/auth?x"; req_session := "";
                  req_client := "10.0.0.7";
                  req_body := Some {| f_token := "secret"; f_dhcp := false;
                                      f_ip := ""; f_cidr := "24"; f_gateway := "";
                                      f_dns1 := ""; f_dns2 := ""; f_hostname := "" |} |} in
  status <$> fst (do_POST sample_env 2000 "c0ffee" login sample_server) = Some 200.
Proof.
  cbv zeta.
  apply (cookie_only_for_the_token sample_env 2000 "c0ffee" _ sample_server "c0ffee").
  vm_compute. reflexivity.
Defined.

(** X6.  Session identifiers enter the table through a successful login
    only: a GET never adds one, and a POST whose answer sets no cookie, or
    that ends without an answer, never adds one (entries may be refreshed
    or evicted). *)
Theorem sessions_only_from_login
  (e : env) (now : Z) (sid : string) (req : request) (s : server) (k : string) :
  (is_Some (sessions (snd (do_GET e now req s)) !! k) -> is_Some (sessions s !! k)) /\
  (fst (do_POST e now sid req s) ≫= set_cookie = None ->
   is_Some (sessions (snd (do_POST e now sid req s)) !! k) ->
   is_Some (sessions s !! k)).
Proof.
  pose proof (valid_session_frame now now (req_session req) (sessions s)) as [_ F].
  specialize (F k). split.
  - unfold do_GET, is_authed, send_json, send.
    destruct (valid_session now now (req_session req) (sessions s)) as [b t].
    cbn [snd] in F.
    handler_cases; cbn; auto.
  - unfold do_POST, is_authed, sent, send_json, send, create_session.
    destruct (check_rate_limit now (req_client req) (rate_map s)) as [[] rm];
      cbn [negb]; [| cbn; auto].
    cbn [sessions with_rate].
    destruct (valid_session now now (req_session req) (sessions s)) as [b t].
    cbn [snd] in F.
    handler_cases; cbn; auto; discriminate.
Qed.

Lemma sessions_only_from_login_witness :
  is_Some (sessions sample_server !! "5e55").
Proof.
  apply (proj1 (sessions_only_from_login sample_env 1500 ""
                  {| req_path := "/api/network"; req_session := "5e55";
                     req_client := "10.0.0.7"; req_body := None |}
                  sample_server "5e55")).
  vm_compute. eauto.
Defined.




(** What [rstrip] returns does not end in a stripped character. *)
Lemma rstrip_last sp s : forall s' c,
  Py.rstrip sp s = s' +:+ String c EmptyString -> sp c = false.
Proof.
  induction s as [| a s IH]; intros s' c E; cbn in E.
  - destruct s'; discriminate.
  - destruct (Py.rstrip sp s) as [| b r] eqn:R.
    + destruct (sp a) eqn:Sa.
      * destruct s'; discriminate.
      * destruct s' as [| x s'].
        -- rewrite append_nil_l in E. injection E as <-. exact Sa.
        -- rewrite append_cons in E. injection E as _ E. destruct s'; discriminate.
    + destruct s' as [| x s'].
      * rewrite append_nil_l in E. discriminate.
      * rewrite append_cons in E. injection E as _ E. apply (IH s' c). exact E.
Qed.

(** On a stripped name the pattern and the label syntax agree. *)
Lemma hostname_ok_strip h : hostname_ok (Py.strip h) = rfc1123_label (Py.strip h).
Proof.
  destruct (hostname_ok (Py.strip h)) eqn:O, (rfc1123_label (Py.strip h)) eqn:L;
    try reflexivity.
  - apply hostname_ok_iff in O as [O | (s' & E & _)]; [congruence |].
    unfold Py.strip in E. apply rstrip_last in E. discriminate.
  - assert (hostname_ok (Py.strip h) = true) by (apply hostname_ok_iff; auto).
    congruence.
Qed.

(** X8.  The host-name endpoint sets labels only.  A POST of
    [/api/hostname] with a live session strips the name first; it is
    answered 400 when the stripped name is not a label, 500 when
    [hostnamectl] fails and 200 otherwise, and only in the last case does
    the host name change, to the stripped name; the netplan directory and
    the scheduled commands never change. *)
Theorem hostname_endpoint_sets_labels_only
  (e : env) (now : Z) (sid : string) (req : request) (s : server) (data : form) :
  fst (check_rate_limit now (req_client req) (rate_map s)) = true ->
  session_alive now (req_session req) (sessions s) = true ->
  path_of (req_path req) = "/api/hostname" ->
  req_body req = Some data ->
  let name := Py.strip (f_hostname data) in
  let '(r, s') := do_POST e now sid req s in
  status <$> r = Some (if rfc1123_label name
                      then if hostnamectl_fails e then 500 else 200
                      else 400) /\
  hostname (sys s') = (if rfc1123_label name && negb (hostnamectl_fails e)
                       then name else hostname (sys s)) /\
  netplan_dir (sys s') = netplan_dir (sys s) /\
  scheduled (sys s') = scheduled (sys s).
Proof.
  intros A L P B name. unfold session_alive in L.
  unfold do_POST, is_authed, sent, send_json, send.
  destruct (check_rate_limit now (req_client req) (rate_map s)) as [b rm].
  cbn [fst] in A. subst b. cbn [negb].
  rewrite P, B. cbn [String.eqb Ascii.eqb Bool.eqb sessions with_rate].
  destruct (valid_session now now (req_session req) (sessions s)) as [b t].
  cbn [fst] in L. subst b. cbn [negb].
  fold name. fold (hostname_ok name). subst name. rewrite hostname_ok_strip.
  destruct (rfc1123_label (Py.strip (f_hostname data))) eqn:R.
  - assert (T : Py.truthy (Py.strip (f_hostname data)) = true).
    { destruct (Py.strip (f_hostname data)); [discriminate | reflexivity]. }
    rewrite T. cbn [negb orb]. unfold hostnamectl.
    destruct (hostnamectl_fails e); cbn; repeat split.
  - rewrite orb_true_r. cbn. repeat split.
Qed.

Lemma hostname_endpoint_sets_labels_only_witness :
  let data := {| f_token := ""; f_dhcp := false; f_ip := ""; f_cidr := "24";
                 f_gateway := ""; f_dns1 := ""; f_dns2 := "";
                 f_hostname := " edge-01" +:+ nl |} in
  let req := {| req_path := "/api/hostname"; req_session := "5e55";
                req_client := "10.0.0.7"; req_body := Some data |} in
  let '(r, s') := do_POST sample_env 1500 "c0ffee" req sample_server in
  status <$> r = Some 200 /\ hostname (sys s') = "edge-01".
Proof.
  cbv zeta.
  pose proof (hostname_endpoint_sets_labels_only sample_env 1500 "c0ffee"
    {| req_path := "/api/hostname"; req_session := "5e55";
       req_client := "10.0.0.7";
       req_body := Some {| f_token := ""; f_dhcp := false; f_ip := "";
                           f_cidr := "24"; f_gateway := ""; f_dns1 := "";
                           f_dns2 := ""; f_hostname := " edge-01" +:+ nl |} |}
    sample_server
    {| f_token := ""; f_dhcp := false; f_ip := ""; f_cidr := "24";
       f_gateway := ""; f_dns1 := ""; f_dns2 := "";
       f_hostname := " edge-01" +:+ nl |}
    ltac:(vm_compute; reflexivity) ltac:(vm_compute; reflexivity)
    ltac:(vm_compute; reflexivity) eq_refl) as H.
  cbv zeta in H.
  destruct (do_POST _ _ _ _ _) as [r s'].
  destruct H as (H1 & H2 & _). split; [exact H1 | exact H2].
Defined.

(* ===================================================================== *)
(** ** What [apply_network_config] leaves alone *)
(* ===================================================================== *)

Section Preserves.

Variable P : world -> world -> Prop.
Hypothesis P_refl : forall w, P w w.
Hypothesis P_trans : forall w1 w2 w3, P w1 w2 -> P w2 w3 -> P w1 w3.

Lemma preserves_ret {A : Type} (a : A) : preserves P (ret a).
Proof. intros w. split; [apply P_refl | constructor]. Qed.

Lemma preserves_bind {A B : Type} (c : M A) (k : A -> M B) :
  preserves P c -> (forall a, preserves P (k a)) -> preserves P (bindM c k).
Proof.
  intros Hc Hk w. unfold bindM, world_of, trace_of.
  specialize (Hc w). unfold world_of, trace_of in Hc.
  destruct (c w) as [[a w1] t1]. cbn [fst snd] in Hc. destruct Hc as [H1 F1].
  specialize (Hk a w1). unfold world_of, trace_of in Hk.
  destruct (k a w1) as [[b w2] t2]. cbn [fst snd] in *. destruct Hk as [H2 F2].
  split.
  - eapply P_trans; eassumption.
  - apply Forall_app. split; [exact F1 |].
    eapply Forall_impl; [exact F2 |]. intros x Hx. eapply P_trans; eassumption.
Qed.

Lemma preserves_effect (f : world -> world) :
  (forall w, P w (f w)) -> preserves P (effect f).
Proof. intros H w. split; [apply H | constructor; [apply H | constructor]]. Qed.

(** A system call that either fails and changes nothing, or changes the
    world by [f]. *)
Lemma preserves_step {A : Type} (c : M A) :
  (forall w, (world_of (c w) = w /\ trace_of (c w) = []) \/
             (P w (world_of (c w)) /\ trace_of (c w) = [world_of (c w)])) ->
  preserves P c.
Proof.
  intros H w. destruct (H w) as [[-> ->] | [Hp ->]].
  - split; [apply P_refl | constructor].
  - split; [exact Hp | constructor; [exact Hp | constructor]].
Qed.

End Preserves.

Lemma lookup_file_remove_same n d : lookup_file n (remove_entry n d) = None.
Proof.
  unfold lookup_file, remove_entry.
  induction d as [| [k v] d IH]; [reflexivity |]. cbn.
  destruct (String.eqb k n) eqn:E; cbn; [exact IH |]. rewrite E. exact IH.
Qed.

Lemma lookup_file_update_other n n' f d :
  n <> n' -> lookup_file n (update_file n' f d) = lookup_file n d.
Proof.
  intros N. unfold lookup_file, update_file.
  induction d as [| [k v] d IH]; [reflexivity |]. cbn.
  destruct (String.eqb k n') eqn:E; cbn.
  - apply String.eqb_eq in E. subst k.
    assert (String.eqb n' n = false) as -> by (apply String.eqb_neq; congruence).
    exact IH.
  - destruct (String.eqb k n); [reflexivity | exact IH].
Qed.

Lemma lookup_file_app_other n n' x d :
  n <> n' -> lookup_file n (d ++ [(n', x)]) = lookup_file n d.
Proof.
  intros N. unfold lookup_file.
  induction d as [| [k v] d IH]; cbn.
  - assert (String.eqb n' n = false) as -> by (apply String.eqb_neq; congruence).
    reflexivity.
  - destruct (String.eqb k n); [reflexivity | exact IH].
Qed.

Lemma others_kept_refl w : others_kept w w.
Proof. intros f _. left. reflexivity. Qed.

Lemma others_kept_trans w1 w2 w3 :
  others_kept w1 w2 -> others_kept w2 w3 -> others_kept w1 w3.
Proof.
  intros A B f N. destruct (B f N) as [E | [Y E]].
  - rewrite E. apply A. exact N.
  - right. auto.
Qed.

Lemma quiet_refl w : quiet w w.
Proof. split; reflexivity. Qed.

Lemma quiet_trans w1 w2 w3 : quiet w1 w2 -> quiet w2 w3 -> quiet w1 w3.
Proof. intros [A B] [C D]. split; congruence. Qed.

(** A step that keeps the directory keeps the other files. *)
Lemma others_kept_same_dir w w' : netplan_dir w' = netplan_dir w -> others_kept w w'.
Proof. intros E f _. left. unfold file_at. rewrite E. reflexivity. Qed.

Section Frames.

Variable e : env.

Lemma os_listdir_pure (P : world -> world -> Prop) :
  (forall w, P w w) -> preserves P (os_listdir e).
Proof.
  intros R. apply preserves_step; [exact R |]. intros w. left.
  unfold os_listdir, world_of, trace_of.
  destruct (netplan_dir w); [destruct (listdir_fails e) |]; auto.
Qed.

Lemma os_remove_others fname :
  fname <> NETPLAN_NAME -> yaml_name fname = true ->
  preserves others_kept (os_remove e fname).
Proof.
  intros N Y. apply preserves_step; [exact others_kept_refl |]. intros w.
  unfold os_remove, world_of, trace_of.
  destruct (netplan_dir w) as [d |] eqn:D; [| auto].
  destruct (remove_fails e fname || _); [auto |]. right. cbn [fst snd].
  split; [| reflexivity].
  intros f Nf. unfold file_at. cbn. rewrite D.
  destruct (String.eqb_spec fname f) as [<- | Ne].
  - right. split; [exact Y | apply lookup_file_remove_same].
  - left. apply lookup_file_remove_other. exact Ne.
Qed.

Lemma os_remove_quiet fname : preserves quiet (os_remove e fname).
Proof.
  apply preserves_step; [exact quiet_refl |]. intros w.
  unfold os_remove, world_of, trace_of.
  destruct (netplan_dir w) as [d |]; [| auto].
  destruct (remove_fails e fname || _); [auto |]. right. cbn. repeat split.
Qed.

Lemma log_others r : preserves others_kept (effect (add_log r)).
Proof. apply preserves_effect. intros w. apply others_kept_same_dir. reflexivity. Qed.

Lemma log_quiet r : preserves quiet (effect (add_log r)).
Proof. apply preserves_effect. intros w. split; reflexivity. Qed.

Lemma remove_old_configs_frame names :
  preserves others_kept (remove_old_configs e names) /\
  preserves quiet (remove_old_configs e names).
Proof.
  induction names as [| fname rest [IHo IHq]]; cbn [remove_old_configs].
  - split; apply preserves_ret; [exact others_kept_refl | exact quiet_refl].
  - destruct (negb (String.eqb fname "99-safeschool-static.yaml")) eqn:G;
      cbn [andb]; [| split; assumption].
    destruct (Py.endswith ".yaml" fname || Py.endswith ".yml" fname) eqn:Y;
      [| split; assumption].
    apply negb_true_iff, String.eqb_neq in G.
    split.
    + apply preserves_bind;
        [exact others_kept_trans | apply os_remove_others; assumption |].
      intros [err |]; [apply preserves_ret; exact others_kept_refl |].
      apply preserves_bind;
        [exact others_kept_trans | apply log_others |].
      intros _. exact IHo.
    + apply preserves_bind;
        [exact quiet_trans | apply os_remove_quiet |].
      intros [err |]; [apply preserves_ret; exact quiet_refl |].
      apply preserves_bind; [exact quiet_trans | apply log_quiet |].
      intros _. exact IHq.
Qed.

Lemma clean_old_configs_frame :
  preserves others_kept (clean_old_configs e) /\ preserves quiet (clean_old_configs e).
Proof.
  unfold clean_old_configs. split.
  - apply preserves_bind;
      [exact others_kept_trans | apply os_listdir_pure; exact others_kept_refl |].
    intros [err | names]; [apply log_others |].
    apply preserves_bind;
      [exact others_kept_trans | apply remove_old_configs_frame |].
    intros [err |]; [apply log_others | apply preserves_ret; exact others_kept_refl].
  - apply preserves_bind;
      [exact quiet_trans | apply os_listdir_pure; exact quiet_refl |].
    intros [err | names]; [apply log_quiet |].
    apply preserves_bind;
      [exact quiet_trans | apply remove_old_configs_frame |].
    intros [err |]; [apply log_quiet | apply preserves_ret; exact quiet_refl].
Qed.

Ltac write_call_frame e :=
  apply preserves_step; [first [exact others_kept_refl | exact quiet_refl] |];
  let w := fresh "w" in
  let d := fresh "d" in
  let D := fresh "D" in
  intros w;
  unfold os_makedirs, open_w, write_close, os_chmod, world_of, trace_of;
  destruct (netplan_dir w) as [d |] eqn:D; auto;
  try (destruct (makedirs_fails e); auto);
  try (destruct (open_fails e); auto);
  try (destruct (write_fails e); auto);
  try (destruct (chmod_fails e); auto);
  right; (split; [| reflexivity]); cbn [fst snd];
  try (split; reflexivity);
  let f := fresh "f" in
  let N := fresh "N" in
  intros f N; left; unfold file_at; cbn; rewrite ?D;
  try reflexivity;
  try (destruct (lookup_file NETPLAN_NAME d));
  first [ apply lookup_file_update_other; exact N
        | apply lookup_file_app_other; exact N ].

(** The four system calls of the write change the file at [NETPLAN_FILE]
    only. *)
Lemma os_makedirs_frame :
  preserves others_kept (os_makedirs e) /\ preserves quiet (os_makedirs e).
Proof. split; write_call_frame e. Qed.

Lemma open_w_frame : preserves others_kept (open_w e) /\ preserves quiet (open_w e).
Proof. split; write_call_frame e. Qed.

Lemma write_close_frame text :
  preserves others_kept (write_close e text) /\ preserves quiet (write_close e text).
Proof. split; write_call_frame e. Qed.

Lemma os_chmod_frame m :
  preserves others_kept (os_chmod e m) /\ preserves quiet (os_chmod e m).
Proof. split; write_call_frame e. Qed.

Lemma write_config_frame text :
  preserves others_kept (write_config e text) /\ preserves quiet (write_config e text).
Proof.
  destruct os_makedirs_frame as [Mo Mq]. destruct open_w_frame as [Oo Oq].
  destruct (write_close_frame text) as [Wo Wq].
  destruct (os_chmod_frame 384) as [Co Cq].
  unfold write_config. split.
  - apply preserves_bind; [exact others_kept_trans | exact Mo |].
    intros [err |]; [apply preserves_ret; exact others_kept_refl |].
    apply preserves_bind; [exact others_kept_trans | exact Oo |].
    intros [err |]; [apply preserves_ret; exact others_kept_refl |].
    apply preserves_bind; [exact others_kept_trans | exact Wo |].
    intros [err |]; [apply preserves_ret; exact others_kept_refl |].
    apply preserves_bind; [exact others_kept_trans | exact Co |].
    intros [err |]; [apply preserves_ret; exact others_kept_refl |].
    apply preserves_bind; [exact others_kept_trans | apply log_others |].
    intros _. apply preserves_ret. exact others_kept_refl.
  - apply preserves_bind; [exact quiet_trans | exact Mq |].
    intros [err |]; [apply preserves_ret; exact quiet_refl |].
    apply preserves_bind; [exact quiet_trans | exact Oq |].
    intros [err |]; [apply preserves_ret; exact quiet_refl |].
    apply preserves_bind; [exact quiet_trans | exact Wq |].
    intros [err |]; [apply preserves_ret; exact quiet_refl |].
    apply preserves_bind; [exact quiet_trans | exact Cq |].
    intros [err |]; [apply preserves_ret; exact quiet_refl |].
    apply preserves_bind; [exact quiet_trans | apply log_quiet |].
    intros _. apply preserves_ret. exact quiet_refl.
Qed.

Lemma set_hostname_if_provided_others h :
  preserves others_kept (set_hostname_if_provided e h).
Proof.
  unfold set_hostname_if_provided.
  destruct (Py.truthy h); [| apply preserves_ret; exact others_kept_refl].
  apply preserves_bind; [exact others_kept_trans | |].
  - apply preserves_step; [exact others_kept_refl |]. intros w.
    unfold hostnamectl, world_of, trace_of.
    destruct (hostnamectl_fails e); [auto |]. right. split; [| reflexivity].
    apply others_kept_same_dir. reflexivity.
  - intros [err |]; apply log_others.
Qed.

End Frames.

Section ApplyFrames.

Variables (e : env) (ip cidr gateway dns1 dns2 hostname : string)
          (dhcp : bool) (iface : string).

(** A run either stops at the validation, without any system call, or
    goes through the effectful blocks. *)
Lemma apply_network_config_cases w :
  (exists r,
     apply_network_config e ip cidr gateway dns1 dns2 hostname dhcp iface w
       = ((false, r), w, [])) \/
  (validate_addresses ip cidr gateway dns1 dns2 dhcp = Py.Ok None /\
   Py.truthy hostname && negb (hostname_ok hostname) = false /\
   Py.truthy (resolve_iface e iface) = true).
Proof.
  unfold apply_network_config, hostname_ok, resolve_iface.
  destruct (validate_addresses ip cidr gateway dns1 dns2 dhcp) as [[r0 |] | err];
    [left; eexists; reflexivity | | left; eexists; reflexivity].
  destruct (Py.truthy hostname && negb (re.match_ hostname_re hostname));
    [left; eexists; reflexivity |].
  destruct (Py.truthy (if Py.truthy iface then iface else get_default_interface e));
    cbn [negb]; [right; auto | left; eexists; reflexivity].
Qed.

Lemma apply_network_config_others :
  preserves others_kept
    (apply_network_config e ip cidr gateway dns1 dns2 hostname dhcp iface).
Proof.
  unfold apply_network_config.
  destruct (validate_addresses ip cidr gateway dns1 dns2 dhcp) as [[r0 |] | err];
    try (apply preserves_ret; exact others_kept_refl).
  destruct (Py.truthy hostname && negb (re.match_ hostname_re hostname));
    [apply preserves_ret; exact others_kept_refl |].
  destruct (negb _); [apply preserves_ret; exact others_kept_refl |].
  apply preserves_bind; [exact others_kept_trans | apply clean_old_configs_frame |].
  intros _.
  apply preserves_bind; [exact others_kept_trans | apply write_config_frame |].
  intros [err |]; [apply preserves_ret; exact others_kept_refl |].
  apply preserves_bind;
    [exact others_kept_trans | apply set_hostname_if_provided_others |].
  intros _.
  apply preserves_bind; [exact others_kept_trans | |].
  { apply preserves_effect. intros w. apply others_kept_same_dir. reflexivity. }
  intros _.
  apply preserves_bind; [exact others_kept_trans | apply log_others |].
  intros _. apply preserves_ret. exact others_kept_refl.
Qed.

End ApplyFrames.

(** X9.  [apply_network_config] writes no file but the artifact: in the
    world it returns and in every world it passes through, a file of the
    netplan directory other than [NETPLAN_FILE] is as it was, or is gone,
    and it can only be gone when its name ends in [.yaml] or [.yml]. *)
Theorem only_the_artifact_is_written
  (e : env) (ip cidr gateway dns1 dns2 hostname : string) (dhcp : bool)
  (iface : string) (w : world) (fname : string) :
  fname <> NETPLAN_NAME ->
  let run := apply_network_config e ip cidr gateway dns1 dns2 hostname dhcp iface w in
  Forall (fun w' =>
            file_at fname w' = file_at fname w \/
            (yaml_name fname = true /\ file_at fname w' = None))
    (world_of run :: trace_of run).
Proof.
  intros N run.
  destruct (apply_network_config_others e ip cidr gateway dns1 dns2 hostname dhcp
              iface w) as [H F].
  constructor; [apply H; exact N |].
  eapply Forall_impl; [exact F |]. intros x Hx. apply Hx. exact N.
Qed.

Lemma only_the_artifact_is_written_witness :
  let w0 := {| netplan_dir :=
                 Some [("50-cloud-init.yaml", {| content := "a"; mode := 420 |});
                       ("README", {| content := "b"; mode := 420 |})];
               hostname := "edge"; scheduled := []; log := [] |} in
  let run := apply_network_config sample_env "" "" "" "" "" "" true "" w0 in
  file_at "README" (world_of run) = Some {| content := "b"; mode := 420 |}.
Proof.
  cbv zeta.
  pose proof (only_the_artifact_is_written sample_env "" "" "" "" "" "" true ""
    {| netplan_dir :=
         Some [("50-cloud-init.yaml", {| content := "a"; mode := 420 |});
               ("README", {| content := "b"; mode := 420 |})];
       hostname := "edge"; scheduled := []; log := [] |}
    "README" ltac:(discriminate)) as H.
  cbv zeta in H. apply Forall_cons in H as [[H | [Y _]] _].
  - exact H.
  - vm_compute in Y. discriminate.
Defined.

Lemma set_hostname_if_provided_hostname e h w :
  hostname (world_of (set_hostname_if_provided e h w)) =
  if Py.truthy h && negb (hostnamectl_fails e) then h else hostname w.
Proof.
  unfold set_hostname_if_provided, bindM, hostnamectl, info, warning, effect, ret,
    world_of.
  destruct (Py.truthy h); [| reflexivity].
  destruct (hostnamectl_fails e); reflexivity.
Qed.

(** X10.  A run that returns [False], for whatever reason (validation, no
    interface, a failed write), sets no host name and schedules no
    activation, in the world it returns and in every world it passes
    through. *)
Theorem refused_run_activates_nothing
  (e : env) (ip cidr gateway dns1 dns2 host : string) (dhcp : bool)
  (iface : string) (w : world) :
  let run := apply_network_config e ip cidr gateway dns1 dns2 host dhcp iface w in
  fst (value_of run) = false ->
  Forall (fun w' => hostname w' = hostname w /\ scheduled w' = scheduled w)
    (world_of run :: trace_of run).
Proof.
  intros run R. subst run.
  destruct (apply_network_config_cases e ip cidr gateway dns1 dns2 host dhcp iface w)
    as [[r ->] | (V & H & I)].
  { repeat constructor. }
  rewrite (apply_network_config_validated _ _ _ _ _ _ _ _ _ _ V H I) in *.
  destruct (clean_old_configs_frame e) as [_ Cq]. specialize (Cq w).
  unfold world_of, trace_of in Cq.
  destruct (clean_old_configs e w) as [[[] w1] t1]. cbn [fst snd] in Cq.
  destruct Cq as [Q1 F1].
  destruct (write_config_frame e
              (render_netplan e ip cidr gateway dns1 dns2 dhcp (resolve_iface e iface)))
    as [_ Wq].
  specialize (Wq w1). unfold world_of, trace_of in Wq.
  destruct (write_config e _ w1) as [[[err |] w2] t2]; cbn [fst snd] in Wq.
  - destruct Wq as [Q2 F2]. unfold world_of, trace_of. cbn [fst snd].
    constructor; [eapply quiet_trans; eassumption |].
    apply Forall_app. split; [exact F1 |].
    eapply Forall_impl; [exact F2 |]. intros x Hx. eapply quiet_trans; eassumption.
  - destruct (set_hostname_if_provided e host w2) as [[[] w3] t3].
    unfold value_of in R. cbn in R. discriminate.
Qed.

Lemma refused_run_activates_nothing_witness :
  let e := {| default_interface := "eth0"; utc_stamp := "2024-01-01T00:00:00Z";
              create_mode := 420; listdir_fails := false;
              remove_fails := fun _ => false; makedirs_fails := false;
              open_fails := false; write_fails := true; chmod_fails := false;
              hostnamectl_fails := false |} in
  let run := apply_network_config e "192.168.1.50" "24" "192.168.1.1" "" ""
               "edge-01" false "" sample_world in
  value_of run = (false, FailedToWrite (Failed Write)) /\
  hostname (world_of run) = "edge" /\ scheduled (world_of run) = [] /\
  file_at "50-cloud-init.yaml" (world_of run) = None.
Proof.
  cbv zeta. split; [vm_compute; reflexivity |].
  split; [| split; [| vm_compute; reflexivity]].
  - refine (proj1 (Forall_inv (refused_run_activates_nothing _ "192.168.1.50" "24"
                     "192.168.1.1" "" "" "edge-01" false "" sample_world _))).
    vm_compute. reflexivity.
  - refine (proj2 (Forall_inv (refused_run_activates_nothing _ "192.168.1.50" "24"
                     "192.168.1.1" "" "" "edge-01" false "" sample_world _))).
    vm_compute. reflexivity.
Defined.

(** X11.  A run that returns [True] schedules the activation exactly
    once, and a failure of [hostnamectl] does not stop it: the host name
    ends as the requested one when one was given and [hostnamectl]
    succeeded, and as it was otherwise. *)
Theorem applied_run_schedules_once
  (e : env) (ip cidr gateway dns1 dns2 host : string) (dhcp : bool)
  (iface : string) (w : world) (r : reply) :
  let run := apply_network_config e ip cidr gateway dns1 dns2 host dhcp iface w in
  value_of run = (true, r) ->
  scheduled (world_of run) = scheduled w ++ ["sleep 2 && netplan apply"] /\
  hostname (world_of run) =
    (if Py.truthy host && negb (hostnamectl_fails e) then host else hostname w).
Proof.
  intros run R. subst run.
  destruct (apply_network_config_cases e ip cidr gateway dns1 dns2 host dhcp iface w)
    as [[r0 E] | (V & H & I)].
  { rewrite E in R. discriminate. }
  rewrite (apply_network_config_validated _ _ _ _ _ _ _ _ _ _ V H I) in *.
  destruct (clean_old_configs_frame e) as [_ Cq]. specialize (Cq w).
  unfold world_of, trace_of in Cq.
  destruct (clean_old_configs e w) as [[[] w1] t1]. cbn [fst snd] in Cq.
  destruct Cq as [[Q1h Q1s] _].
  destruct (write_config_frame e
              (render_netplan e ip cidr gateway dns1 dns2 dhcp (resolve_iface e iface)))
    as [_ Wq].
  specialize (Wq w1). unfold world_of, trace_of in Wq.
  destruct (write_config e _ w1) as [[[err |] w2] t2]; cbn [fst snd] in Wq;
    [discriminate |].
  destruct Wq as [[Q2h Q2s] _].
  pose proof (set_hostname_if_provided_hostname e host w2) as Hh.
  pose proof (set_hostname_if_provided_same_dir e host w2) as Hs.
  unfold world_of in Hh.
  destruct (set_hostname_if_provided e host w2) as [[[] w3] t3].
  destruct Hs as (_ & _ & Hs). cbn [fst snd] in Hh.
  unfold world_of. cbn. rewrite Hs, Hh, Q2s, Q1s, Q2h, Q1h. split; reflexivity.
Qed.

Lemma applied_run_schedules_once_witness :
  let e := {| default_interface := "eth0"; utc_stamp := "2024-01-01T00:00:00Z";
              create_mode := 420; listdir_fails := false;
              remove_fails := fun _ => false; makedirs_fails := false;
              open_fails := false; write_fails := false; chmod_fails := false;
              hostnamectl_fails := true |} in
  let run := apply_network_config e "192.168.1.50" "24" "192.168.1.1" "" ""
               "edge-01" false "" sample_world in
  scheduled (world_of run) = ["sleep 2 && netplan apply"] /\
  hostname (world_of run) = "edge".
Proof.
  cbv zeta.
  refine (applied_run_schedules_once _ "192.168.1.50" "24" "192.168.1.1" "" ""
            "edge-01" false "" sample_world (NewAddress "192.168.1.50") _).
  vm_compute. reflexivity.
Defined.

(** X12.  The activation is scheduled, and the host name set, only once
    the artifact is complete: over a run that returns [True], every world
    in which the scheduled commands or the host name differ from the start
    already has the new content under mode 0o600 at [NETPLAN_FILE]. *)
Theorem activation_follows_the_write
  (e : env) (ip cidr gateway dns1 dns2 host : string) (dhcp : bool)
  (iface : string) (w : world) (r : reply) :
  let run := apply_network_config e ip cidr gateway dns1 dns2 host dhcp iface w in
  let new := render_netplan e ip cidr gateway dns1 dns2 dhcp (resolve_iface e iface) in
  value_of run = (true, r) ->
  Forall (fun w' =>
            scheduled w' <> scheduled w \/ hostname w' <> hostname w ->
            managed_file w' = Some {| content := new; mode := 384 |})
    (trace_of run).
Proof.
  intros run new R. subst run.
  destruct (apply_network_config_cases e ip cidr gateway dns1 dns2 host dhcp iface w)
    as [[r0 E] | (V & H & I)].
  { rewrite E in R. discriminate. }
  rewrite (apply_network_config_validated _ _ _ _ _ _ _ _ _ _ V H I) in *.
  fold new in R |- *.
  destruct (clean_old_configs_frame e) as [_ Cq]. specialize (Cq w).
  unfold world_of, trace_of in Cq.
  destruct (clean_old_configs e w) as [[[] w1] t1]. cbn [fst snd] in Cq.
  destruct Cq as [Q1 F1].
  destruct (write_config_frame e new) as [_ Wq].
  specialize (Wq w1). unfold world_of, trace_of in Wq.
  destruct (write_config e new w1) as [[[err |] w2] t2] eqn:W; cbn [fst snd] in Wq;
    [discriminate |].
  destruct Wq as [Q2 F2].
  apply write_config_states in W. destruct W as (_ & Wm & _).
  pose proof (set_hostname_if_provided_same_dir e host w2) as Hs.
  destruct (set_hostname_if_provided e host w2) as [[[] w3] t3].
  destruct Hs as (S3 & F3 & _).
  assert (M : forall x, same_dir w2 x ->
                        managed_file x = Some {| content := new; mode := 384 |}).
  { intros x Hx. unfold managed_file, same_dir in *. rewrite Hx. exact Wm. }
  assert (Q : forall x, quiet w x ->
                        scheduled x <> scheduled w \/ hostname x <> hostname w ->
                        managed_file x = Some {| content := new; mode := 384 |}).
  { intros x [Qh Qs] [D | D]; congruence. }
  unfold trace_of. cbn [snd]. rewrite !Forall_app. repeat split.
  - eapply Forall_impl; [exact F1 |]. intros x Hx. apply Q. exact Hx.
  - eapply Forall_impl; [exact F2 |]. intros x Hx. apply Q.
    eapply quiet_trans; eassumption.
  - eapply Forall_impl; [exact F3 |]. intros x Hx _. apply M. exact Hx.
  - repeat constructor; intros _; apply M; exact S3.
Qed.

Lemma activation_follows_the_write_witness :
  let run := apply_network_config sample_env "192.168.1.50" "24" "192.168.1.1"
               "8.8.8.8" "" "edge-01" false "" sample_world in
  Forall (fun w' =>
            scheduled w' <> scheduled sample_world \/
            hostname w' <> hostname sample_world ->
            managed_file w' =
              Some {| content := render_netplan sample_env "192.168.1.50" "24"
                                   "192.168.1.1" "8.8.8.8" "" false
                                   (resolve_iface sample_env "");
                      mode := 384 |})
    (trace_of run).
Proof.
  cbv zeta.
  refine (activation_follows_the_write sample_env "192.168.1.50" "24" "192.168.1.1"
            "8.8.8.8" "" "edge-01" false "" sample_world
            (NewAddress "192.168.1.50") _).
  vm_compute. reflexivity.
Defined.

Lemma lookup_file_listed n (d : directory) :
  In n (List.map fst d) <-> is_Some (lookup_file n d).
Proof.
  unfold lookup_file. induction d as [| [k v] d IH]; cbn.
  - split; [intros [] | intros [? ?]; discriminate].
  - destruct (String.eqb_spec k n) as [-> | N]; cbn.
    + split; eauto.
    + rewrite <- IH. split; [intros [? | ?]; [congruence | assumption] | auto].
Qed.

(** When no [os.remove] fails, the loop removes every listed file it is
    meant to remove and nothing else. *)
Lemma remove_old_configs_complete e names :
  (forall f, remove_fails e f = false) ->
  List.NoDup names ->
  forall w d,
    netplan_dir w = Some d ->
    (forall n, In n names -> is_Some (lookup_file n d)) ->
    exists w' t d',
      remove_old_configs e names w = (None, w', t) /\
      netplan_dir w' = Some d' /\
      forall f,
        lookup_file f d' =
        if existsb (String.eqb f) names &&
           (negb (String.eqb f NETPLAN_NAME) && yaml_name f)
        then None else lookup_file f d.
Proof.
  intros NF. induction names as [| fname rest IH]; intros ND w d D L.
  - exists w, [], d. repeat split; auto.
  - apply List.NoDup_cons_iff in ND as [Nin ND].
    cbn [remove_old_configs].
    change (Py.endswith ".yaml" fname || Py.endswith ".yml" fname)
      with (yaml_name fname).
    change "99-safeschool-static.yaml" with NETPLAN_NAME.
    destruct (negb (String.eqb fname NETPLAN_NAME) && yaml_name fname) eqn:G.
    + unfold bindM at 1. unfold os_remove. rewrite D, NF.
      assert (S : is_Some (lookup_file fname d)) by (apply L; left; reflexivity).
      rewrite (bool_decide_eq_true_2 _ S). cbn [orb negb].
      unfold bindM, info, effect.
      set (w2 := add_log _ (set_dir _ w)).
      destruct (IH ND w2 (remove_entry fname d) eq_refl) as (w' & t & d' & E & D' & F).
      { intros n Hn. assert (fname <> n) by (intros ->; exact (Nin Hn)).
        rewrite lookup_file_remove_other by assumption. apply L. right. exact Hn. }
      rewrite E. eexists _, _, d'. split; [reflexivity |]. split; [exact D' |].
      intros f. rewrite F. cbn [existsb].
      destruct (String.eqb_spec f fname) as [-> | Nf]; cbn [orb].
      * rewrite G, lookup_file_remove_same.
        destruct (existsb (String.eqb fname) rest && true); reflexivity.
      * rewrite lookup_file_remove_other by congruence. reflexivity.
    + destruct (IH ND w d D) as (w' & t & d' & E & D' & F).
      { intros n Hn. apply L. right. exact Hn. }
      exists w', t, d'. split; [exact E |]. split; [exact D' |].
      intros f. rewrite F. cbn [existsb].
      destruct (String.eqb_spec f fname) as [-> | Nf]; cbn [orb]; [| reflexivity].
      rewrite G, andb_false_r.
      destruct (existsb (String.eqb fname) rest); reflexivity.
Qed.

(** After a successful run with a cleanup that did not fail, no other
    netplan file is left. *)
Lemma apply_removes_old_configs
  (e : env) (ip cidr gateway dns1 dns2 host : string) (dhcp : bool)
  (iface : string) (w : world) (d : directory) (r : reply) :
  netplan_dir w = Some d ->
  List.NoDup (List.map fst d) ->
  listdir_fails e = false ->
  (forall f, remove_fails e f = false) ->
  let run := apply_network_config e ip cidr gateway dns1 dns2 host dhcp iface w in
  value_of run = (true, r) ->
  forall fname,
    fname <> NETPLAN_NAME -> yaml_name fname = true ->
    file_at fname (world_of run) = None.
Proof.
  intros D ND LF RF run R fname N Y. subst run.
  destruct (apply_network_config_cases e ip cidr gateway dns1 dns2 host dhcp iface w)
    as [[r0 E] | (V & H & I)].
  { rewrite E in R. discriminate. }
  rewrite (apply_network_config_validated _ _ _ _ _ _ _ _ _ _ V H I) in *.
  (* the removal *)
  destruct (remove_old_configs_complete e (List.map fst d) RF ND w d D)
    as (w1 & t1 & d1 & E1 & D1 & F1).
  { intros n Hn. apply lookup_file_listed. exact Hn. }
  assert (C : clean_old_configs e w = (tt, w1, t1 ++ [])).
  { unfold clean_old_configs, bindM, os_listdir. rewrite D, LF, E1. reflexivity. }
  rewrite C in *.
  assert (G1 : file_at fname w1 = None).
  { unfold file_at. rewrite D1, F1.
    apply String.eqb_neq in N. rewrite N, Y. cbn [negb andb].
    destruct (existsb (String.eqb fname) (List.map fst d)) eqn:X; [reflexivity |].
    destruct (lookup_file fname d) eqn:Lk; [| reflexivity].
    assert (In fname (List.map fst d)) as Hin by (apply lookup_file_listed; eauto).
    assert (existsb (String.eqb fname) (List.map fst d) = true).
    { apply existsb_exists. exists fname. split; [exact Hin | apply String.eqb_refl]. }
    congruence. }
  (* the write and what follows *)
  destruct (write_config_frame e
              (render_netplan e ip cidr gateway dns1 dns2 dhcp (resolve_iface e iface)))
    as [Wo _].
  specialize (Wo w1). unfold world_of, trace_of in Wo.
  destruct (write_config e _ w1) as [[[err |] w2] t2]; cbn [fst snd] in Wo;
    [discriminate |].
  destruct Wo as [O2 _].
  pose proof (set_hostname_if_provided_same_dir e host w2) as Hs.
  destruct (set_hostname_if_provided e host w2) as [[[] w3] t3].
  destruct Hs as (S3 & _ & _).
  unfold world_of. cbn [fst snd]. unfold file_at. cbn [netplan_dir add_log add_scheduled].
  unfold same_dir in S3. rewrite S3. fold (file_at fname w2).
  apply String.eqb_neq in N.
  destruct (O2 fname ltac:(apply String.eqb_neq; exact N)) as [K | [_ K]];
    congruence.
Qed.


(** X13.  After a run that returns [True], when listing the directory and
    removing files did not fail, no other netplan file is left: every file
    of the directory whose name ends in [.yaml] or [.yml], the artifact
    apart, is gone. *)
Theorem old_configs_are_removed
  (e : env) (ip cidr gateway dns1 dns2 host : string) (dhcp : bool)
  (iface : string) (w : world) (d : directory) (r : reply) :
  netplan_dir w = Some d ->
  List.NoDup (List.map fst d) ->
  listdir_fails e = false ->
  (forall f, remove_fails e f = false) ->
  let run := apply_network_config e ip cidr gateway dns1 dns2 host dhcp iface w in
  value_of run = (true, r) ->
  forall fname,
    fname <> NETPLAN_NAME -> yaml_name fname = true ->
    file_at fname (world_of run) = None.
Proof.
  intros D ND LF RF run R fname N Y.
  exact (apply_removes_old_configs e ip cidr gateway dns1 dns2 host dhcp iface w d r
           D ND LF RF R fname N Y).
Qed.

Lemma old_configs_are_removed_witness :
  let d0 := [("50-cloud-init.yaml", {| content := "a"; mode := 420 |});
             ("01-netcfg.yml", {| content := "b"; mode := 420 |});
             ("README", {| content := "c"; mode := 420 |})] in
  let w0 := {| netplan_dir := Some d0;
               hostname := "edge"; scheduled := []; log := [] |} in
  let run := apply_network_config sample_env "" "" "" "" "" "" true "" w0 in
  file_at "01-netcfg.yml" (world_of run) = None.
Proof.
  intros d0 w0 run.
  apply (old_configs_are_removed sample_env "" "" "" "" "" "" true "" w0 d0
           (NewAddress "dhcp")).
  - reflexivity.
  - repeat constructor; cbn; intuition discriminate.
  - reflexivity.
  - intros f. reflexivity.
  - vm_compute. reflexivity.
  - discriminate.
  - vm_compute. reflexivity.
Defined.

(* ===================================================================== *)
(** ** What an accepted prefix length looks like *)
(* ===================================================================== *)

Lemma contains_lstrip_space s :
  Py.contains "." (Py.lstrip Py.int_space s) = Py.contains "." s.
Proof.
  induction s as [| c s IH]; [reflexivity |]. cbn [Py.lstrip].
  destruct (Py.int_space c) eqn:S; [| reflexivity].
  rewrite IH. cbn [Py.contains].
  destruct (Ascii.eqb_spec c "."); [subst c; discriminate | reflexivity].
Qed.

Lemma contains_scan_digits s : forall b acc k v k' rest,
  Py.scan_digits s b acc k = Some (v, k', rest) ->
  Py.contains "." s = Py.contains "." rest.
Proof.
  induction s as [| c s IH]; intros b acc k v k' rest E; cbn in E.
  - destruct b; [discriminate |]. injection E as _ _ <-. reflexivity.
  - destruct (Py.is_digit c) eqn:Dg.
    + apply IH in E. rewrite <- E. cbn [Py.contains].
      destruct (Ascii.eqb_spec c "."); [subst c; discriminate | reflexivity].
    + destruct (Ascii.eqb_spec c "_") as [-> | U].
      * destruct b; [discriminate |]. apply IH in E. rewrite <- E. reflexivity.
      * destruct b; [discriminate |]. injection E as _ _ <-. reflexivity.
Qed.

(** A string [int()] accepts has no dot. *)
Lemma int_has_no_dot s n : Py.int s = Py.Ok n -> Py.contains "." s = false.
Proof.
  unfold Py.int. rewrite <- (contains_lstrip_space s).
  set (s1 := Py.lstrip Py.int_space s).
  assert (X : forall sign s2,
             Py.contains "." s2 = Py.contains "." s1 ->
             match s2 with
             | String "_" _ => Py.Raise (Py.InvalidLiteral s)
             | _ =>
                 match Py.scan_digits s2 false 0 0 with
                 | None => Py.Raise (Py.InvalidLiteral s)
                 | Some (v, k, rest) =>
                     if k =? 0 then Py.Raise (Py.InvalidLiteral s)
                     else if Py.int_max_str_digits <? k
                          then Py.Raise (Py.ExceedsDigitLimit k)
                          else match Py.lstrip Py.int_space rest with
                               | EmptyString => Py.Ok (sign * v)
                               | _ => Py.Raise (Py.InvalidLiteral s)
                               end
                 end
             end = Py.Ok n -> Py.contains "." s1 = false).
  { intros sign s2 C E. rewrite <- C.
    assert (E' : match Py.scan_digits s2 false 0 0 with
                 | None => Py.Raise (Py.InvalidLiteral s)
                 | Some (v, k, rest) =>
                     if k =? 0 then Py.Raise (Py.InvalidLiteral s)
                     else if Py.int_max_str_digits <? k
                          then Py.Raise (Py.ExceedsDigitLimit k)
                          else match Py.lstrip Py.int_space rest with
                               | EmptyString => Py.Ok (sign * v)
                               | _ => Py.Raise (Py.InvalidLiteral s)
                               end
                 end = Py.Ok n).
    { destruct s2 as [| c s2]; [exact E |].
      destruct (Ascii.eqb_spec c "_") as [-> | U]; [discriminate |].
      destruct c as [[] [] [] [] [] [] [] []]; try exact E; congruence. }
    clear E.
    destruct (Py.scan_digits s2 false 0 0) as [[[v k] rest] |] eqn:Sc; [| discriminate].
    apply contains_scan_digits in Sc. rewrite Sc.
    destruct (k =? 0); [discriminate |].
    destruct (Py.int_max_str_digits <? k); [discriminate |].
    rewrite <- contains_lstrip_space.
    destruct (Py.lstrip Py.int_space rest); [reflexivity | discriminate]. }
  destruct s1 as [| c r] eqn:S1.
  - apply (X 1 EmptyString). reflexivity.
  - destruct (Ascii.eqb_spec c "+") as [-> | Np].
    { apply (X 1 r). reflexivity. }
    destruct (Ascii.eqb_spec c "-") as [-> | Nm].
    { apply (X (-1) r). reflexivity. }
    intros E. apply (X 1 (String c r)); [reflexivity |].
    destruct c as [[] [] [] [] [] [] [] []]; try exact E; congruence.
Qed.

Lemma split_no_sep sep s : Py.contains sep s = false -> Py.split sep s = [s].
Proof.
  induction s as [| c s IH]; [reflexivity |]. cbn.
  destruct (Ascii.eqb c sep); [discriminate |]. intros C. rewrite (IH C). reflexivity.
Qed.

Lemma split_not_nil sep s : Py.split sep s <> [].
Proof.
  destruct s as [| c s]; cbn; [discriminate |].
  destruct (Ascii.eqb c sep); [discriminate |].
  destruct (Py.split sep s); discriminate.
Qed.

Lemma split_single sep s m : Py.split sep s = [m] -> m = s.
Proof.
  revert m. induction s as [| c s IH]; intros m; cbn.
  - intros [= <-]. reflexivity.
  - pose proof (split_not_nil sep s) as NN.
    destruct (Ascii.eqb c sep).
    + destruct (Py.split sep s); [contradiction | discriminate].
    + destruct (Py.split sep s) as [| h [| h' t]] eqn:E;
        [contradiction | | discriminate].
      intros [= <-]. f_equal. apply IH. reflexivity.
Qed.

Lemma split_app_sep sep a b :
  Py.contains sep a = false ->
  Py.split sep (a +:+ String sep b) = a :: Py.split sep b.
Proof.
  induction a as [| c a IH]; cbn.
  - intros _. rewrite append_nil_l. cbn. rewrite Ascii.eqb_refl. reflexivity.
  - destruct (Ascii.eqb c sep) eqn:E; [discriminate |]. intros C.
    rewrite append_cons. cbn. rewrite E, (IH C). reflexivity.
Qed.

Lemma valid_ip_no_slash s : valid_ip s = true -> Py.contains "/" s = false.
Proof.
  unfold valid_ip, ipaddress.ip_address, ipaddress.IPv4Address_init,
    ipaddress.IPv6Address_init.
  destruct (Py.contains "/" s); [discriminate | reflexivity].
Qed.

Lemma prefix_string_digits mx s p :
  ipaddress.prefix_from_prefix_string mx s = Some p ->
  Py.isascii_isdigit s = true /\ 0 <= p <= mx.
Proof.
  unfold ipaddress.prefix_from_prefix_string.
  destruct (Py.isascii_isdigit s); cbn [negb]; [| discriminate].
  destruct (Py.int s) as [q |]; [| discriminate].
  destruct ((0 <=? q) && (q <=? mx)) eqn:R; cbn [negb]; [| discriminate].
  intros [= <-]. apply andb_true_iff in R as [A B].
  apply Z.leb_le in A, B. auto.
Qed.

(** The mask of a network whose text is [ip/cidr], when [cidr] is an
    integer for [int()]: decimal digits and nothing else. *)
Lemma network_mask_digits ip cidr n :
  Py.contains "/" ip = false ->
  Py.int cidr = Py.Ok n ->
  network_ok (ip +:+ "/" +:+ cidr) = true ->
  Py.isascii_isdigit cidr = true.
Proof.
  intros Cs I. unfold network_ok, ipaddress.ip_network,
    ipaddress.IPv4Network_init, ipaddress.IPv6Network_init,
    ipaddress.split_addr_prefix.
  change (ip +:+ "/" +:+ cidr) with (ip +:+ String "/" cidr).
  rewrite (split_app_sep _ _ _ Cs).
  destruct (Py.split "/" cidr) as [| m [| m' t]] eqn:Sp.
  - exfalso. exact (split_not_nil _ _ Sp).
  - apply split_single in Sp. subst m.
    assert (V4 : ipaddress.v4_make_netmask cidr <> None ->
                 Py.isascii_isdigit cidr = true).
    { unfold ipaddress.v4_make_netmask.
      destruct (ipaddress.prefix_from_prefix_string _ cidr) eqn:P.
      - intros _. apply prefix_string_digits in P. tauto.
      - unfold ipaddress.prefix_from_ip_string, ipaddress.v4_ip_int_from_string.
        rewrite (split_no_sep _ _ (int_has_no_dot _ _ I)).
        destruct (negb (Py.truthy cidr)); cbn; congruence. }
    assert (V6 : ipaddress.v6_make_netmask cidr <> None ->
                 Py.isascii_isdigit cidr = true).
    { unfold ipaddress.v6_make_netmask.
      destruct (ipaddress.prefix_from_prefix_string _ cidr) eqn:P; [| congruence].
      intros _. apply prefix_string_digits in P. tauto. }
    destruct (ipaddress.IPv4Address_init ip).
    + destruct (ipaddress.v4_make_netmask cidr); [intros _; apply V4; discriminate |].
      destruct (ipaddress.IPv6Address_init ip) as [[? ?] |]; [| discriminate].
      destruct (ipaddress.v6_make_netmask cidr); [| discriminate].
      intros _. apply V6. discriminate.
    + destruct (ipaddress.IPv6Address_init ip) as [[? ?] |]; [| discriminate].
      destruct (ipaddress.v6_make_netmask cidr); [| discriminate].
      intros _. apply V6. discriminate.
  - destruct (ipaddress.IPv4Address_init ip);
      destruct (ipaddress.IPv6Address_init ip) as [[? ?] |]; discriminate.
Qed.

(** X14.  The prefix length written into a static artifact is a plain
    decimal numeral: when a static run returns [True], [cidr] consists of
    ASCII digits only (no sign, blank or underscore, which [int()] alone
    would let through) and [ip] holds no slash. *)
Theorem accepted_cidr_is_a_numeral
  (e : env) (ip cidr gateway dns1 dns2 host : string)
  (iface : string) (w : world) (r : reply) :
  value_of (apply_network_config e ip cidr gateway dns1 dns2 host false iface w)
    = (true, r) ->
  Py.isascii_isdigit cidr = true /\ cidr_in_range cidr = true /\
  Py.contains "/" ip = false.
Proof.
  intros R.
  destruct (apply_network_config e ip cidr gateway dns1 dns2 host false iface w)
    as [[[b r'] w'] t] eqn:A.
  unfold value_of in R. cbn in R. injection R as -> ->.
  apply apply_network_config_true in A as (V & _ & _).
  apply validate_addresses_Ok_None in V as (S & _ & _).
  destruct (S eq_refl) as (Vi & _ & Cr & Nk).
  pose proof (valid_ip_no_slash _ Vi) as Sl.
  repeat split; auto.
  unfold cidr_in_range in Cr. destruct (Py.int cidr) as [n |] eqn:I; [| discriminate].
  eapply network_mask_digits; eassumption.
Qed.

Lemma accepted_cidr_is_a_numeral_witness :
  Py.isascii_isdigit "24" = true /\ cidr_in_range "24" = true /\
  Py.contains "/" "192.168.1.50" = false.
Proof.
  apply (accepted_cidr_is_a_numeral sample_env "192.168.1.50" "24" "192.168.1.1"
           "" "" "" "" sample_world (NewAddress "192.168.1.50")).
  vm_compute. reflexivity.
Defined.

(** The range check alone would not do: these are integers in [1,32] for
    [int()], and the network check refuses them. *)
Example cidr_refused_by_the_network_check :
  List.map (fun c => (cidr_in_range c,
                      fst (value_of (apply_network_config sample_env "192.168.1.50"
                                       c "192.168.1.1" "" "" "" false ""
                                       sample_world))))
    [" 24"; "+24"; "2_4"; "24" +:+ nl] =
  [(true, false); (true, false); (true, false); (true, false)].
Proof. vm_compute. reflexivity. Qed.

(* ===================================================================== *)
(** ** More on the rate table *)
(* ===================================================================== *)

Lemma check_rate_limit_bounded now ip (m : rate_table) :
  (forall k, (length (hits_of k m) <= 5)%nat) ->
  forall k, (length (hits_of k (snd (check_rate_limit now ip m))) <= 5)%nat.
Proof.
  intros B k. unfold check_rate_limit. fold (hits_of ip m).
  set (kept := List.filter _ (hits_of ip m)).
  assert (Lk : (length kept <= length (hits_of ip m))%nat)
    by apply List.filter_length_le.
  specialize (B ip) as Bi.
  destruct (Z.leb_spec RATE_LIMIT (Z.of_nat (length kept))) as [F | R]; cbn [snd];
    (destruct (decide (k = ip)) as [-> | N];
     [rewrite hits_of_insert | rewrite hits_of_insert_ne by congruence; apply B]).
  - lia.
  - rewrite length_app. cbn. unfold RATE_LIMIT in R. lia.
Qed.

(** X15.  The list kept for a client never grows beyond the limit: if no
    client has more than 5 recorded time stamps, this is still so after any
    sequence of calls, accepted or not. *)
Theorem rate_table_stays_bounded (calls : list (Z * string)) :
  forall rate_map : rate_table,
    (forall k, (length (hits_of k rate_map) <= 5)%nat) ->
    forall k,
      (length (hits_of k (snd (check_rate_limit_run calls rate_map))) <= 5)%nat.
Proof.
  induction calls as [| [now ip] calls IH]; intros m B k; [apply B |].
  cbn [check_rate_limit_run].
  pose proof (check_rate_limit_bounded now ip m B) as B1.
  destruct (check_rate_limit now ip m) as [b m1]. cbn [snd] in B1.
  specialize (IH m1 B1 k).
  destruct (check_rate_limit_run calls m1) as [bs m2]. exact IH.
Qed.

Lemma rate_table_stays_bounded_witness :
  let calls : list (Z * string) :=
    [(1, "10.0.0.7"); (2, "10.0.0.7"); (3, "10.0.0.7"); (4, "10.0.0.7");
     (5, "10.0.0.7"); (6, "10.0.0.7"); (7, "10.0.0.7")] in
  (length (hits_of "10.0.0.7" (snd (check_rate_limit_run calls ∅))) <= 5)%nat.
Proof.
  intros calls.
  apply (rate_table_stays_bounded calls ∅).
  intros k. unfold hits_of. rewrite lookup_empty. cbn. lia.
Defined.

(* ===================================================================== *)
(** ** Reading the request body *)
(* ===================================================================== *)

Lemma substring_length_le n s : (String.length (String.substring 0 n s) <= n)%nat.
Proof.
  revert s. induction n as [| n IH]; intros s.
  - destruct s; cbn; lia.
  - destruct s as [| c s]; cbn; [lia |]. specialize (IH s). lia.
Qed.

(** X16.  [_read_body] caps the body for a non-negative [Content-Length]
    only.  With a header that [int()] reads as [n]: for [n >= 0] the body
    returned is a prefix of the stream of at most [min n 65536] bytes, and
    it is empty when [n] exceeds 65536; [n = -1] passes under the cap and
    the whole stream is returned; a smaller [n] makes the read raise. *)
Theorem read_body_cap (header rfile : string) (n : Z) :
  Py.int header = Py.Ok n ->
  (0 <= n ->
   exists b, read_body (Some header) rfile = inr b /\
             Py.len b <= Z.min n 65536 /\
             (65536 < n -> b = EmptyString) /\
             (n <= 65536 -> b = String.substring 0 (Z.to_nat n) rfile)) /\
  (n = -1 -> read_body (Some header) rfile = inr rfile) /\
  (n < -1 -> read_body (Some header) rfile = inl (NegativeRead n)).
Proof.
  intros I. unfold read_body. rewrite I.
  split; [| split]; intros H.
  - destruct (Z.ltb_spec 65536 n) as [Big | Small].
    + exists EmptyString. split; [reflexivity |]. split; [| split].
      * change (Py.len EmptyString) with 0. lia.
      * reflexivity.
      * lia.
    + unfold Str.read.
      destruct (Z.ltb_spec n (-1)) as [? | _]; [lia |].
      destruct (Z.eqb_spec n (-1)) as [? | _]; [lia |].
      eexists. split; [reflexivity |]. split; [| split].
      * unfold Py.len.
        pose proof (substring_length_le (Z.to_nat n) rfile). lia.
      * lia.
      * reflexivity.
  - subst n. reflexivity.
  - destruct (Z.ltb_spec 65536 n) as [? | _]; [lia |].
    unfold Str.read. destruct (Z.ltb_spec n (-1)) as [_ | ?]; [reflexivity | lia].
Qed.

Lemma read_body_cap_witness :
  read_body (Some "-1") "0123456789" = inr "0123456789".
Proof.
  apply (proj1 (proj2 (read_body_cap "-1" "0123456789" (-1) eq_refl))).
  reflexivity.
Defined.

(* ===================================================================== *)
(** ** The read-only inspectors *)
(* ===================================================================== *)

(** The words of [split()] are non-empty and hold no white space. *)
Lemma split_ws_words s :
  Forall (fun w => w <> EmptyString /\ no_space w = true) (Str.split_ws s).
Proof.
  induction s as [| c s IH]; [constructor |]. cbn [Str.split_ws].
  destruct (Py.is_space c) eqn:Sc; [exact IH |].
  assert (One : no_space (String c EmptyString) = true).
  { unfold no_space. cbn. rewrite Sc. reflexivity. }
  destruct s as [| c' s']; [repeat constructor; [discriminate | exact One] |].
  destruct (Py.is_space c') eqn:Sc'.
  - constructor; [split; [discriminate | exact One] | exact IH].
  - destruct (Str.split_ws (String c' s')) as [| h t].
    + repeat constructor; [discriminate | exact One].
    + apply Forall_cons in IH as [[_ Hh] Ht].
      constructor; [| exact Ht]. split; [discriminate |].
      unfold no_space in *. cbn. rewrite Sc. exact Hh.
Qed.

(** X17.  Every name server [get_network_info] reports from
    [/etc/resolv.conf] is a non-empty word without white space, whatever
    the file holds, and there is at most one per line. *)
Theorem resolv_nameservers_are_words (lines : list string) :
  Forall (fun d => d <> EmptyString /\ no_space d = true) (resolv_nameservers lines) /\
  (length (resolv_nameservers lines) <= length lines)%nat.
Proof.
  unfold resolv_nameservers. induction lines as [| l lines [IH IL]].
  - split; [constructor | reflexivity].
  - cbn [List.flat_map].
    destruct (Str.startswith "nameserver" (Py.strip l) &&
              (1 <? length (Str.split_ws l))%nat) eqn:G.
    + split.
      * apply Forall_app. split; [| exact IH]. constructor; [| constructor].
        apply andb_true_iff in G as [_ G]. apply Nat.ltb_lt in G.
        pose proof (split_ws_words l) as W.
        destruct (Str.split_ws l) as [| a [| b t]]; cbn in G; try lia.
        apply Forall_cons in W as [_ W]. apply Forall_cons in W as [W _]. exact W.
      * rewrite length_app. cbn [length]. lia.
    + split; [exact IH |]. cbn [app length]. lia.
Qed.

(** The substring test of [in]. *)
Lemma startswith_app n b : Str.startswith n (n +:+ b) = true.
Proof.
  induction n as [| c n IH]; [reflexivity |]. rewrite append_cons. cbn.
  rewrite Ascii.eqb_refl. exact IH.
Qed.

Lemma is_in_app_r n a b : Str.is_in n b = true -> Str.is_in n (a +:+ b) = true.
Proof.
  intros H. induction a as [| c a IH]; [exact H |].
  rewrite append_cons. cbn [Str.is_in]. rewrite IH. apply orb_true_r.
Qed.

Lemma unlines_app a b : unlines (a ++ b) = unlines a +:+ unlines b.
Proof.
  induction a as [| x a IH]; [reflexivity |]. cbn [unlines app].
  rewrite IH, !append_assoc. reflexivity.
Qed.

Lemma In_insert_sorted x y l : In y (Str.insert_sorted x l) <-> y = x \/ In y l.
Proof.
  induction l as [| z l IH]; cbn.
  - intuition.
  - destruct (String.leb x z); cbn; [intuition |]. rewrite IH. intuition.
Qed.

Lemma In_sorted y l : In y (Str.sorted l) <-> In y l.
Proof.
  induction l as [| x l IH]; cbn; [tauto |].
  rewrite In_insert_sorted, IH. intuition.
Qed.

(** When no read fails, the loop finds DHCP as soon as one of the netplan
    files it visits enables it. *)
Lemma dhcp_loop_finds rf (d : directory) names fname f :
  (forall n, rf n = false) ->
  (forall n, In n names -> is_Some (lookup_file n d)) ->
  In fname names -> yaml_name fname = true ->
  lookup_file fname d = Some f ->
  Str.is_in "dhcp4: true" (content f) = true ->
  dhcp_loop rf d names = Some true.
Proof.
  intros NF. induction names as [| n names IH]; intros L I Y Lk Mk; [destruct I |].
  cbn [dhcp_loop].
  destruct (yaml_name n) eqn:Yn.
  - rewrite NF.
    destruct (L n ltac:(left; reflexivity)) as [g Lg]. rewrite Lg.
    destruct (Str.is_in "dhcp4: true" (content g) || Str.is_in "dhcp4: yes" (content g))
      eqn:M; [reflexivity |].
    destruct I as [-> | I].
    + rewrite Lk in Lg. injection Lg as <-. rewrite Mk in M. discriminate.
    + apply IH; auto. intros k Hk. apply L. right. exact Hk.
  - destruct I as [-> | I]; [congruence |].
    apply IH; auto. intros k Hk. apply L. right. exact Hk.
Qed.

(** X18.  Applying DHCP and reading it back: after a run in DHCP mode
    that returns [True], the DHCP detection of a later [get_network_info]
    answers [True], provided that call finds a default interface and
    listing the directory and reading its files do not fail. *)
Theorem dhcp_is_read_back
  (e e' : env) (read_fails : string -> bool)
  (ip cidr gateway dns1 dns2 host : string) (iface : string) (w : world) (r : reply) :
  let run := apply_network_config e ip cidr gateway dns1 dns2 host true iface w in
  value_of run = (true, r) ->
  default_interface e' <> EmptyString ->
  listdir_fails e' = false ->
  (forall n, read_fails n = false) ->
  detect_dhcp e' read_fails (world_of run) = true.
Proof.
  intros run R DI LF RF. subst run.
  destruct (apply_network_config e ip cidr gateway dns1 dns2 host true iface w)
    as [[[b r'] w'] t] eqn:A.
  unfold value_of in R. cbn in R. injection R as -> ->.
  apply apply_network_config_states in A.
  destruct A as (_ & _ & _ & _ & _ & Hm & _).
  unfold world_of. cbn [fst snd].
  unfold detect_dhcp, get_default_interface. unfold managed_file in Hm.
  rewrite (proj2 (truthy_true _) DI). cbn [negb].
  destruct (netplan_dir w') as [d |]; [| discriminate].
  rewrite LF.
  erewrite dhcp_loop_finds; [reflexivity | exact RF | | | | exact Hm |].
  - intros n Hn. apply lookup_file_listed. exact (proj1 (In_sorted _ _) Hn).
  - apply (proj2 (In_sorted _ _)). apply lookup_file_listed. rewrite Hm. eauto.
  - reflexivity.
  - cbn [content]. unfold render_netplan. rewrite unlines_app.
    apply is_in_app_r. reflexivity.
Qed.

Lemma dhcp_is_read_back_witness :
  detect_dhcp sample_env (fun _ => false)
    (world_of (apply_network_config sample_env "" "" "" "" "" "" true ""
                 sample_world)) = true.
Proof.
  apply (dhcp_is_read_back sample_env sample_env (fun _ => false)
           "" "" "" "" "" "" "" sample_world (NewAddress "dhcp")).
  - vm_compute. reflexivity.
  - discriminate.
  - reflexivity.
  - intros n. reflexivity.
Defined.

(* ===================================================================== *)
(** ** Acceptance criteria and replies *)
(* ===================================================================== *)

(** X19.  The acceptance criteria of [apply_network_config], whatever the
    order of its checks: the reply is not a validation message exactly
    when, in static mode, [ip] and [gateway] parse as IP addresses, [cidr]
    is an integer in [1,32] and [ip/cidr] parses as a network; each of
    [dns1] and [dns2] is empty or parses as an IP address; and the host
    name is empty or matches the pattern. *)
Theorem validation_criteria
  (e : env) (ip cidr gateway dns1 dns2 host : string) (dhcp : bool)
  (iface : string) (w : world) :
  validation_error
    (snd (value_of (apply_network_config e ip cidr gateway dns1 dns2 host dhcp
                      iface w))) = false <->
  (dhcp = false ->
     valid_ip ip = true /\ valid_ip gateway = true /\ cidr_in_range cidr = true /\
     network_ok (ip +:+ "/" +:+ cidr) = true) /\
  (dns1 <> EmptyString -> valid_ip dns1 = true) /\
  (dns2 <> EmptyString -> valid_ip dns2 = true) /\
  (host <> EmptyString -> hostname_ok host = true).
Proof.
  pose proof (validate_addresses_Ok_None ip cidr gateway dns1 dns2 dhcp) as VN.
  destruct (validate_addresses ip cidr gateway dns1 dns2 dhcp) as [[r0 |] | err] eqn:V.
  - unfold apply_network_config. rewrite V.
    apply validate_addresses_Ok_Some in V as [-> _].
    unfold value_of, ret. cbn [fst snd validation_error].
    split; [discriminate |]. intros (A & B & C & _).
    assert (Py.Ok (Some CidrOutOfRange) = Py.Ok None) by (apply VN; auto).
    discriminate.
  - destruct (Py.truthy host && negb (hostname_ok host)) eqn:H.
    + unfold apply_network_config. rewrite V. unfold hostname_ok in H. rewrite H.
      unfold value_of, ret. cbn [fst snd validation_error].
      split; [discriminate |]. intros (_ & _ & _ & D).
      apply andb_true_iff in H as [T O]. apply truthy_true in T.
      fold (hostname_ok host) in O. rewrite (D T) in O. discriminate.
    + assert (Rhs : (dhcp = false ->
                     valid_ip ip = true /\ valid_ip gateway = true /\
                     cidr_in_range cidr = true /\
                     network_ok (ip +:+ "/" +:+ cidr) = true) /\
                    (dns1 <> EmptyString -> valid_ip dns1 = true) /\
                    (dns2 <> EmptyString -> valid_ip dns2 = true) /\
                    (host <> EmptyString -> hostname_ok host = true)).
      { destruct (proj1 VN eq_refl) as (A & B & C).
        split; [exact A | split; [exact B | split; [exact C |]]].
        intros T. apply truthy_true in T. rewrite T in H. cbn in H.
        apply negb_false_iff in H. exact H. }
      split; [intros _; exact Rhs | intros _].
      destruct (Py.truthy (resolve_iface e iface)) eqn:I.
      * rewrite (apply_network_config_validated _ _ _ _ _ _ _ _ _ _ V H I).
        destruct (clean_old_configs e w) as [[[] w1] t1].
        destruct (write_config e _ w1) as [[[err |] w2] t2]; [reflexivity |].
        destruct (set_hostname_if_provided e host w2) as [[[] w3] t3]. reflexivity.
      * unfold apply_network_config. rewrite V. unfold hostname_ok in H. rewrite H.
        unfold resolve_iface in I. rewrite I. reflexivity.
  - unfold apply_network_config. rewrite V.
    unfold value_of, ret. cbn [fst snd validation_error].
    split; [discriminate |]. intros (A & B & C & _).
    assert (Py.Raise err = Py.Ok None) by (apply VN; auto). discriminate.
Qed.

Lemma validation_criteria_witness :
  validation_error
    (snd (value_of (apply_network_config sample_env "192.168.1.50" "24" "192.168.1.1"
                      "8.8.8.8" "" "edge-01" false "" sample_world))) = false.
Proof.
  apply validation_criteria.
  repeat split; intros; try (vm_compute; reflexivity); congruence.
Defined.

(** X20.  What a successful run tells the client: in static mode the
    address it was given, unchanged; in DHCP mode the sentinel. *)
Theorem applied_run_returns_the_address
  (e : env) (ip cidr gateway dns1 dns2 host : string) (dhcp : bool)
  (iface : string) (w : world) (r : reply) :
  value_of (apply_network_config e ip cidr gateway dns1 dns2 host dhcp iface w)
    = (true, r) ->
  r = NewAddress (if dhcp then "dhcp" else ip) /\
  (dhcp = false -> ip <> "dhcp").
Proof.
  intros R.
  destruct (apply_network_config e ip cidr gateway dns1 dns2 host dhcp iface w)
    as [[[b r'] w'] t] eqn:A.
  unfold value_of in R. cbn in R. injection R as -> ->.
  pose proof (apply_network_config_true _ _ _ _ _ _ _ _ _ _ _ _ _ A) as (V & _ & _).
  apply apply_network_config_states in A. destruct A as (_ & _ & _ & _ & _ & _ & _ & ->).
  apply validate_addresses_Ok_None in V as (S & _ & _).
  destruct dhcp; [split; [reflexivity | discriminate] |].
  destruct (S eq_refl) as (Vi & _).
  split.
  - destruct ip; [discriminate | reflexivity].
  - intros _ ->. discriminate.
Qed.

Lemma applied_run_returns_the_address_witness :
  NewAddress "192.168.1.50" = NewAddress (if false then "dhcp" else "192.168.1.50") /\
  (false = false -> "192.168.1.50" <> "dhcp").
Proof.
  apply (applied_run_returns_the_address sample_env "192.168.1.50" "24" "192.168.1.1"
           "8.8.8.8" "" "" false "" sample_world).
  vm_compute. reflexivity.
Defined.

(* ===================================================================== *)
(** ** Routing ignores the query string *)
(* ===================================================================== *)

Lemma path_of_query p q :
  Py.contains "?" p = false -> path_of (p +:+ String "?" q) = p.
Proof. intros C. unfold path_of. rewrite (split_app_sep _ _ _ C). reflexivity. Qed.

Lemma path_of_plain p : Py.contains "?" p = false -> path_of p = p.
Proof. intros C. unfold path_of. rewrite (split_no_sep _ _ C). reflexivity. Qed.

(** X21.  A query string changes nothing: a request for [p?q] is handled
    exactly as the request for [p], by [do_GET] and by [do_POST]. *)
Theorem query_string_is_ignored
  (e : env) (now : Z) (sid : string) (s : server)
  (p q session client : string) (b : option form) :
  Py.contains "?" p = false ->
  let req path := {| req_path := path; req_session := session;
                     req_client := client; req_body := b |} in
  do_GET e now (req (p +:+ String "?" q)) s = do_GET e now (req p) s /\
  do_POST e now sid (req (p +:+ String "?" q)) s = do_POST e now sid (req p) s.
Proof.
  intros C req. subst req. unfold do_GET, do_POST.
  cbn [req_path req_session req_client req_body].
  rewrite (path_of_query p q C), (path_of_plain p C). split; reflexivity.
Qed.

Lemma query_string_is_ignored_witness :
  let req path := {| req_path := path; req_session := "5e55";
                     req_client := "10.0.0.7"; req_body := None |} in
  do_GET sample_env 1500 (req "/api/network?x=1") sample_server
    = do_GET sample_env 1500 (req "/api/network") sample_server.
Proof.
  cbv zeta.
  apply (proj1 (query_string_is_ignored sample_env 1500 "" sample_server
                  "/api/network" "x=1" "5e55" "10.0.0.7" None eq_refl)).
Defined.

(* ===================================================================== *)
(** ** Applying twice, reading only, and the whole request *)
(* ===================================================================== *)

(** X22.  Applying the same configuration again rewrites the artifact and
    changes no other file: when a first run returned [True] with a cleanup
    that did not fail, a later run of the same request that returns [True],
    whatever its time stamp and the failures of its own cleanup, leaves
    every other file of the netplan directory as the first run left it,
    leaves at [NETPLAN_FILE] the rendering that carries its own time stamp
    (the very file of the first run when time stamp and interface are the
    same), returns the same reply and schedules one more activation. *)
Theorem applying_again_rewrites_the_artifact_only
  (e e2 : env) (ip cidr gateway dns1 dns2 host : string) (dhcp : bool)
  (iface : string) (w : world) (d : directory) (r r' : reply) :
  netplan_dir w = Some d ->
  List.NoDup (List.map fst d) ->
  listdir_fails e = false ->
  (forall f, remove_fails e f = false) ->
  let run e w := apply_network_config e ip cidr gateway dns1 dns2 host dhcp iface w in
  let w1 := world_of (run e w) in
  let w2 := world_of (run e2 w1) in
  value_of (run e w) = (true, r) ->
  value_of (run e2 w1) = (true, r') ->
  r' = r /\
  (forall fname, fname <> NETPLAN_NAME -> file_at fname w2 = file_at fname w1) /\
  managed_file w2 =
    Some {| content := render_netplan e2 ip cidr gateway dns1 dns2 dhcp
                         (resolve_iface e2 iface);
            mode := 384 |} /\
  (utc_stamp e2 = utc_stamp e -> resolve_iface e2 iface = resolve_iface e iface ->
   managed_file w2 = managed_file w1) /\
  scheduled w2 = scheduled w1 ++ ["sleep 2 && netplan apply"].
Proof.
  intros D ND LF RF run w1 w2 R1 R2.
  pose proof (apply_removes_old_configs e ip cidr gateway dns1 dns2 host dhcp iface
                w d r D ND LF RF R1) as Gone.
  fold (run e w) in Gone. fold w1 in Gone.
  destruct (apply_network_config_others e2 ip cidr gateway dns1 dns2 host dhcp iface w1)
    as [O _].
  fold (run e2 w1) in O. fold w2 in O.
  subst w2 w1.
  destruct (run e w) as [[[b1 x1] w1] t1] eqn:A1.
  unfold value_of, world_of in *. cbn [fst snd] in *. injection R1 as -> ->.
  destruct (run e2 w1) as [[[b2 x2] w2] t2] eqn:A2.
  cbn [fst snd] in *. injection R2 as -> ->.
  subst run. cbv beta in A1, A2.
  apply apply_network_config_states in A1, A2.
  destruct A1 as (_ & _ & _ & _ & _ & M1 & _ & ->).
  destruct A2 as (_ & _ & _ & _ & _ & M2 & S2 & ->).
  split; [reflexivity |]. split; [| split; [exact M2 | split; [| exact S2]]].
  - intros fname N.
    destruct (O fname N) as [K | [Y K]]; [exact K |].
    rewrite K. symmetry. apply Gone; assumption.
  - intros St If. rewrite M1, M2. unfold render_netplan, netplan_header.
    rewrite St, If. reflexivity.
Qed.

Lemma applying_again_rewrites_the_artifact_only_witness :
  let later := {| default_interface := "eth0"; utc_stamp := "2024-06-30T12:00:00Z";
                  listdir_fails := true; remove_fails := fun _ => true;
                  makedirs_fails := false; open_fails := false;
                  write_fails := false; chmod_fails := false;
                  hostnamectl_fails := false; create_mode := 420 |} in
  let run e w := apply_network_config e "192.168.1.50" "24" "192.168.1.1"
                   "8.8.8.8" "" "" false "" w in
  let w1 := world_of (run sample_env sample_world) in
  let w2 := world_of (run later w1) in
  NewAddress "192.168.1.50" = NewAddress "192.168.1.50" /\
  (forall fname, fname <> NETPLAN_NAME -> file_at fname w2 = file_at fname w1) /\
  managed_file w2 =
    Some {| content := render_netplan later "192.168.1.50" "24" "192.168.1.1"
                         "8.8.8.8" "" false "eth0";
            mode := 384 |} /\
  (utc_stamp later = utc_stamp sample_env ->
   resolve_iface later "" = resolve_iface sample_env "" ->
   managed_file w2 = managed_file w1) /\
  scheduled w2 = scheduled w1 ++ ["sleep 2 && netplan apply"].
Proof.
  intros later run w1 w2.
  apply (applying_again_rewrites_the_artifact_only sample_env later
           "192.168.1.50" "24" "192.168.1.1" "8.8.8.8" "" "" false "" sample_world
           [("50-cloud-init.yaml", {| content := "network: {}"; mode := 420 |});
            ("99-safeschool-static.yaml", {| content := "old"; mode := 384 |})]).
  - reflexivity.
  - repeat constructor; cbn; intuition discriminate.
  - reflexivity.
  - intros f. reflexivity.
  - vm_compute. reflexivity.
  - vm_compute. reflexivity.
Defined.



(* ===================================================================== *)
(** ** The lines of the artifact *)
(* ===================================================================== *)

Lemma contains_append c a b :
  Py.contains c (a +:+ b) = Py.contains c a || Py.contains c b.
Proof.
  induction a as [| x a IH]; [rewrite append_nil_l; reflexivity |].
  rewrite append_cons. cbn. destruct (Ascii.eqb x c); [reflexivity | exact IH].
Qed.

(** The lines of a text built by [unlines] from lines that hold no
    newline are these lines, followed by the empty rest after the last
    newline. *)
Lemma split_unlines l :
  Forall (fun s => Py.contains "010" s = false) l ->
  Py.split "010" (unlines l) = l ++ [EmptyString].
Proof.
  induction l as [| x l IH]; intros F; [reflexivity |].
  apply Forall_cons in F as [Fx F]. cbn [unlines app].
  unfold nl at 1. rewrite append_cons, append_nil_l.
  rewrite (split_app_sep _ _ _ Fx), (IH F). reflexivity.
Qed.

Lemma dns_str_no_newline dns1 dns2 :
  Py.contains "010" dns1 = false -> Py.contains "010" dns2 = false ->
  Py.contains "010" (dns_str dns1 dns2) = false.
Proof.
  intros A B. unfold dns_str, dns_list.
  destruct dns1 as [| a s], dns2 as [| b s'];
    cbn [List.filter Py.truthy Py.join];
    rewrite ?contains_append, ?A, ?B; reflexivity.
Qed.

(** X24.  The lines of the artifact.  When the time stamp, the interface
    name and, in static mode, the fields hold no newline (no IPv4 address
    does), the file a run that returns [True] leaves at [NETPLAN_FILE],
    cut at its newlines, is the header for the one interface followed, in
    DHCP mode, by [dhcp4: true] and [dhcp6: false] and nothing else; in
    static mode, by [dhcp4: false], [dhcp6: false], the single address
    [ip/cidr], the default route via [gateway] and the name-server list,
    which holds the non-empty ones of [dns1] and [dns2] in that order, or
    8.8.8.8 and 1.1.1.1 when both are empty.  Every line ends in a
    newline. *)
Theorem rendered_artifact_lines
  (e : env) (ip cidr gateway dns1 dns2 host : string) (dhcp : bool)
  (iface : string) (w : world) (r : reply) :
  let run := apply_network_config e ip cidr gateway dns1 dns2 host dhcp iface w in
  let name := resolve_iface e iface in
  value_of run = (true, r) ->
  Forall (fun s => Py.contains "010" s = false)
    (utc_stamp e :: name :: if dhcp then [] else [ip; cidr; gateway; dns1; dns2]) ->
  exists text,
    managed_file (world_of run) = Some {| content := text; mode := 384 |} /\
    Py.split "010" text =
      [ "# SafeSchool Edge -- Network Configuration (managed by network-admin)";
        "# Last modified: " +:+ utc_stamp e;
        "network:";
        "  version: 2";
        "  ethernets:";
        "    " +:+ name +:+ ":" ] ++
      (if dhcp then
         [ "      dhcp4: true";
           "      dhcp6: false" ]
       else
         [ "      dhcp4: false";
           "      dhcp6: false";
           "      addresses:";
           "        - " +:+ ip +:+ "/" +:+ cidr;
           "      routes:";
           "        - to: default";
           "          via: " +:+ gateway;
           "      nameservers:";
           "        addresses: [" +:+
             Py.join ", " (match dns1, dns2 with
                           | EmptyString, EmptyString => ["8.8.8.8"; "1.1.1.1"]
                           | _, EmptyString => [dns1]
                           | EmptyString, _ => [dns2]
                           | _, _ => [dns1; dns2]
                           end) +:+ "]" ]) ++
      [ EmptyString ].
Proof.
  intros run name Hv F. subst run.
  destruct (apply_network_config e ip cidr gateway dns1 dns2 host dhcp iface w)
    as [[[b r'] w'] t] eqn:A.
  unfold value_of in Hv. cbn in Hv. injection Hv as -> ->.
  apply apply_network_config_states in A.
  destruct A as (_ & _ & _ & _ & _ & Hm & _).
  unfold world_of. cbn [fst snd]. fold name in Hm.
  eexists. split; [exact Hm |].
  apply Forall_cons in F as [Fs F]. apply Forall_cons in F as [Fn F].
  unfold render_netplan, netplan_header. destruct dhcp.
  - rewrite split_unlines; [rewrite <- app_assoc; reflexivity |].
    repeat constructor; rewrite ?contains_append, ?Fs, ?Fn; reflexivity.
  - repeat match goal with
           | H : Forall _ (_ :: _) |- _ => apply Forall_cons in H as [? H]
           end.
    pose proof (dns_str_no_newline dns1 dns2) as Fd.
    rewrite split_unlines.
    + rewrite <- app_assoc. cbn [app]. do 15 f_equal.
      unfold dns_str, dns_list.
      destruct dns1 as [| c1 s1], dns2 as [| c2 s2]; reflexivity.
    + repeat constructor;
        rewrite ?contains_append, ?Fs, ?Fn, ?Fd by assumption;
        repeat match goal with H : Py.contains _ _ = false |- _ => rewrite H end;
        reflexivity.
Qed.

Lemma rendered_artifact_lines_witness :
  let run := apply_network_config sample_env "192.168.1.50" "24" "192.168.1.1"
               "8.8.8.8" "" "edge-01" false "" sample_world in
  exists text,
    managed_file (world_of run) = Some {| content := text; mode := 384 |} /\
    Py.split "010" text =
      [ "# SafeSchool Edge -- Network Configuration (managed by network-admin)";
        "# Last modified: 2024-01-01T00:00:00Z";
        "network:";
        "  version: 2";
        "  ethernets:";
        "    eth0:";
        "      dhcp4: false";
        "      dhcp6: false";
        "      addresses:";
        "        - 192.168.1.50/24";
        "      routes:";
        "        - to: default";
        "          via: 192.168.1.1";
        "      nameservers:";
        "        addresses: [8.8.8.8]";
        "" ].
Proof.
  cbv zeta.
  apply (rendered_artifact_lines sample_env "192.168.1.50" "24" "192.168.1.1"
           "8.8.8.8" "" "edge-01" false "" sample_world
           (NewAddress "192.168.1.50")).
  - vm_compute. reflexivity.
  - repeat constructor.
Defined.
